(** * IoT command module: sub-collection bookkeeping of [custom.py]

    A shallow embedding of
    [azure/cli/command_modules/iot/custom.py]: the custom commands that
    fetch an IoT Hub or a Device Provisioning Service (DPS), edit one of
    the lists nested in it (access policies, linked hubs, routing
    endpoints, routes, message enrichments) and send the whole resource
    back through the management SDK.

    Strings are sequences of ASCII characters, so [str.lower] is ASCII
    lower-casing.  Every SDK method is an entry of a [Client] record; a
    command is a function from the client and the log of the SDK calls
    made so far to a result (or an exception) and the calls it makes. *)

From Stdlib Require Import ZArith String Ascii List Bool Lia.
From stdpp Require Import base option list strings gmap.
Import ListNotations.
Open Scope string_scope.
Open Scope list_scope.

(** ** Python strings *)

Definition lower_ascii (c : ascii) : ascii :=
  let n := nat_of_ascii c in
  if (65 <=? n)%nat && (n <=? 90)%nat then ascii_of_nat (n + 32) else c.

(** [s.lower()], on the letters A to Z: a string is a sequence of bytes
    here, and the letters outside ASCII, which Python folds as well,
    are left as they are. The proofs below use [lower] as a function on
    strings and never look inside it. *)
Fixpoint lower (s : string) : string :=
  match s with
  | EmptyString => EmptyString
  | String c s' => String (lower_ascii c) (lower s')
  end.

(** The characters [str.split()] treats as separators: tab, line feed,
    vertical tab, form feed, carriage return, the four ASCII separators
    0x1c-0x1f and the space. *)
Definition is_space (c : ascii) : bool :=
  let n := nat_of_ascii c in
  ((9 <=? n)%nat && (n <=? 13)%nat) || ((28 <=? n)%nat && (n <=? 32)%nat).

Definition flush_word (w : string) (acc : list string) : list string :=
  if String.eqb w EmptyString then acc else w :: acc.

(** [split_words s]: the characters of [s] before its first separator,
    and the words that follow. *)
Fixpoint split_words (s : string) : string * list string :=
  match s with
  | EmptyString => (EmptyString, [])
  | String c s' =>
      let '(w, ws) := split_words s' in
      if is_space c then (EmptyString, flush_word w ws) else (String c w, ws)
  end.

(** [s.split()] *)
Definition split (s : string) : list string :=
  let '(w, ws) := split_words s in flush_word w ws.

(** [sep.join(l)] *)
Definition join (sep : string) (l : list string) : string := String.concat sep l.

(** Truth value of an optional string argument: [None] and [''] are false. *)
Definition truthy (o : option string) : bool :=
  match o with
  | Some s => negb (String.eqb s EmptyString)
  | None => false
  end.

(** Insertion into a list sorted by code point, and [sorted(l)]. *)
Fixpoint insert_sorted (x : string) (l : list string) : list string :=
  match l with
  | [] => [x]
  | y :: l' => if String.leb x y then x :: l else y :: insert_sorted x l'
  end.

Definition sorted (l : list string) : list string := foldr insert_sorted [] l.

(** [timedelta] values, in seconds. *)
Definition timedelta : Type := Z.

(** ** Exceptions *)

Inductive Error : Type :=
| CLIError (msg : string)           (* knack.util.CLIError *)
| KeyError (key : string)           (* missing dictionary key *)
| TypeError                         (* iteration over None *)
| AttributeError (attr : string)    (* attribute of None *)
| IndexError                        (* list index out of range *)
| OverflowError                     (* timedelta out of range *)
| CloudError (msg : string).        (* raised by the SDK call itself *)

#[global] Instance Error_eq_dec : EqDecision Error.
Proof. solve_decision. Defined.

(** ** SDK models: azure.mgmt.iothub.models *)

Inductive AccessRights : Type :=
| registry_read
| registry_write
| service_connect
| device_connect
| registry_read_registry_write
| registry_read_service_connect
| registry_read_device_connect
| registry_write_service_connect
| registry_write_device_connect
| service_connect_device_connect
| registry_read_registry_write_service_connect
| registry_read_registry_write_device_connect
| registry_read_service_connect_device_connect
| registry_write_service_connect_device_connect
| registry_read_registry_write_service_connect_device_connect.

#[global] Instance AccessRights_eq_dec : EqDecision AccessRights.
Proof. solve_decision. Defined.

(** A shared access policy.  [R] is the type of its rights:
    [AccessRights] for [SharedAccessSignatureAuthorizationRule] (hub), the
    comma separated string of
    [SharedAccessSignatureAuthorizationRuleAccessRightsDescription] (DPS). *)
Record AuthorizationRule (R : Type) : Type := mkRule {
  rule_key_name : string;
  rule_primary_key : option string;
  rule_secondary_key : option string;
  rule_rights : R
}.
Arguments mkRule {R}.
Arguments rule_key_name {R}.
Arguments rule_primary_key {R}.
Arguments rule_secondary_key {R}.
Arguments rule_rights {R}.

Definition SharedAccessSignatureAuthorizationRule : Type :=
  AuthorizationRule AccessRights.
Definition SharedAccessSignatureAuthorizationRuleAccessRightsDescription : Type :=
  AuthorizationRule string.

Record RoutingEventHubProperties : Type := mkEventHub {
  eh_connection_string : string;
  eh_name : string;
  eh_subscription_id : string;
  eh_resource_group : string
}.

Record RoutingServiceBusQueueEndpointProperties : Type := mkQueue {
  sbq_connection_string : string;
  sbq_name : string;
  sbq_subscription_id : string;
  sbq_resource_group : string
}.

Record RoutingServiceBusTopicEndpointProperties : Type := mkTopic {
  sbt_connection_string : string;
  sbt_name : string;
  sbt_subscription_id : string;
  sbt_resource_group : string
}.

Record RoutingStorageContainerProperties : Type := mkContainer {
  sc_connection_string : string;
  sc_name : string;
  sc_subscription_id : string;
  sc_resource_group : string;
  sc_container_name : string;
  sc_encoding : string;
  sc_file_name_format : string;
  sc_batch_frequency_in_seconds : Z;
  sc_max_chunk_size_in_bytes : Z
}.

(** The attribute [name] that the endpoint models share. *)
Class Named (A : Type) : Type := name_of : A -> string.
#[global] Instance Named_event_hub : Named RoutingEventHubProperties := eh_name.
#[global] Instance Named_queue : Named RoutingServiceBusQueueEndpointProperties := sbq_name.
#[global] Instance Named_topic : Named RoutingServiceBusTopicEndpointProperties := sbt_name.
#[global] Instance Named_container : Named RoutingStorageContainerProperties := sc_name.

Record RoutingEndpoints : Type := mkEndpoints {
  service_bus_queues : list RoutingServiceBusQueueEndpointProperties;
  service_bus_topics : list RoutingServiceBusTopicEndpointProperties;
  event_hubs : list RoutingEventHubProperties;
  storage_containers : list RoutingStorageContainerProperties
}.

Record RouteProperties : Type := mkRoute {
  rt_name : string;
  rt_source : string;
  rt_condition : string;
  rt_endpoint_names : list string;
  rt_is_enabled : bool
}.

Record EnrichmentProperties : Type := mkEnrichment {
  enrichment_key : string;
  enrichment_value : string;
  enrichment_endpoint_names : list string
}.

(** [routing_enrichments] is the one list the source tests for [None]. *)
Record RoutingProperties : Type := mkRouting {
  routing_endpoints : RoutingEndpoints;
  routing_routes : list RouteProperties;
  routing_enrichments : option (list EnrichmentProperties)
}.

Record EventHubProperties : Type := mkEventHubProperties {
  ehp_retention_time_in_days : Z;
  ehp_partition_count : Z
}.

Record FeedbackProperties : Type := mkFeedback {
  fb_lock_duration_as_iso8601 : timedelta;
  fb_ttl_as_iso8601 : timedelta;
  fb_max_delivery_count : Z
}.

Record CloudToDeviceProperties : Type := mkCloudToDevice {
  ctd_max_delivery_count : Z;
  ctd_default_ttl_as_iso8601 : timedelta;
  ctd_feedback : FeedbackProperties
}.

Record MessagingEndpointProperties : Type := mkMessagingEndpoint {
  me_max_delivery_count : Z;
  me_ttl_as_iso8601 : timedelta
}.

Record StorageEndpointProperties : Type := mkStorageEndpoint {
  se_sas_ttl_as_iso8601 : timedelta;
  se_connection_string : string;
  se_container_name : string
}.

(** [routing] and [authorization_policies] are unset on the properties
    that [iot_hub_create] builds. *)
Record IotHubProperties : Type := mkHubProperties {
  authorization_policies : option (list SharedAccessSignatureAuthorizationRule);
  event_hub_endpoints : gmap string EventHubProperties;
  routing : option RoutingProperties;
  storage_endpoints : gmap string StorageEndpointProperties;
  messaging_endpoints : gmap string MessagingEndpointProperties;
  enable_file_upload_notifications : option bool;
  cloud_to_device : CloudToDeviceProperties;
  host_name : string
}.

Record IotHubSkuInfo : Type := mkHubSku {
  sku_name : string;
  sku_capacity : Z
}.

(** [h_name] is read-only in the SDK (never serialised into a request);
    on a description built locally it is the empty string, and so are
    the other read-only names below. *)
Record IotHubDescription : Type := mkHub {
  h_name : string;
  h_etag : option string;
  h_location : string;
  h_sku : IotHubSkuInfo;
  h_properties : IotHubProperties;
  additional_properties : gmap string string
}.

Record NameAvailabilityInfo : Type := mkAvailability {
  name_available : bool;
  availability_message : string
}.

(** ** SDK models: azure.mgmt.iothubprovisioningservices.models *)

Record IotHubDefinitionDescription : Type := mkLinkedHub {
  linked_name : string;
  linked_connection_string : string;
  linked_location : string;
  linked_apply_allocation_policy : option bool;
  linked_allocation_weight : option Z
}.

Record IotDpsPropertiesDescription : Type := mkDpsProperties {
  iot_hubs : list IotHubDefinitionDescription;
  allocation_policy : option string;
  dps_authorization_policies :
    list SharedAccessSignatureAuthorizationRuleAccessRightsDescription
}.

Record IotDpsSkuInfo : Type := mkDpsSku {
  dps_sku_name : string;
  dps_sku_capacity : Z
}.

(** As for hubs, [d_name] is read-only; [d_etag] is unset on a
    description built locally. *)
Record ProvisioningServiceDescription : Type := mkDps {
  d_name : string;
  d_etag : option string;
  d_location : string;
  d_properties : IotDpsPropertiesDescription;
  d_sku : IotDpsSkuInfo
}.

#[global] Instance EnrichmentProperties_eq_dec : EqDecision EnrichmentProperties.
Proof. solve_decision. Defined.

(** ** Constants the module imports

    [azure.cli.command_modules.iot.shared] (the enumerations
    [EndpointType], [RenewKeyType], [EncodingFormat]) is not among the
    sources: the values of their members are parameters.  So is the order
    in which Python iterates over a set of strings. *)

Inductive EndpointType : Type :=
  EventHub | ServiceBusQueue | ServiceBusTopic | AzureStorageContainer.

Inductive RenewKeyType : Type := Primary | Secondary | Swap.

#[global] Instance EndpointType_eq_dec : EqDecision EndpointType.
Proof. solve_decision. Defined.

Class Shared : Type := {
  EndpointType_value : EndpointType -> string;
  RenewKeyType_value : RenewKeyType -> string;
  EncodingFormat_AVRO_value : string;
  set_to_list : gset string -> list string
}.

(** ** SDK calls and the command monad *)

(** The fourth positional argument of [create_or_update], as the
    commands give it: a dictionary of headers, or nothing. *)
Definition Headers : Type := option (gmap string (option string)).

(** The outcome a long running operation reaches when it is waited for. *)
Definition LROPoller (A : Type) : Type := Error + A.

Inductive Call : Type :=
| iot_hub_resource_list_by_subscription
| iot_hub_resource_list_by_resource_group (rg : string)
| iot_hub_resource_check_name_availability (name : string)
| iot_hub_resource_get (rg name : string)
| iot_hub_resource_list_keys (rg name : string)
| iot_hub_resource_get_keys_for_key_name (rg name policy : string)
| iot_hub_resource_create_or_update
    (rg name : string) (hub : IotHubDescription) (hdrs : Headers)
| resource_groups_check_existence (rg : string)
| resource_groups_get (rg : string)
| utils_generateKey
| iot_dps_resource_list_by_subscription
| iot_dps_resource_list_by_resource_group (rg : string)
| iot_dps_resource_get (name : string) (rg : option string)
| iot_dps_resource_list_keys (name : string) (rg : option string)
| iot_dps_resource_list_keys_for_key_name
    (name policy : string) (rg : option string)
| iot_dps_resource_create_or_update
    (rg : option string) (name : string)
    (dps : ProvisioningServiceDescription) (hdrs : Headers)
| client_set_api_version (v : string).

Definition Trace : Type := list Call.

(** What the service answers, given the calls made before. *)
Record Client : Type := mkClient {
  on_hub_list_by_subscription :
    Trace -> Error + option (list IotHubDescription);
  on_hub_list_by_resource_group :
    Trace -> string -> Error + option (list IotHubDescription);
  on_hub_check_name_availability :
    Trace -> string -> Error + option NameAvailabilityInfo;
  on_hub_get : Trace -> string -> string -> Error + IotHubDescription;
  on_hub_list_keys :
    Trace -> string -> string ->
    Error + list SharedAccessSignatureAuthorizationRule;
  on_hub_get_keys_for_key_name :
    Trace -> string -> string -> string ->
    Error + SharedAccessSignatureAuthorizationRule;
  on_hub_create_or_update :
    Trace -> string -> string -> IotHubDescription -> Headers ->
    Error + LROPoller IotHubDescription;
  on_rg_check_existence : Trace -> string -> Error + bool;
  on_rg_get_location : Trace -> string -> Error + string;
  on_generateKey : Trace -> string;
  on_dps_list_by_subscription :
    Trace -> Error + option (list ProvisioningServiceDescription);
  on_dps_list_by_resource_group :
    Trace -> string -> Error + option (list ProvisioningServiceDescription);
  on_dps_get :
    Trace -> string -> option string -> Error + ProvisioningServiceDescription;
  on_dps_list_keys :
    Trace -> string -> option string ->
    Error + list SharedAccessSignatureAuthorizationRuleAccessRightsDescription;
  on_dps_list_keys_for_key_name :
    Trace -> string -> string -> option string ->
    Error + SharedAccessSignatureAuthorizationRuleAccessRightsDescription;
  on_dps_create_or_update :
    Trace -> option string -> string -> ProvisioningServiceDescription ->
    Headers -> Error + LROPoller ProvisioningServiceDescription
}.

(** A command reads the client and the log of the calls made before it;
    it returns a value or raises, together with the calls it made itself,
    in order. *)
Definition M (A : Type) : Type := Client -> Trace -> (Error + A) * Trace.

#[global] Instance result_fmap : FMap (sum Error) := fun A B f r =>
  match r with
  | inr a => inr (f a)
  | inl e => inl e
  end.

#[global] Instance M_ret : MRet M := fun A a _ _ => (inr a, []).

#[global] Instance M_bind : MBind M := fun A B f m cl tr =>
  match m cl tr with
  | (inr a, new) => let '(r, new') := f a cl (tr ++ new) in (r, new ++ new')
  | (inl e, new) => (inl e, new)
  end.

#[global] Instance M_fmap : FMap M := fun A B f m cl tr =>
  match m cl tr with
  | (inr a, new) => (inr (f a), new)
  | (inl e, new) => (inl e, new)
  end.

Definition raise {A : Type} (e : Error) : M A := fun _ _ => (inl e, []).

(** [timedelta(seconds=s)] and [timedelta(hours=h)], for integers: the
    value is normalised to days and seconds of the day, and an
    [OverflowError] is raised when the number of days (rounded down) has
    a magnitude above 999999999. *)
Definition timedelta_days (seconds : Z) : Z := (seconds / 86400)%Z.

Definition timedelta_of (seconds : Z) : M timedelta :=
  if (Z.abs (timedelta_days seconds) <=? 999999999)%Z then mret seconds
  else raise OverflowError.

Definition timedelta_seconds (s : Z) : M timedelta := timedelta_of s.
Definition timedelta_hours (h : Z) : M timedelta := timedelta_of (h * 3600)%Z.

(** One SDK call: answered from the log before it, and logged. *)
Definition sdk {A : Type} (c : Call) (answer : Client -> Trace -> Error + A) : M A :=
  fun cl tr => (answer cl tr, [c]).

(** [d[k]] *)
Definition getitem {V : Type} (d : gmap string V) (k : string) : M V :=
  match d !! k with
  | Some v => mret v
  | None => raise (KeyError k)
  end.

(** [LongRunningOperation(cli_ctx)(poller)] *)
Definition LongRunningOperation {A : Type} (poller : LROPoller A) : M A :=
  fun _ _ => (poller, []).

Definition is_create_or_update (c : Call) : bool :=
  match c with
  | iot_hub_resource_create_or_update _ _ _ _
  | iot_dps_resource_create_or_update _ _ _ _ => true
  | _ => false
  end.

(** The [create_or_update] calls a command makes after the log [tr]. *)
Definition resubmissions {A : Type} (m : M A) (cl : Client) (tr : Trace) : list Call :=
  List.filter is_create_or_update (m cl tr).2.

(** The if-match precondition of a call: the [IF-MATCH] entry of its
    headers, when it has one. *)
Definition if_match (c : Call) : option (option string) :=
  match c with
  | iot_hub_resource_create_or_update _ _ _ (Some hdrs)
  | iot_dps_resource_create_or_update _ _ _ (Some hdrs) => hdrs !! "IF-MATCH"
  | _ => None
  end.

(** The entity tag inside the description a call submits. *)
Definition submitted_etag (c : Call) : option string :=
  match c with
  | iot_hub_resource_create_or_update _ _ hub _ => h_etag hub
  | iot_dps_resource_create_or_update _ _ dps _ => d_etag dps
  | _ => None
  end.

(** ** Attribute assignment on the SDK models *)

Definition set_rule_primary_key {R} (v : option string) (p : AuthorizationRule R) :=
  mkRule (rule_key_name p) v (rule_secondary_key p) (rule_rights p).
Definition set_rule_secondary_key {R} (v : option string) (p : AuthorizationRule R) :=
  mkRule (rule_key_name p) (rule_primary_key p) v (rule_rights p).
Definition set_rule_rights {R} (v : R) (p : AuthorizationRule R) :=
  mkRule (rule_key_name p) (rule_primary_key p) (rule_secondary_key p) v.

Definition set_linked_apply_allocation_policy (v : option bool) (h : IotHubDefinitionDescription) :=
  mkLinkedHub (linked_name h) (linked_connection_string h) (linked_location h)
    v (linked_allocation_weight h).
Definition set_linked_allocation_weight (v : option Z) (h : IotHubDefinitionDescription) :=
  mkLinkedHub (linked_name h) (linked_connection_string h) (linked_location h)
    (linked_apply_allocation_policy h) v.

Definition set_service_bus_queues v (e : RoutingEndpoints) :=
  mkEndpoints v (service_bus_topics e) (event_hubs e) (storage_containers e).
Definition set_service_bus_topics v (e : RoutingEndpoints) :=
  mkEndpoints (service_bus_queues e) v (event_hubs e) (storage_containers e).
Definition set_event_hubs v (e : RoutingEndpoints) :=
  mkEndpoints (service_bus_queues e) (service_bus_topics e) v (storage_containers e).
Definition set_storage_containers v (e : RoutingEndpoints) :=
  mkEndpoints (service_bus_queues e) (service_bus_topics e) (event_hubs e) v.

Definition set_routing_endpoints v (r : RoutingProperties) :=
  mkRouting v (routing_routes r) (routing_enrichments r).
Definition set_routing_routes v (r : RoutingProperties) :=
  mkRouting (routing_endpoints r) v (routing_enrichments r).
Definition set_routing_enrichments v (r : RoutingProperties) :=
  mkRouting (routing_endpoints r) (routing_routes r) v.

Definition set_authorization_policies v (p : IotHubProperties) :=
  mkHubProperties v (event_hub_endpoints p) (routing p) (storage_endpoints p)
    (messaging_endpoints p) (enable_file_upload_notifications p)
    (cloud_to_device p) (host_name p).
Definition set_event_hub_endpoints v (p : IotHubProperties) :=
  mkHubProperties (authorization_policies p) v (routing p) (storage_endpoints p)
    (messaging_endpoints p) (enable_file_upload_notifications p)
    (cloud_to_device p) (host_name p).
Definition set_routing v (p : IotHubProperties) :=
  mkHubProperties (authorization_policies p) (event_hub_endpoints p) v
    (storage_endpoints p) (messaging_endpoints p)
    (enable_file_upload_notifications p) (cloud_to_device p) (host_name p).
Definition set_storage_endpoints v (p : IotHubProperties) :=
  mkHubProperties (authorization_policies p) (event_hub_endpoints p) (routing p)
    v (messaging_endpoints p) (enable_file_upload_notifications p)
    (cloud_to_device p) (host_name p).
Definition set_messaging_endpoints v (p : IotHubProperties) :=
  mkHubProperties (authorization_policies p) (event_hub_endpoints p) (routing p)
    (storage_endpoints p) v (enable_file_upload_notifications p)
    (cloud_to_device p) (host_name p).
Definition set_enable_file_upload_notifications v (p : IotHubProperties) :=
  mkHubProperties (authorization_policies p) (event_hub_endpoints p) (routing p)
    (storage_endpoints p) (messaging_endpoints p) v
    (cloud_to_device p) (host_name p).
Definition set_cloud_to_device v (p : IotHubProperties) :=
  mkHubProperties (authorization_policies p) (event_hub_endpoints p) (routing p)
    (storage_endpoints p) (messaging_endpoints p)
    (enable_file_upload_notifications p) v (host_name p).

Definition set_h_sku v (h : IotHubDescription) :=
  mkHub (h_name h) (h_etag h) (h_location h) v (h_properties h)
    (additional_properties h).
Definition set_h_properties v (h : IotHubDescription) :=
  mkHub (h_name h) (h_etag h) (h_location h) (h_sku h) v
    (additional_properties h).

(** [hub.properties.routing = r] *)
Definition set_hub_routing (r : RoutingProperties) (hub : IotHubDescription) :=
  set_h_properties (set_routing (Some r) (h_properties hub)) hub.

(** [hub.properties.routing], on the way to one of its attributes: an
    [AttributeError] when it is unset. *)
Definition hub_routing (hub : IotHubDescription) : M RoutingProperties :=
  match routing (h_properties hub) with
  | Some r => mret r
  | None => raise (AttributeError "routing")
  end.

(** ** The commands of [custom.py] *)

Section Commands.
Context `{Shared}.

(** *** Methods of [client.iot_dps_resource] *)

Definition dps_list_by_subscription :
  M (option (list ProvisioningServiceDescription)) :=
  sdk iot_dps_resource_list_by_subscription on_dps_list_by_subscription.

Definition dps_list_by_resource_group (rg : string) :
  M (option (list ProvisioningServiceDescription)) :=
  sdk (iot_dps_resource_list_by_resource_group rg)
      (fun cl tr => on_dps_list_by_resource_group cl tr rg).

Definition dps_get (name : string) (rg : option string) :
  M ProvisioningServiceDescription :=
  sdk (iot_dps_resource_get name rg) (fun cl tr => on_dps_get cl tr name rg).

Definition dps_list_keys (name : string) (rg : option string) :
  M (list SharedAccessSignatureAuthorizationRuleAccessRightsDescription) :=
  sdk (iot_dps_resource_list_keys name rg)
      (fun cl tr => on_dps_list_keys cl tr name rg).

Definition dps_list_keys_for_key_name (name policy : string) (rg : option string) :
  M SharedAccessSignatureAuthorizationRuleAccessRightsDescription :=
  sdk (iot_dps_resource_list_keys_for_key_name name policy rg)
      (fun cl tr => on_dps_list_keys_for_key_name cl tr name policy rg).

Definition dps_create_or_update (rg : option string) (name : string)
    (dps : ProvisioningServiceDescription) (hdrs : Headers) :
  M (LROPoller ProvisioningServiceDescription) :=
  sdk (iot_dps_resource_create_or_update rg name dps hdrs)
      (fun cl tr => on_dps_create_or_update cl tr rg name dps hdrs).

(** [client.api_version = v] *)
Definition set_api_version (v : string) : M unit :=
  sdk (client_set_api_version v) (fun _ _ => inr tt).

(** *** CUSTOM METHODS FOR DPS *)

Definition iot_dps_list (resource_group_name : option string) :
  M (option (list ProvisioningServiceDescription)) :=
  match resource_group_name with
  | None => dps_list_by_subscription
  | Some rg => dps_list_by_resource_group rg
  end.

Definition _get_iot_dps_by_name (dps_name : string) (resource_group : option string) :
  M ProvisioningServiceDescription :=
  all_dps ← iot_dps_list resource_group;
  match all_dps with
  | None => raise (CLIError "No DPS found in current subscription.")
  | Some all_dps =>
      match List.find (fun x => String.eqb (lower dps_name) (lower (d_name x))) all_dps with
      | Some target_dps => mret target_dps
      | None =>
          raise (CLIError ("No DPS found with name " +:+ dps_name +:+
                           " in current subscription."))
      end
  end.

Definition iot_dps_get (dps_name : string) (resource_group_name : option string) :
  M ProvisioningServiceDescription :=
  match resource_group_name with
  | None => _get_iot_dps_by_name dps_name resource_group_name
  | Some _ => dps_get dps_name resource_group_name
  end.

Definition iot_dps_update (dps_name : string)
    (parameters : ProvisioningServiceDescription)
    (resource_group_name : option string) :
  M (LROPoller ProvisioningServiceDescription) :=
  dps_create_or_update resource_group_name dps_name parameters None.

Definition _is_policy_existed {R : Type}
    (policies : list (AuthorizationRule R)) (policy_name : string) : bool :=
  let policy_set : gset string :=
    list_to_set (map (fun p => lower (rule_key_name p)) policies) in
  bool_decide (lower policy_name ∈ policy_set).

Definition _is_linked_hub_existed
    (hubs : list IotHubDefinitionDescription) (hub_name : string) : bool :=
  let hub_set : gset string :=
    list_to_set (map (fun h => lower (linked_name h)) hubs) in
  bool_decide (lower hub_name ∈ hub_set).

Definition _convert_rights_to_access_rights (right_list : list string) : string :=
  let right_set : gset string := list_to_set right_list in
  join "," (set_to_list right_set).

(** DPS access policy methods *)

Definition iot_dps_access_policy_list (dps_name : string)
    (resource_group_name : option string) :
  M (list SharedAccessSignatureAuthorizationRuleAccessRightsDescription) :=
  _ ← iot_dps_get dps_name resource_group_name;
  dps_list_keys dps_name resource_group_name.

Definition iot_dps_access_policy_get (dps_name : string)
    (resource_group_name : option string) (access_policy_name : string) :
  M SharedAccessSignatureAuthorizationRuleAccessRightsDescription :=
  _ ← iot_dps_get dps_name resource_group_name;
  dps_list_keys_for_key_name dps_name access_policy_name resource_group_name.

(** The description the DPS commands send: location and sku of the
    fetched [dps], the rebuilt properties, no name and no entity tag. *)
Definition dps_description_of (dps : ProvisioningServiceDescription)
    (dps_property : IotDpsPropertiesDescription) : ProvisioningServiceDescription :=
  mkDps EmptyString None (d_location dps) dps_property (d_sku dps).

(** With [no_wait] a command returns the poller ([inl]), otherwise it
    waits and returns what it reads back ([inr]). *)
Definition iot_dps_access_policy_create (dps_name : string)
    (resource_group_name : option string) (access_policy_name : string)
    (rights : list string) (primary_key secondary_key : option string)
    (no_wait : bool) :
  M (LROPoller ProvisioningServiceDescription +
     SharedAccessSignatureAuthorizationRuleAccessRightsDescription) :=
  dps_access_policies ← iot_dps_access_policy_list dps_name resource_group_name;
  if _is_policy_existed dps_access_policies access_policy_name then
    raise (CLIError ("Access policy " +:+ access_policy_name +:+ " already existed."))
  else
    let access_policy_rights := _convert_rights_to_access_rights rights in
    let dps_access_policies :=
      dps_access_policies ++
      [mkRule access_policy_name primary_key secondary_key access_policy_rights] in
    dps ← iot_dps_get dps_name resource_group_name;
    let dps_property :=
      mkDpsProperties (iot_hubs (d_properties dps))
        (allocation_policy (d_properties dps)) dps_access_policies in
    let dps_description := dps_description_of dps dps_property in
    if no_wait then
      inl <$> dps_create_or_update resource_group_name dps_name dps_description None
    else
      poller ← dps_create_or_update resource_group_name dps_name dps_description None;
      _ ← LongRunningOperation poller;
      inr <$> iot_dps_access_policy_get dps_name resource_group_name access_policy_name.

(** The body of the loop of [iot_dps_access_policy_update]. *)
Definition update_policy (access_policy_name : string)
    (primary_key secondary_key : option string) (rights : option (list string))
    (policy : SharedAccessSignatureAuthorizationRuleAccessRightsDescription) :
  SharedAccessSignatureAuthorizationRuleAccessRightsDescription :=
  if String.eqb (rule_key_name policy) access_policy_name then
    let policy :=
      match primary_key with
      | Some k => set_rule_primary_key (Some k) policy
      | None => policy
      end in
    let policy :=
      match secondary_key with
      | Some k => set_rule_secondary_key (Some k) policy
      | None => policy
      end in
    match rights with
    | Some r => set_rule_rights (_convert_rights_to_access_rights r) policy
    | None => policy
    end
  else policy.

Definition iot_dps_access_policy_update (dps_name : string)
    (resource_group_name : option string) (access_policy_name : string)
    (primary_key secondary_key : option string) (rights : option (list string))
    (no_wait : bool) :
  M (LROPoller ProvisioningServiceDescription +
     SharedAccessSignatureAuthorizationRuleAccessRightsDescription) :=
  dps_access_policies ← iot_dps_access_policy_list dps_name resource_group_name;
  if negb (_is_policy_existed dps_access_policies access_policy_name) then
    raise (CLIError ("Access policy " +:+ access_policy_name +:+ " doesn't exist."))
  else
    let dps_access_policies :=
      map (update_policy access_policy_name primary_key secondary_key rights)
          dps_access_policies in
    dps ← iot_dps_get dps_name resource_group_name;
    let dps_property :=
      mkDpsProperties (iot_hubs (d_properties dps))
        (allocation_policy (d_properties dps)) dps_access_policies in
    let dps_description := dps_description_of dps dps_property in
    if no_wait then
      inl <$> dps_create_or_update resource_group_name dps_name dps_description None
    else
      poller ← dps_create_or_update resource_group_name dps_name dps_description None;
      _ ← LongRunningOperation poller;
      inr <$> iot_dps_access_policy_get dps_name resource_group_name access_policy_name.

Definition iot_dps_access_policy_delete (dps_name : string)
    (resource_group_name : option string) (access_policy_name : string)
    (no_wait : bool) :
  M (LROPoller ProvisioningServiceDescription +
     list SharedAccessSignatureAuthorizationRuleAccessRightsDescription) :=
  dps_access_policies ← iot_dps_access_policy_list dps_name resource_group_name;
  if negb (_is_policy_existed dps_access_policies access_policy_name) then
    raise (CLIError ("Access policy " +:+ access_policy_name +:+ " doesn't existed."))
  else
    let updated_policies :=
      List.filter
        (fun p => negb (String.eqb (lower (rule_key_name p)) (lower access_policy_name)))
        dps_access_policies in
    dps ← iot_dps_get dps_name resource_group_name;
    let dps_property :=
      mkDpsProperties (iot_hubs (d_properties dps))
        (allocation_policy (d_properties dps)) updated_policies in
    let dps_description := dps_description_of dps dps_property in
    if no_wait then
      inl <$> dps_create_or_update resource_group_name dps_name dps_description None
    else
      poller ← dps_create_or_update resource_group_name dps_name dps_description None;
      _ ← LongRunningOperation poller;
      inr <$> iot_dps_access_policy_list dps_name resource_group_name.

(** DPS linked hub methods *)

Definition iot_dps_linked_hub_list (dps_name : string)
    (resource_group_name : option string) : M (list IotHubDefinitionDescription) :=
  dps ← iot_dps_get dps_name resource_group_name;
  mret (iot_hubs (d_properties dps)).

Definition iot_dps_linked_hub_get (dps_name : string)
    (resource_group_name : option string) (linked_hub : string) :
  M IotHubDefinitionDescription :=
  dps ← iot_dps_get dps_name resource_group_name;
  match List.find (fun hub => String.eqb (linked_name hub) linked_hub)
                  (iot_hubs (d_properties dps)) with
  | Some hub => mret hub
  | None =>
      raise (CLIError ("Linked hub '" +:+ linked_hub +:+
        "' does not exist. Use 'iot dps linked-hub show to see all linked hubs."))
  end.

Definition iot_dps_linked_hub_create (dps_name : string)
    (resource_group_name : option string) (connection_string location : string)
    (apply_allocation_policy : option bool) (allocation_weight : option Z)
    (no_wait : bool) :
  M (LROPoller ProvisioningServiceDescription + list IotHubDefinitionDescription) :=
  dps_linked_hubs ← iot_dps_linked_hub_list dps_name resource_group_name;
  _ ← set_api_version "2017-11-15";
  let dps_linked_hubs :=
    dps_linked_hubs ++
    [mkLinkedHub EmptyString connection_string location
       apply_allocation_policy allocation_weight] in
  dps ← iot_dps_get dps_name resource_group_name;
  let dps_property :=
    mkDpsProperties dps_linked_hubs (allocation_policy (d_properties dps))
      (dps_authorization_policies (d_properties dps)) in
  let dps_description := dps_description_of dps dps_property in
  if no_wait then
    inl <$> dps_create_or_update resource_group_name dps_name dps_description None
  else
    poller ← dps_create_or_update resource_group_name dps_name dps_description None;
    _ ← LongRunningOperation poller;
    inr <$> iot_dps_linked_hub_list dps_name resource_group_name.

(** The body of the loop of [iot_dps_linked_hub_update]. *)
Definition update_linked_hub (linked_hub : string)
    (apply_allocation_policy : option bool) (allocation_weight : option Z)
    (hub : IotHubDefinitionDescription) : IotHubDefinitionDescription :=
  if String.eqb (linked_name hub) linked_hub then
    let hub :=
      match apply_allocation_policy with
      | Some a => set_linked_apply_allocation_policy (Some a) hub
      | None => hub
      end in
    match allocation_weight with
    | Some w => set_linked_allocation_weight (Some w) hub
    | None => hub
    end
  else hub.

Definition iot_dps_linked_hub_update (dps_name : string)
    (resource_group_name : option string) (linked_hub : string)
    (apply_allocation_policy : option bool) (allocation_weight : option Z)
    (no_wait : bool) :
  M (LROPoller ProvisioningServiceDescription + IotHubDefinitionDescription) :=
  dps_linked_hubs ← iot_dps_linked_hub_list dps_name resource_group_name;
  if negb (_is_linked_hub_existed dps_linked_hubs linked_hub) then
    raise (CLIError ("Access policy " +:+ linked_hub +:+ " doesn't existed."))
  else
    let dps_linked_hubs :=
      map (update_linked_hub linked_hub apply_allocation_policy allocation_weight)
          dps_linked_hubs in
    dps ← iot_dps_get dps_name resource_group_name;
    let dps_property :=
      mkDpsProperties dps_linked_hubs (allocation_policy (d_properties dps))
        (dps_authorization_policies (d_properties dps)) in
    let dps_description := dps_description_of dps dps_property in
    if no_wait then
      inl <$> dps_create_or_update resource_group_name dps_name dps_description None
    else
      poller ← dps_create_or_update resource_group_name dps_name dps_description None;
      _ ← LongRunningOperation poller;
      inr <$> iot_dps_linked_hub_get dps_name resource_group_name linked_hub.

Definition iot_dps_linked_hub_delete (dps_name : string)
    (resource_group_name : option string) (linked_hub : string) (no_wait : bool) :
  M (LROPoller ProvisioningServiceDescription + list IotHubDefinitionDescription) :=
  dps_linked_hubs ← iot_dps_linked_hub_list dps_name resource_group_name;
  if negb (_is_linked_hub_existed dps_linked_hubs linked_hub) then
    raise (CLIError ("Linked hub " +:+ linked_hub +:+ " doesn't existed."))
  else
    let updated_hub :=
      List.filter
        (fun p => negb (String.eqb (lower (linked_name p)) (lower linked_hub)))
        dps_linked_hubs in
    dps ← iot_dps_get dps_name resource_group_name;
    let dps_property :=
      mkDpsProperties updated_hub (allocation_policy (d_properties dps))
        (dps_authorization_policies (d_properties dps)) in
    let dps_description := dps_description_of dps dps_property in
    if no_wait then
      inl <$> dps_create_or_update resource_group_name dps_name dps_description None
    else
      poller ← dps_create_or_update resource_group_name dps_name dps_description None;
      _ ← LongRunningOperation poller;
      inr <$> iot_dps_linked_hub_list dps_name resource_group_name.

(** *** Methods of [client.iot_hub_resource], of the resource group
    client, and [generateKey] *)

Definition hub_list_by_subscription : M (option (list IotHubDescription)) :=
  sdk iot_hub_resource_list_by_subscription on_hub_list_by_subscription.

Definition hub_list_by_resource_group (rg : string) :
  M (option (list IotHubDescription)) :=
  sdk (iot_hub_resource_list_by_resource_group rg)
      (fun cl tr => on_hub_list_by_resource_group cl tr rg).

Definition hub_check_name_availability (name : string) :
  M (option NameAvailabilityInfo) :=
  sdk (iot_hub_resource_check_name_availability name)
      (fun cl tr => on_hub_check_name_availability cl tr name).

Definition hub_get (rg name : string) : M IotHubDescription :=
  sdk (iot_hub_resource_get rg name) (fun cl tr => on_hub_get cl tr rg name).

Definition hub_list_keys (rg name : string) :
  M (list SharedAccessSignatureAuthorizationRule) :=
  sdk (iot_hub_resource_list_keys rg name)
      (fun cl tr => on_hub_list_keys cl tr rg name).

Definition hub_get_keys_for_key_name (rg name policy : string) :
  M SharedAccessSignatureAuthorizationRule :=
  sdk (iot_hub_resource_get_keys_for_key_name rg name policy)
      (fun cl tr => on_hub_get_keys_for_key_name cl tr rg name policy).

Definition hub_create_or_update (rg name : string) (hub : IotHubDescription)
    (hdrs : Headers) : M (LROPoller IotHubDescription) :=
  sdk (iot_hub_resource_create_or_update rg name hub hdrs)
      (fun cl tr => on_hub_create_or_update cl tr rg name hub hdrs).

Definition rg_check_existence (rg : string) : M bool :=
  sdk (resource_groups_check_existence rg)
      (fun cl tr => on_rg_check_existence cl tr rg).

Definition rg_get_location (rg : string) : M string :=
  sdk (resource_groups_get rg) (fun cl tr => on_rg_get_location cl tr rg).

Definition generateKey : M string :=
  sdk utils_generateKey (fun cl tr => inr (on_generateKey cl tr)).

(** [{'IF-MATCH': hub.etag}] *)
Definition if_match_headers (hub : IotHubDescription) : Headers :=
  Some {[ "IF-MATCH" := h_etag hub ]}.

(** *** CUSTOM METHODS *)

Definition _check_name_availability (hub_name : string) : M unit :=
  name_availability ← hub_check_name_availability hub_name;
  match name_availability with
  | Some a =>
      if negb (name_available a) then raise (CLIError (availability_message a))
      else mret tt
  | None => mret tt
  end.

Definition iot_hub_list (resource_group_name : option string) :
  M (option (list IotHubDescription)) :=
  match resource_group_name with
  | None => hub_list_by_subscription
  | Some rg => hub_list_by_resource_group rg
  end.

Definition _get_iot_hub_by_name (hub_name : string) : M IotHubDescription :=
  all_hubs ← iot_hub_list None;
  match all_hubs with
  | None => raise (CLIError "No IoT Hub found in current subscription.")
  | Some all_hubs =>
      match List.find (fun x => String.eqb (lower hub_name) (lower (h_name x))) all_hubs with
      | Some target_hub => mret target_hub
      | None =>
          raise (CLIError ("No IoT Hub found with name " +:+ hub_name +:+
                           " in current subscription."))
      end
  end.

Definition _ensure_location (resource_group_name : string) (location : option string) :
  M string :=
  match location with
  | None => rg_get_location resource_group_name
  | Some location => mret location
  end.

Definition _ensure_resource_group_existence (resource_group_name : string) : M bool :=
  rg_check_existence resource_group_name.

Definition _ensure_resource_group_name (resource_group_name : option string)
    (hub_name : string) : M string :=
  match resource_group_name with
  | None =>
      hub ← _get_iot_hub_by_name hub_name;
      getitem (additional_properties hub) "resourcegroup"
  | Some resource_group_name => mret resource_group_name
  end.

Definition iot_hub_get (hub_name : string) (resource_group_name : option string) :
  M IotHubDescription :=
  match resource_group_name with
  | None => _get_iot_hub_by_name hub_name
  | Some resource_group_name =>
      existence ← _ensure_resource_group_existence resource_group_name;
      if negb existence then
        raise (CLIError ("Resource group '" +:+ resource_group_name +:+
                         "' could not be found."))
      else
        name_availability ← hub_check_name_availability hub_name;
        match name_availability with
        | Some (mkAvailability true _) =>
            raise (CLIError ("An IotHub '" +:+ hub_name +:+
                             "' under resource group '" +:+ resource_group_name +:+
                             "' was not found."))
        | _ => hub_get resource_group_name hub_name
        end
  end.

Definition iot_hub_update (hub_name : string) (parameters : IotHubDescription)
    (resource_group_name : option string) : M (LROPoller IotHubDescription) :=
  resource_group_name ← _ensure_resource_group_name resource_group_name hub_name;
  hub_create_or_update resource_group_name hub_name parameters
    (if_match_headers parameters).

Definition iot_hub_create (hub_name resource_group_name : string)
    (location : option string) (sku : string)
    (unit partition_count retention_day c2d_ttl c2d_max_delivery_count
     feedback_lock_duration feedback_ttl feedback_max_delivery_count : Z)
    (enable_fileupload_notifications : bool)
    (fileupload_notification_max_delivery_count fileupload_notification_ttl : Z)
    (fileupload_storage_connectionstring fileupload_storage_container_name :
       option string)
    (fileupload_sas_ttl : Z) : M (LROPoller IotHubDescription) :=
  if enable_fileupload_notifications &&
     (negb (truthy fileupload_storage_connectionstring) ||
      negb (truthy fileupload_storage_container_name)) then
    raise (CLIError
      "Please specify storage endpoint(storage connection string and storage container name).")
  else if truthy fileupload_storage_connectionstring &&
          negb (truthy fileupload_storage_container_name) then
    raise (CLIError "Please mention storage container name.")
  else if truthy fileupload_storage_container_name &&
          negb (truthy fileupload_storage_connectionstring) then
    raise (CLIError "Please mention storage connection string.")
  else
    _ ← _check_name_availability hub_name;
    location ← _ensure_location resource_group_name location;
    let sku := mkHubSku sku unit in
    let event_hub_dic : gmap string EventHubProperties :=
      {[ "events" := mkEventHubProperties retention_day partition_count ]} in
    lock_duration ← timedelta_seconds feedback_lock_duration;
    ttl ← timedelta_hours feedback_ttl;
    let feedback_Properties :=
      mkFeedback lock_duration ttl feedback_max_delivery_count in
    default_ttl ← timedelta_hours c2d_ttl;
    let cloud_to_device_properties :=
      mkCloudToDevice c2d_max_delivery_count default_ttl feedback_Properties in
    notification_ttl ← timedelta_hours fileupload_notification_ttl;
    let msg_endpoint_dic : gmap string MessagingEndpointProperties :=
      {[ "fileNotifications" :=
           mkMessagingEndpoint fileupload_notification_max_delivery_count
             notification_ttl ]} in
    sas_ttl ← timedelta_hours fileupload_sas_ttl;
    let storage_endpoint_dic : gmap string StorageEndpointProperties :=
      {[ "$default" :=
           mkStorageEndpoint sas_ttl
             (if truthy fileupload_storage_connectionstring
              then default EmptyString fileupload_storage_connectionstring
              else EmptyString)
             (if truthy fileupload_storage_container_name
              then default EmptyString fileupload_storage_container_name
              else EmptyString) ]} in
    let properties :=
      mkHubProperties None event_hub_dic None storage_endpoint_dic
        msg_endpoint_dic None cloud_to_device_properties EmptyString in
    let properties :=
      set_enable_file_upload_notifications (Some enable_fileupload_notifications)
        properties in
    let hub_description := mkHub EmptyString None location sku properties ∅ in
    hub_create_or_update resource_group_name hub_name hub_description None.

(** [if x is not None: instance = f x instance] *)
Definition when_given {X : Type} (x : option X)
    (f : X -> IotHubDescription -> M IotHubDescription)
    (instance : IotHubDescription) : M IotHubDescription :=
  match x with
  | Some x => f x instance
  | None => mret instance
  end.

Definition set_cloud_to_device_of (f : CloudToDeviceProperties -> CloudToDeviceProperties)
    (instance : IotHubDescription) : IotHubDescription :=
  set_h_properties
    (set_cloud_to_device (f (cloud_to_device (h_properties instance)))
       (h_properties instance)) instance.

Definition set_feedback_of (f : FeedbackProperties -> FeedbackProperties)
    (instance : IotHubDescription) : IotHubDescription :=
  set_cloud_to_device_of
    (fun c => mkCloudToDevice (ctd_max_delivery_count c)
                (ctd_default_ttl_as_iso8601 c) (f (ctd_feedback c))) instance.

(** [instance.properties.messaging_endpoints['fileNotifications'].x = v] *)
Definition set_file_notifications_of
    (f : MessagingEndpointProperties -> MessagingEndpointProperties)
    (instance : IotHubDescription) : M IotHubDescription :=
  e ← getitem (messaging_endpoints (h_properties instance)) "fileNotifications";
  mret (set_h_properties
          (set_messaging_endpoints
             (<[ "fileNotifications" := f e ]>
                (messaging_endpoints (h_properties instance)))
             (h_properties instance)) instance).

(** [instance.properties.storage_endpoints['$default'].x = v] *)
Definition set_default_storage_of
    (f : StorageEndpointProperties -> StorageEndpointProperties)
    (instance : IotHubDescription) : M IotHubDescription :=
  e ← getitem (storage_endpoints (h_properties instance)) "$default";
  mret (set_h_properties
          (set_storage_endpoints
             (<[ "$default" := f e ]> (storage_endpoints (h_properties instance)))
             (h_properties instance)) instance).

Definition update_iot_hub_custom (instance : IotHubDescription)
    (sku : option string)
    (unit retention_day c2d_ttl c2d_max_delivery_count feedback_lock_duration
     feedback_ttl feedback_max_delivery_count : option Z)
    (enable_fileupload_notifications : option bool)
    (fileupload_notification_max_delivery_count fileupload_notification_ttl :
       option Z)
    (fileupload_storage_connectionstring fileupload_storage_container_name :
       option string)
    (fileupload_sas_ttl : option Z) : M IotHubDescription :=
  instance ← when_given sku (fun sku instance =>
    mret (set_h_sku (mkHubSku sku (sku_capacity (h_sku instance))) instance)) instance;
  instance ← when_given unit (fun unit instance =>
    mret (set_h_sku (mkHubSku (sku_name (h_sku instance)) unit) instance)) instance;
  instance ← when_given retention_day (fun retention_day instance =>
    e ← getitem (event_hub_endpoints (h_properties instance)) "events";
    mret (set_h_properties
            (set_event_hub_endpoints
               (<[ "events" := mkEventHubProperties retention_day (ehp_partition_count e) ]>
                  (event_hub_endpoints (h_properties instance)))
               (h_properties instance)) instance)) instance;
  instance ← when_given c2d_ttl (fun c2d_ttl instance =>
    ttl ← timedelta_hours c2d_ttl;
    mret (set_cloud_to_device_of (fun c =>
      mkCloudToDevice (ctd_max_delivery_count c) ttl (ctd_feedback c))
      instance)) instance;
  instance ← when_given c2d_max_delivery_count (fun c2d_max_delivery_count instance =>
    mret (set_cloud_to_device_of (fun c =>
      mkCloudToDevice c2d_max_delivery_count (ctd_default_ttl_as_iso8601 c)
        (ctd_feedback c)) instance)) instance;
  instance ← when_given feedback_lock_duration (fun feedback_lock_duration instance =>
    duration ← timedelta_seconds feedback_lock_duration;
    mret (set_feedback_of (fun f =>
      mkFeedback duration (fb_ttl_as_iso8601 f) (fb_max_delivery_count f))
      instance)) instance;
  instance ← when_given feedback_ttl (fun feedback_ttl instance =>
    ttl ← timedelta_hours feedback_ttl;
    mret (set_feedback_of (fun f =>
      mkFeedback (fb_lock_duration_as_iso8601 f) ttl (fb_max_delivery_count f))
      instance)) instance;
  instance ← when_given feedback_max_delivery_count
    (fun feedback_max_delivery_count instance =>
    mret (set_feedback_of (fun f =>
      mkFeedback (fb_lock_duration_as_iso8601 f) (fb_ttl_as_iso8601 f)
        feedback_max_delivery_count) instance)) instance;
  instance ← when_given enable_fileupload_notifications
    (fun enable_fileupload_notifications instance =>
    mret (set_h_properties
            (set_enable_file_upload_notifications
               (Some enable_fileupload_notifications) (h_properties instance))
            instance)) instance;
  instance ← when_given fileupload_notification_max_delivery_count
    (fun count instance =>
    set_file_notifications_of (fun e =>
      mkMessagingEndpoint count (me_ttl_as_iso8601 e)) instance) instance;
  instance ← when_given fileupload_notification_ttl
    (fun fileupload_notification_ttl instance =>
    ttl ← timedelta_hours fileupload_notification_ttl;
    set_file_notifications_of (fun e =>
      mkMessagingEndpoint (me_max_delivery_count e) ttl) instance) instance;
  instance ←
    match fileupload_storage_connectionstring, fileupload_storage_container_name with
    | Some connectionstring, Some container_name =>
        instance ← set_default_storage_of (fun e =>
          mkStorageEndpoint (se_sas_ttl_as_iso8601 e) connectionstring
            (se_container_name e)) instance;
        set_default_storage_of (fun e =>
          mkStorageEndpoint (se_sas_ttl_as_iso8601 e) (se_connection_string e)
            container_name) instance
    | Some _, None => raise (CLIError "Please mention storage container name.")
    | None, Some _ => raise (CLIError "Please mention storage connection string.")
    | None, None => mret instance
    end;
  when_given fileupload_sas_ttl (fun fileupload_sas_ttl instance =>
    ttl ← timedelta_hours fileupload_sas_ttl;
    set_default_storage_of (fun e =>
      mkStorageEndpoint ttl (se_connection_string e) (se_container_name e))
      instance) instance.

(** Hub policies *)

Definition iot_hub_policy_list (hub_name : string)
    (resource_group_name : option string) :
  M (list SharedAccessSignatureAuthorizationRule) :=
  resource_group_name ← _ensure_resource_group_name resource_group_name hub_name;
  hub_list_keys resource_group_name hub_name.

Definition iot_hub_policy_get (hub_name policy_name : string)
    (resource_group_name : option string) :
  M SharedAccessSignatureAuthorizationRule :=
  resource_group_name ← _ensure_resource_group_name resource_group_name hub_name;
  hub_get_keys_for_key_name resource_group_name hub_name policy_name.

Definition access_rights_mapping : gmap string AccessRights :=
  list_to_map
    [ ("registryread", registry_read);
      ("registrywrite", registry_write);
      ("serviceconnect", service_connect);
      ("deviceconnect", device_connect);
      ("registryread_registrywrite", registry_read_registry_write);
      ("registryread_serviceconnect", registry_read_service_connect);
      ("deviceconnect_registryread", registry_read_device_connect);
      ("registrywrite_serviceconnect", registry_write_service_connect);
      ("deviceconnect_registrywrite", registry_write_device_connect);
      ("deviceconnect_serviceconnect", service_connect_device_connect);
      ("registryread_registrywrite_serviceconnect",
       registry_read_registry_write_service_connect);
      ("deviceconnect_registryread_registrywrite",
       registry_read_registry_write_device_connect);
      ("deviceconnect_registryread_serviceconnect",
       registry_read_service_connect_device_connect);
      ("deviceconnect_registrywrite_serviceconnect",
       registry_write_service_connect_device_connect);
      ("deviceconnect_registryread_registrywrite_serviceconnect",
       registry_read_registry_write_service_connect_device_connect) ].

(** Convert permission list to AccessRights from IoT SDK. *)
Definition _convert_perms_to_access_rights (perm_list : list string) : M AccessRights :=
  let perm_set : gset string := list_to_set perm_list in
  let sorted_perm_list := sorted (set_to_list perm_set) in
  let perm_key := join "_" sorted_perm_list in
  getitem access_rights_mapping perm_key.

Definition set_hub_authorization_policies
    (policies : list SharedAccessSignatureAuthorizationRule)
    (hub : IotHubDescription) : IotHubDescription :=
  set_h_properties (set_authorization_policies (Some policies) (h_properties hub)) hub.

Definition iot_hub_policy_create (hub_name policy_name : string)
    (permissions : list string) (resource_group_name : option string) :
  M (LROPoller IotHubDescription) :=
  rights ← _convert_perms_to_access_rights permissions;
  hub ← iot_hub_get hub_name resource_group_name;
  rg ← getitem (additional_properties hub) "resourcegroup";
  policies ← iot_hub_policy_list hub_name (Some rg);
  if _is_policy_existed policies policy_name then
    raise (CLIError ("Policy " +:+ policy_name +:+ " already existed."))
  else
    let policies := policies ++ [mkRule policy_name None None rights] in
    let hub := set_hub_authorization_policies policies hub in
    rg ← getitem (additional_properties hub) "resourcegroup";
    hub_create_or_update rg hub_name hub (if_match_headers hub).

Definition iot_hub_policy_delete (hub_name policy_name : string)
    (resource_group_name : option string) : M (LROPoller IotHubDescription) :=
  hub ← iot_hub_get hub_name resource_group_name;
  rg ← getitem (additional_properties hub) "resourcegroup";
  policies ← iot_hub_policy_list hub_name (Some rg);
  if negb (_is_policy_existed policies policy_name) then
    raise (CLIError ("Policy " +:+ policy_name +:+ " not found."))
  else
    let updated_policies :=
      List.filter
        (fun p => negb (String.eqb (lower (rule_key_name p)) (lower policy_name)))
        policies in
    let hub := set_hub_authorization_policies updated_policies hub in
    rg ← getitem (additional_properties hub) "resourcegroup";
    hub_create_or_update rg hub_name hub (if_match_headers hub).

Definition iot_hub_policy_key_renew (hub_name policy_name regenerate_key : string)
    (resource_group_name : option string) (no_wait : bool) :
  M (LROPoller IotHubDescription + SharedAccessSignatureAuthorizationRule) :=
  hub ← iot_hub_get hub_name resource_group_name;
  rg ← getitem (additional_properties hub) "resourcegroup";
  policies ← iot_hub_policy_list hub_name (Some rg);
  if negb (_is_policy_existed policies policy_name) then
    raise (CLIError ("Policy " +:+ policy_name +:+ " not found."))
  else
    let updated_policies :=
      List.filter
        (fun p => negb (String.eqb (lower (rule_key_name p)) (lower policy_name)))
        policies in
    let requested_policy :=
      List.filter
        (fun p => String.eqb (lower (rule_key_name p)) (lower policy_name))
        policies in
    match requested_policy with
    | [] => raise IndexError
    | requested :: _ =>
        requested ←
          (if String.eqb regenerate_key (RenewKeyType_value Primary) then
             k ← generateKey; mret (set_rule_primary_key (Some k) requested)
           else mret requested);
        requested ←
          (if String.eqb regenerate_key (RenewKeyType_value Secondary) then
             k ← generateKey; mret (set_rule_secondary_key (Some k) requested)
           else mret requested);
        let requested :=
          if String.eqb regenerate_key (RenewKeyType_value Swap) then
            let temp := rule_primary_key requested in
            set_rule_secondary_key temp
              (set_rule_primary_key (rule_secondary_key requested) requested)
          else requested in
        let updated_policies :=
          updated_policies ++
          [mkRule (rule_key_name requested) (rule_primary_key requested)
             (rule_secondary_key requested) (rule_rights requested)] in
        let hub := set_hub_authorization_policies updated_policies hub in
        rg ← getitem (additional_properties hub) "resourcegroup";
        if no_wait then
          inl <$> hub_create_or_update rg hub_name hub (if_match_headers hub)
        else
          poller ← hub_create_or_update rg hub_name hub (if_match_headers hub);
          _ ← LongRunningOperation poller;
          inr <$> iot_hub_policy_get hub_name policy_name resource_group_name
    end.

(** Routing endpoints *)

(** [name.lower() == endpoint_name.lower()] on an endpoint. *)
Definition same_name {A : Type} `{Named A} (endpoint_name : string) (e : A) : bool :=
  String.eqb (lower (name_of e)) (lower endpoint_name).

Definition iot_hub_routing_endpoint_create
    (hub_name endpoint_name endpoint_type endpoint_resource_group
     endpoint_subscription_id connection_string : string)
    (container_name encoding : option string)
    (resource_group_name : option string)
    (batch_frequency chunk_size_window : Z) (file_name_format : string) :
  M (LROPoller IotHubDescription) :=
  resource_group_name ← _ensure_resource_group_name resource_group_name hub_name;
  hub ← iot_hub_get hub_name (Some resource_group_name);
  hub ←
    (if String.eqb (EndpointType_value EventHub) (lower endpoint_type) then
       r ← hub_routing hub;
       let e := routing_endpoints r in
       mret (set_hub_routing
               (set_routing_endpoints
                  (set_event_hubs
                     (event_hubs e ++
                      [mkEventHub connection_string endpoint_name
                         endpoint_subscription_id endpoint_resource_group]) e) r) hub)
     else if String.eqb (EndpointType_value ServiceBusQueue) (lower endpoint_type) then
       r ← hub_routing hub;
       let e := routing_endpoints r in
       mret (set_hub_routing
               (set_routing_endpoints
                  (set_service_bus_queues
                     (service_bus_queues e ++
                      [mkQueue connection_string endpoint_name
                         endpoint_subscription_id endpoint_resource_group]) e) r) hub)
     else if String.eqb (EndpointType_value ServiceBusTopic) (lower endpoint_type) then
       r ← hub_routing hub;
       let e := routing_endpoints r in
       mret (set_hub_routing
               (set_routing_endpoints
                  (set_service_bus_topics
                     (service_bus_topics e ++
                      [mkTopic connection_string endpoint_name
                         endpoint_subscription_id endpoint_resource_group]) e) r) hub)
     else if String.eqb (EndpointType_value AzureStorageContainer)
                        (lower endpoint_type) then
       if negb (truthy container_name) then
         raise (CLIError "Container name is required.")
       else
         r ← hub_routing hub;
         let e := routing_endpoints r in
         mret (set_hub_routing
                 (set_routing_endpoints
                    (set_storage_containers
                       (storage_containers e ++
                        [mkContainer connection_string endpoint_name
                           endpoint_subscription_id endpoint_resource_group
                           (default EmptyString container_name)
                           (if truthy encoding
                            then lower (default EmptyString encoding)
                            else EncodingFormat_AVRO_value)
                           file_name_format batch_frequency
                           (chunk_size_window * 1048576)%Z]) e) r) hub)
     else mret hub);
  hub_create_or_update resource_group_name hub_name hub (if_match_headers hub).

Definition _delete_routing_endpoints (endpoint_name endpoint_type : option string)
    (endpoints : RoutingEndpoints) : RoutingEndpoints :=
  let endpoints :=
    if truthy endpoint_type then
      let endpoint_type := default EmptyString endpoint_type in
      if String.eqb (EndpointType_value ServiceBusQueue) (lower endpoint_type) then
        set_service_bus_queues [] endpoints
      else if String.eqb (EndpointType_value ServiceBusTopic) (lower endpoint_type) then
        set_service_bus_topics [] endpoints
      else if String.eqb (EndpointType_value AzureStorageContainer)
                         (lower endpoint_type) then
        set_storage_containers [] endpoints
      else if String.eqb (EndpointType_value EventHub) (lower endpoint_type) then
        set_event_hubs [] endpoints
      else endpoints
    else endpoints in
  let endpoints :=
    if truthy endpoint_name then
      let endpoint_name := default EmptyString endpoint_name in
      if existsb (same_name endpoint_name) (service_bus_queues endpoints) then
        let sbq_endpoints :=
          List.filter (fun e => negb (same_name endpoint_name e))
            (service_bus_queues endpoints) in
        set_service_bus_queues sbq_endpoints endpoints
      else if existsb (same_name endpoint_name) (service_bus_topics endpoints) then
        let sbt_endpoints :=
          List.filter (fun e => negb (same_name endpoint_name e))
            (service_bus_topics endpoints) in
        set_service_bus_topics sbt_endpoints endpoints
      else if existsb (same_name endpoint_name) (storage_containers endpoints) then
        let sc_endpoints :=
          List.filter (fun e => negb (same_name endpoint_name e))
            (storage_containers endpoints) in
        set_storage_containers sc_endpoints endpoints
      else if existsb (same_name endpoint_name) (event_hubs endpoints) then
        let eh_endpoints :=
          List.filter (fun e => negb (same_name endpoint_name e))
            (event_hubs endpoints) in
        set_event_hubs eh_endpoints endpoints
      else endpoints
    else endpoints in
  if negb (truthy endpoint_type) && negb (truthy endpoint_name) then
    set_event_hubs []
      (set_storage_containers []
         (set_service_bus_topics [] (set_service_bus_queues [] endpoints)))
  else endpoints.

Definition iot_hub_routing_endpoint_delete (hub_name : string)
    (endpoint_name endpoint_type : option string)
    (resource_group_name : option string) : M (LROPoller IotHubDescription) :=
  resource_group_name ← _ensure_resource_group_name resource_group_name hub_name;
  hub ← iot_hub_get hub_name (Some resource_group_name);
  r ← hub_routing hub;
  let hub :=
    set_hub_routing
      (set_routing_endpoints
         (_delete_routing_endpoints endpoint_name endpoint_type (routing_endpoints r))
         r) hub in
  hub_create_or_update resource_group_name hub_name hub (if_match_headers hub).

(** Routes *)

(** [next((x for x in l if found x), None)] followed by assignments to
    the attributes of the object found: the first [x] with [found x] is
    replaced by [f x], in place. *)
Fixpoint update_first {A : Type} (found : A -> bool) (f : A -> A) (l : list A) : list A :=
  match l with
  | [] => []
  | x :: l' => if found x then f x :: l' else x :: update_first found f l'
  end.

(** [l.remove(x)]: the first element equal to [x] is dropped. *)
Fixpoint list_remove {A : Type} `{EqDecision A} (x : A) (l : list A) : list A :=
  match l with
  | [] => []
  | y :: l' => if decide (y = x) then l' else y :: list_remove x l'
  end.

Definition set_hub_routes (v : list RouteProperties) (r : RoutingProperties)
    (hub : IotHubDescription) : IotHubDescription :=
  set_hub_routing (set_routing_routes v r) hub.

Definition iot_hub_route_create
    (hub_name route_name source_type endpoint_name : string)
    (enabled : option bool) (condition : option string)
    (resource_group_name : option string) : M (LROPoller IotHubDescription) :=
  resource_group_name ← _ensure_resource_group_name resource_group_name hub_name;
  hub ← iot_hub_get hub_name (Some resource_group_name);
  r ← hub_routing hub;
  let hub :=
    set_hub_routes
      (routing_routes r ++
       [mkRoute route_name source_type
          (match condition with None => "true" | Some condition => condition end)
          (split endpoint_name)
          (match enabled with None => true | Some enabled => enabled end)])
      r hub in
  hub_create_or_update resource_group_name hub_name hub (if_match_headers hub).

Definition iot_hub_route_delete (hub_name : string)
    (route_name source_type : option string)
    (resource_group_name : option string) : M (LROPoller IotHubDescription) :=
  resource_group_name ← _ensure_resource_group_name resource_group_name hub_name;
  hub ← iot_hub_get hub_name (Some resource_group_name);
  hub ←
    (if negb (truthy route_name) && negb (truthy source_type) then
       r ← hub_routing hub; mret (set_hub_routes [] r hub)
     else mret hub);
  hub ←
    (if truthy route_name then
       r ← hub_routing hub;
       mret (set_hub_routes
               (List.filter
                  (fun route =>
                     negb (String.eqb (lower (rt_name route))
                             (lower (default EmptyString route_name))))
                  (routing_routes r)) r hub)
     else mret hub);
  hub ←
    (if truthy source_type then
       r ← hub_routing hub;
       mret (set_hub_routes
               (List.filter
                  (fun route =>
                     negb (String.eqb (lower (rt_source route))
                             (lower (default EmptyString source_type))))
                  (routing_routes r)) r hub)
     else mret hub);
  hub_create_or_update resource_group_name hub_name hub (if_match_headers hub).

(** The assignments of [iot_hub_route_update] to the route found. *)
Definition update_route (source_type endpoint_name : option string)
    (enabled : option bool) (condition : option string)
    (updated_route : RouteProperties) : RouteProperties :=
  mkRoute (rt_name updated_route)
    (match source_type with
     | None => rt_source updated_route
     | Some source_type => source_type
     end)
    (match condition with
     | None => rt_condition updated_route
     | Some condition => condition
     end)
    (match endpoint_name with
     | None => rt_endpoint_names updated_route
     | Some endpoint_name => split endpoint_name
     end)
    (match enabled with
     | None => rt_is_enabled updated_route
     | Some enabled => enabled
     end).

Definition iot_hub_route_update (hub_name route_name : string)
    (source_type endpoint_name : option string) (enabled : option bool)
    (condition : option string) (resource_group_name : option string) :
  M (LROPoller IotHubDescription) :=
  resource_group_name ← _ensure_resource_group_name resource_group_name hub_name;
  hub ← iot_hub_get hub_name (Some resource_group_name);
  r ← hub_routing hub;
  let found route := String.eqb (lower (rt_name route)) (lower route_name) in
  match List.find found (routing_routes r) with
  | Some _ =>
      let hub :=
        set_hub_routes
          (update_first found
             (update_route source_type endpoint_name enabled condition)
             (routing_routes r)) r hub in
      hub_create_or_update resource_group_name hub_name hub (if_match_headers hub)
  | None => raise (CLIError "No route found.")
  end.

(** Message enrichments *)

Definition iot_message_enrichment_create (hub_name key value : string)
    (endpoints : list string) (resource_group_name : option string) :
  M (LROPoller IotHubDescription) :=
  resource_group_name ← _ensure_resource_group_name resource_group_name hub_name;
  hub ← iot_hub_get hub_name (Some resource_group_name);
  r ← hub_routing hub;
  let r :=
    match routing_enrichments r with
    | None => set_routing_enrichments (Some []) r
    | Some _ => r
    end in
  let hub :=
    set_hub_routing
      (set_routing_enrichments
         (Some (default [] (routing_enrichments r) ++
                [mkEnrichment key value endpoints])) r) hub in
  hub_create_or_update resource_group_name hub_name hub (if_match_headers hub).

Definition iot_message_enrichment_update (hub_name key value : string)
    (endpoints : list string) (resource_group_name : option string) :
  M (LROPoller IotHubDescription) :=
  resource_group_name ← _ensure_resource_group_name resource_group_name hub_name;
  hub ← iot_hub_get hub_name (Some resource_group_name);
  r ← hub_routing hub;
  match routing_enrichments r with
  | None => raise TypeError
  | Some enrichments =>
      let found endpoint := String.eqb (enrichment_key endpoint) key in
      match List.find found enrichments with
      | Some _ =>
          let hub :=
            set_hub_routing
              (set_routing_enrichments
                 (Some (update_first found
                          (fun _ => mkEnrichment key value endpoints) enrichments))
                 r) hub in
          hub_create_or_update resource_group_name hub_name hub (if_match_headers hub)
      | None => raise (CLIError "No message enrichment with that key exists")
      end
  end.

Definition iot_message_enrichment_delete (hub_name key : string)
    (resource_group_name : option string) : M (LROPoller IotHubDescription) :=
  resource_group_name ← _ensure_resource_group_name resource_group_name hub_name;
  hub ← iot_hub_get hub_name (Some resource_group_name);
  r ← hub_routing hub;
  match routing_enrichments r with
  | None => raise TypeError
  | Some enrichments =>
      match List.find (fun endpoint => String.eqb (enrichment_key endpoint) key)
                      enrichments with
      | Some to_remove =>
          let hub :=
            set_hub_routing
              (set_routing_enrichments (Some (list_remove to_remove enrichments)) r)
              hub in
          hub_create_or_update resource_group_name hub_name hub (if_match_headers hub)
      | None => raise (CLIError "No message enrichment with that key exists")
      end
  end.

End Commands.

(** ** The commands that read *)

(** CUSTOM TYPE: [class KeyType(Enum)]. *)
Inductive KeyType : Type := primary | secondary.

Definition KeyType_value (k : KeyType) : string :=
  match k with
  | primary => "primary"
  | secondary => "secondary"
  end.

(** A [key_type] argument: the string the command line gives (the
    default is [KeyType.primary.value]), or a member of [KeyType]. *)
Inductive KeyTypeArgument : Type :=
| key_string (s : string)
| key_member (k : KeyType).

(** [key_type == KeyType.secondary]. [KeyType] is a plain [Enum]: a
    member equals itself and nothing else, a string least of all. *)
Definition is_KeyType_secondary (key_type : KeyTypeArgument) : bool :=
  match key_type with
  | key_member secondary => true
  | _ => false
  end.

(** A value put in a format string: [None] prints as its name. *)
Definition format_value (v : option string) : string := default "None" v.

(** What [iot_hub_show_connection_string] returns for one hub: a
    dictionary whose entry is one string, or the list of them. *)
Inductive ConnectionString : Type :=
| connectionString (s : string)
| connectionStrings (l : list string).

(** What [iot_hub_routing_endpoint_show] returns. *)
Inductive RoutingEndpoint : Type :=
| an_event_hub (e : RoutingEventHubProperties)
| a_service_bus_queue (e : RoutingServiceBusQueueEndpointProperties)
| a_service_bus_topic (e : RoutingServiceBusTopicEndpointProperties)
| a_storage_container (e : RoutingStorageContainerProperties).

(** What [iot_hub_routing_endpoint_list] returns; [listed_nothing] is the
    [None] of a function that ends without a [return]. *)
Inductive EndpointListing : Type :=
| listed_all (e : RoutingEndpoints)
| listed_event_hubs (l : list RoutingEventHubProperties)
| listed_service_bus_queues (l : list RoutingServiceBusQueueEndpointProperties)
| listed_service_bus_topics (l : list RoutingServiceBusTopicEndpointProperties)
| listed_storage_containers (l : list RoutingStorageContainerProperties)
| listed_nothing.

(** [[f x for x in l]], for an [f] that makes calls. *)
Fixpoint for_each {A B : Type} (f : A -> M B) (l : list A) : M (list B) :=
  match l with
  | [] => mret []
  | x :: l' => y ← f x; ys ← for_each f l'; mret (y :: ys)
  end.

Section Readers.
Context `{Shared}.

Definition _get_hub_connection_string (hub_name resource_group_name policy_name : string)
    (key_type : KeyTypeArgument) (show_all : bool) : M (list string) :=
  policies ←
    (if show_all then iot_hub_policy_list hub_name (Some resource_group_name)
     else
       p ← iot_hub_policy_get hub_name policy_name (Some resource_group_name);
       mret [p]);
  hub ← _get_iot_hub_by_name hub_name;
  let hostname := host_name (h_properties hub) in
  mret (map (fun p =>
               "HostName=" +:+ hostname +:+
               ";SharedAccessKeyName=" +:+ rule_key_name p +:+
               ";SharedAccessKey=" +:+
               format_value (if is_KeyType_secondary key_type
                             then rule_secondary_key p
                             else rule_primary_key p))
            policies).

Definition iot_hub_show_connection_string (hub_name resource_group_name : option string)
    (policy_name : string) (key_type : KeyTypeArgument) (show_all : bool) :
  M (list (string * list string) + ConnectionString) :=
  match hub_name with
  | None =>
      hubs ← iot_hub_list resource_group_name;
      match hubs with
      | None => raise (CLIError "No IoT Hub found.")
      | Some hubs =>
          let conn_str_getter h :=
            rg ← getitem (additional_properties h) "resourcegroup";
            _get_hub_connection_string (h_name h) rg policy_name key_type show_all in
          inl <$> for_each (fun h => c ← conn_str_getter h; mret (h_name h, c)) hubs
      end
  | Some hub_name =>
      resource_group_name ← _ensure_resource_group_name resource_group_name hub_name;
      conn_str ← _get_hub_connection_string hub_name resource_group_name policy_name
                   key_type show_all;
      if show_all then mret (inr (connectionStrings conn_str))
      else
        match conn_str with
        | [] => raise IndexError
        | s :: _ => mret (inr (connectionString s))
        end
  end.

Definition iot_hub_routing_endpoint_list (hub_name : string)
    (endpoint_type resource_group_name : option string) : M EndpointListing :=
  resource_group_name ← _ensure_resource_group_name resource_group_name hub_name;
  hub ← iot_hub_get hub_name (Some resource_group_name);
  if negb (truthy endpoint_type) then
    r ← hub_routing hub; mret (listed_all (routing_endpoints r))
  else
    let endpoint_type := default EmptyString endpoint_type in
    if String.eqb (EndpointType_value EventHub) (lower endpoint_type) then
      r ← hub_routing hub; mret (listed_event_hubs (event_hubs (routing_endpoints r)))
    else if String.eqb (EndpointType_value ServiceBusQueue) (lower endpoint_type) then
      r ← hub_routing hub;
      mret (listed_service_bus_queues (service_bus_queues (routing_endpoints r)))
    else if String.eqb (EndpointType_value ServiceBusTopic) (lower endpoint_type) then
      r ← hub_routing hub;
      mret (listed_service_bus_topics (service_bus_topics (routing_endpoints r)))
    else if String.eqb (EndpointType_value AzureStorageContainer)
                       (lower endpoint_type) then
      r ← hub_routing hub;
      mret (listed_storage_containers (storage_containers (routing_endpoints r)))
    else mret listed_nothing.

Definition iot_hub_routing_endpoint_show (hub_name endpoint_name : string)
    (resource_group_name : option string) : M RoutingEndpoint :=
  resource_group_name ← _ensure_resource_group_name resource_group_name hub_name;
  hub ← iot_hub_get hub_name (Some resource_group_name);
  r ← hub_routing hub;
  let e := routing_endpoints r in
  match List.find (same_name endpoint_name) (event_hubs e) with
  | Some event_hub => mret (an_event_hub event_hub)
  | None =>
  match List.find (same_name endpoint_name) (service_bus_queues e) with
  | Some service_bus_queue => mret (a_service_bus_queue service_bus_queue)
  | None =>
  match List.find (same_name endpoint_name) (service_bus_topics e) with
  | Some service_bus_topic => mret (a_service_bus_topic service_bus_topic)
  | None =>
  match List.find (same_name endpoint_name) (storage_containers e) with
  | Some storage_container => mret (a_storage_container storage_container)
  | None => raise (CLIError "No endpoint found.")
  end end end end.

Definition iot_hub_route_list (hub_name : string)
    (source_type resource_group_name : option string) : M (list RouteProperties) :=
  resource_group_name ← _ensure_resource_group_name resource_group_name hub_name;
  hub ← iot_hub_get hub_name (Some resource_group_name);
  r ← hub_routing hub;
  if truthy source_type then
    mret (List.filter
            (fun route =>
               String.eqb (lower (rt_source route))
                 (lower (default EmptyString source_type)))
            (routing_routes r))
  else mret (routing_routes r).

Definition iot_hub_route_show (hub_name route_name : string)
    (resource_group_name : option string) : M RouteProperties :=
  resource_group_name ← _ensure_resource_group_name resource_group_name hub_name;
  hub ← iot_hub_get hub_name (Some resource_group_name);
  r ← hub_routing hub;
  match List.find
          (fun route => String.eqb (lower (rt_name route)) (lower route_name))
          (routing_routes r) with
  | Some route => mret route
  | None => raise (CLIError "No route found.")
  end.

Definition iot_message_enrichment_list (hub_name : string)
    (resource_group_name : option string) :
  M (option (list EnrichmentProperties)) :=
  resource_group_name ← _ensure_resource_group_name resource_group_name hub_name;
  hub ← iot_hub_get hub_name (Some resource_group_name);
  r ← hub_routing hub;
  mret (routing_enrichments r).

End Readers.

(** ** A test double

    The constants as the released [shared.py] spells them, Python's set
    order taken to be the order of [elements], and a client whose answers
    do not depend on the calls made: it serves the given hubs, DPS
    instances and keys and accepts every write. *)

Definition example_shared : Shared := {|
  EndpointType_value t :=
    match t with
    | EventHub => "eventhub"
    | ServiceBusQueue => "servicebusqueue"
    | ServiceBusTopic => "servicebustopic"
    | AzureStorageContainer => "azurestoragecontainer"
    end;
  RenewKeyType_value t :=
    match t with
    | Primary => "primary"
    | Secondary => "secondary"
    | Swap => "swap"
    end;
  EncodingFormat_AVRO_value := "avro";
  set_to_list := elements
|}.

Definition static_client
    (hubs : list IotHubDescription)
    (hub_keys : list SharedAccessSignatureAuthorizationRule)
    (dpss : list ProvisioningServiceDescription)
    (dps_keys : list SharedAccessSignatureAuthorizationRuleAccessRightsDescription) :
  Client := {|
  on_hub_list_by_subscription _ := inr (Some hubs);
  on_hub_list_by_resource_group _ _ := inr (Some hubs);
  on_hub_check_name_availability _ name :=
    inr (Some (mkAvailability
                 (negb (existsb (fun h => String.eqb (h_name h) name) hubs))
                 "name taken"));
  on_hub_get _ _ name :=
    match List.find (fun h => String.eqb (h_name h) name) hubs with
    | Some h => inr h
    | None => inl (CloudError "ResourceNotFound")
    end;
  on_hub_list_keys _ _ _ := inr hub_keys;
  on_hub_get_keys_for_key_name _ _ _ policy :=
    match List.find (fun p => String.eqb (rule_key_name p) policy) hub_keys with
    | Some p => inr p
    | None => inl (CloudError "KeyNameNotFound")
    end;
  on_hub_create_or_update _ _ _ hub _ := inr (inr hub);
  on_rg_check_existence _ _ := inr true;
  on_rg_get_location _ _ := inr "westus";
  on_generateKey _ := "bmV3LWtleQ==";
  on_dps_list_by_subscription _ := inr (Some dpss);
  on_dps_list_by_resource_group _ _ := inr (Some dpss);
  on_dps_get _ name _ :=
    match List.find (fun d => String.eqb (d_name d) name) dpss with
    | Some d => inr d
    | None => inl (CloudError "ResourceNotFound")
    end;
  on_dps_list_keys _ _ _ := inr dps_keys;
  on_dps_list_keys_for_key_name _ _ policy _ :=
    match List.find (fun p => String.eqb (rule_key_name p) policy) dps_keys with
    | Some p => inr p
    | None => inl (CloudError "KeyNameNotFound")
    end;
  on_dps_create_or_update _ _ _ dps _ := inr (inr dps)
|}.

Definition example_route : RouteProperties :=
  mkRoute "route1" "DeviceMessages" "true" ["events"] true.

Definition example_queue (name : string) : RoutingServiceBusQueueEndpointProperties :=
  mkQueue "Endpoint=sb://q" name "sub" "rg1".

Definition example_topic (name : string) : RoutingServiceBusTopicEndpointProperties :=
  mkTopic "Endpoint=sb://t" name "sub" "rg1".

Definition example_endpoints : RoutingEndpoints :=
  mkEndpoints [example_queue "x"] [example_topic "x"]
    [mkEventHub "Endpoint=sb://e" "eh1" "sub" "rg1"] [].

Definition example_routing : RoutingProperties :=
  mkRouting example_endpoints [example_route] None.

Definition example_hub : IotHubDescription :=
  mkHub "hub1" (Some "AAAAAAFy3Q8=") "westus" (mkHubSku "S1" 1%Z)
    (mkHubProperties (Some [])
       {[ "events" := mkEventHubProperties 1%Z 4%Z ]}
       (Some example_routing)
       {[ "$default" := mkStorageEndpoint 3600%Z EmptyString EmptyString ]}
       {[ "fileNotifications" := mkMessagingEndpoint 10%Z 3600%Z ]}
       (Some false)
       (mkCloudToDevice 10%Z 3600%Z (mkFeedback 5%Z 3600%Z 10%Z))
       "hub1.azure-devices.net")
    {[ "resourcegroup" := "rg1" ]}.

Definition example_hub_policy : SharedAccessSignatureAuthorizationRule :=
  mkRule "iothubowner" (Some "A") (Some "B")
    registry_read_registry_write_service_connect_device_connect.

Definition example_dps_policy :
  SharedAccessSignatureAuthorizationRuleAccessRightsDescription :=
  mkRule "policy1" (Some "A") (Some "B") "EnrollmentRead".

Definition example_linked_hub : IotHubDefinitionDescription :=
  mkLinkedHub "hub1.azure-devices.net" "HostName=hub1" "westus" (Some true) (Some 1%Z).

Definition example_dps : ProvisioningServiceDescription :=
  mkDps "dps1" (Some "AAAAAAAHsv4=") "westus"
    (mkDpsProperties [example_linked_hub] (Some "Hashed") [example_dps_policy])
    (mkDpsSku "S1" 1%Z).

Definition example_client : Client :=
  static_client [example_hub] [example_hub_policy] [example_dps] [example_dps_policy].

(** The calls with which the routing commands fetch [example_hub] when
    no resource group is given. *)
Definition example_fetch_calls : Trace :=
  [iot_hub_resource_list_by_subscription;
   resource_groups_check_existence "rg1";
   iot_hub_resource_check_name_availability "hub1";
   iot_hub_resource_get "rg1" "hub1"].

(** A hub on which an event hub and a queue have the same name, letter
    case apart, and the client that serves it. *)
Definition example_shared_name_routing : RoutingProperties :=
  mkRouting
    (mkEndpoints [example_queue "x"] [] [mkEventHub "Endpoint=sb://e" "X" "sub" "rg1"] [])
    [example_route] None.

Definition example_shared_name_hub : IotHubDescription :=
  set_hub_routing example_shared_name_routing example_hub.

Definition example_shared_name_client : Client :=
  static_client [example_shared_name_hub] [example_hub_policy] [example_dps]
    [example_dps_policy].

(** A hub with two message enrichments of the same key, and the client
    that serves it. *)
Definition example_enriched_routing : RoutingProperties :=
  mkRouting example_endpoints [example_route]
    (Some [mkEnrichment "k" "v1" ["events"]; mkEnrichment "k" "v2" ["events"]]).

Definition example_enriched_hub : IotHubDescription :=
  set_hub_routing example_enriched_routing example_hub.

Definition example_enriched_client : Client :=
  static_client [example_enriched_hub] [example_hub_policy] [example_dps]
    [example_dps_policy].

(** * Vocabulary of the properties *)

Section Vocabulary.
Context `{Shared}.

(** A command that makes no [create_or_update] call, whatever it is
    answered. *)
Definition reads_only {A : Type} (m : M A) : Prop :=
  forall cl tr, List.filter is_create_or_update (m cl tr).2 = [].

(** The hub as the routing commands fetch it: the resource group is
    resolved, then the hub is read. *)
Definition hub_fetched (hub_name : string) (resource_group_name : option string)
    (cl : Client) (tr : Trace) (rg : string) (hub : IotHubDescription)
    (news : Trace) : Prop :=
  exists new1 new2,
    _ensure_resource_group_name resource_group_name hub_name cl tr = (inr rg, new1) /\
    iot_hub_get hub_name (Some rg) cl (tr ++ new1) = (inr hub, new2) /\
    news = new1 ++ new2.

(** The routes [iot_hub_route_delete] leaves. *)
Definition routes_after_delete (route_name source_type : option string)
    (routes : list RouteProperties) : list RouteProperties :=
  let routes :=
    if negb (truthy route_name) && negb (truthy source_type) then [] else routes in
  let routes :=
    if truthy route_name then
      List.filter
        (fun route =>
           negb (String.eqb (lower (rt_name route))
                   (lower (default EmptyString route_name)))) routes
    else routes in
  if truthy source_type then
    List.filter
      (fun route =>
         negb (String.eqb (lower (rt_source route))
                 (lower (default EmptyString source_type)))) routes
  else routes.

(** [endpoints] with the sub-collection of type [t] emptied. *)
Definition clear_type (t : EndpointType) (endpoints : RoutingEndpoints) :
  RoutingEndpoints :=
  match t with
  | ServiceBusQueue => set_service_bus_queues [] endpoints
  | ServiceBusTopic => set_service_bus_topics [] endpoints
  | AzureStorageContainer => set_storage_containers [] endpoints
  | EventHub => set_event_hubs [] endpoints
  end.

(** The order in which a name is looked for. *)
Definition scan_order : list EndpointType :=
  [ServiceBusQueue; ServiceBusTopic; AzureStorageContainer; EventHub].

(** Whether the sub-collection of type [t] has an endpoint named
    [endpoint_name], letter case apart. *)
Definition has_name (endpoint_name : string) (endpoints : RoutingEndpoints)
    (t : EndpointType) : bool :=
  match t with
  | ServiceBusQueue => existsb (same_name endpoint_name) (service_bus_queues endpoints)
  | ServiceBusTopic => existsb (same_name endpoint_name) (service_bus_topics endpoints)
  | AzureStorageContainer =>
      existsb (same_name endpoint_name) (storage_containers endpoints)
  | EventHub => existsb (same_name endpoint_name) (event_hubs endpoints)
  end.

(** [endpoints] without the endpoints of type [t] named [endpoint_name]. *)
Definition remove_name_from (endpoint_name : string) (t : EndpointType)
    (endpoints : RoutingEndpoints) : RoutingEndpoints :=
  match t with
  | ServiceBusQueue =>
      set_service_bus_queues
        (List.filter (fun e => negb (same_name endpoint_name e))
           (service_bus_queues endpoints)) endpoints
  | ServiceBusTopic =>
      set_service_bus_topics
        (List.filter (fun e => negb (same_name endpoint_name e))
           (service_bus_topics endpoints)) endpoints
  | AzureStorageContainer =>
      set_storage_containers
        (List.filter (fun e => negb (same_name endpoint_name e))
           (storage_containers endpoints)) endpoints
  | EventHub =>
      set_event_hubs
        (List.filter (fun e => negb (same_name endpoint_name e))
           (event_hubs endpoints)) endpoints
  end.

(** Removal by name, first match wins: the first sub-collection in scan
    order that has the name loses the endpoints so named; the others
    are kept. *)
Definition remove_by_name (endpoint_name : string) (endpoints : RoutingEndpoints) :
  RoutingEndpoints :=
  match List.find (has_name endpoint_name endpoints) scan_order with
  | Some t => remove_name_from endpoint_name t endpoints
  | None => endpoints
  end.

(** [endpoints] with one more endpoint at the end of the sub-collection
    of type [t], built from the arguments of
    [iot_hub_routing_endpoint_create]. *)
Definition with_new_endpoint (t : EndpointType)
    (endpoint_name endpoint_resource_group endpoint_subscription_id
     connection_string : string) (container_name encoding : option string)
    (batch_frequency chunk_size_window : Z) (file_name_format : string)
    (endpoints : RoutingEndpoints) : RoutingEndpoints :=
  match t with
  | EventHub =>
      set_event_hubs
        (event_hubs endpoints ++
         [mkEventHub connection_string endpoint_name endpoint_subscription_id
            endpoint_resource_group]) endpoints
  | ServiceBusQueue =>
      set_service_bus_queues
        (service_bus_queues endpoints ++
         [mkQueue connection_string endpoint_name endpoint_subscription_id
            endpoint_resource_group]) endpoints
  | ServiceBusTopic =>
      set_service_bus_topics
        (service_bus_topics endpoints ++
         [mkTopic connection_string endpoint_name endpoint_subscription_id
            endpoint_resource_group]) endpoints
  | AzureStorageContainer =>
      set_storage_containers
        (storage_containers endpoints ++
         [mkContainer connection_string endpoint_name endpoint_subscription_id
            endpoint_resource_group (default EmptyString container_name)
            (if truthy encoding then lower (default EmptyString encoding)
             else EncodingFormat_AVRO_value)
            file_name_format batch_frequency (chunk_size_window * 1048576)%Z])
        endpoints
  end.

(** [endpoint_type] names the type [t], and no other. *)
Definition names_type (endpoint_type : string) (t : EndpointType) : Prop :=
  forall t', EndpointType_value t' = lower endpoint_type <-> t' = t.





(** Every [create_or_update] call of the command satisfies [P]. *)
Definition submits_only {A : Type} (P : Call -> Prop) (m : M A) : Prop :=
  forall cl tr c, In c (resubmissions m cl tr) -> P c.

(** The call carries the entity tag [e], as IF-MATCH and in the
    description. *)
Definition carries_etag (e : option string) (c : Call) : Prop :=
  if_match c = Some e /\ submitted_etag c = e.

(** The call carries no entity tag. *)
Definition carries_no_etag (c : Call) : Prop :=
  if_match c = None /\ submitted_etag c = None.

(** Every [create_or_update] call of the command [op] carries, as
    IF-MATCH, the entity tag of the hub that [fetch] returns at the
    start of [op]. *)
Definition resubmits_with_etag_of {A : Type} (fetch : M IotHubDescription)
    (op : M A) : Prop :=
  forall cl tr c,
    In c (resubmissions op cl tr) ->
    exists hub news,
      fetch cl tr = (inr hub, news) /\
      if_match c = Some (h_etag hub) /\ submitted_etag c = h_etag hub.

(** No [create_or_update] call of the command [op] has an IF-MATCH
    header, nor an entity tag in the description it submits. *)
Definition resubmits_without_etag {A : Type} (op : M A) : Prop :=
  forall cl tr c,
    In c (resubmissions op cl tr) -> if_match c = None /\ submitted_etag c = None.

(** The fetch of the routing commands, as one command. *)
Definition fetch_hub (hub_name : string) (resource_group_name : option string) :
  M IotHubDescription :=
  rg ← _ensure_resource_group_name resource_group_name hub_name;
  iot_hub_get hub_name (Some rg).

End Vocabulary.

(** * Vocabulary of the further properties *)

(** No two policies have the same name, letter case apart. *)
Definition unique_names {R : Type} (policies : list (AuthorizationRule R)) : Prop :=
  NoDup (map (fun p => lower (rule_key_name p)) policies).

(** The call that sends a DPS back with the access policies [policies]
    (and the linked hubs and allocation policy of [dps]). *)
Definition dps_sent_with_policies (rg : option string) (dps_name : string)
    (dps : ProvisioningServiceDescription)
    (policies : list SharedAccessSignatureAuthorizationRuleAccessRightsDescription) :
  Call :=
  iot_dps_resource_create_or_update rg dps_name
    (dps_description_of dps
       (mkDpsProperties (iot_hubs (d_properties dps))
          (allocation_policy (d_properties dps)) policies)) None.

(** The four basic permissions an [AccessRights] member grants:
    registry read, registry write, service connect, device connect. *)
Definition granted (r : AccessRights) : bool * bool * bool * bool :=
  match r with
  | registry_read => (true, false, false, false)
  | registry_write => (false, true, false, false)
  | service_connect => (false, false, true, false)
  | device_connect => (false, false, false, true)
  | registry_read_registry_write => (true, true, false, false)
  | registry_read_service_connect => (true, false, true, false)
  | registry_read_device_connect => (true, false, false, true)
  | registry_write_service_connect => (false, true, true, false)
  | registry_write_device_connect => (false, true, false, true)
  | service_connect_device_connect => (false, false, true, true)
  | registry_read_registry_write_service_connect => (true, true, true, false)
  | registry_read_registry_write_device_connect => (true, true, false, true)
  | registry_read_service_connect_device_connect => (true, false, true, true)
  | registry_write_service_connect_device_connect => (false, true, true, true)
  | registry_read_registry_write_service_connect_device_connect =>
      (true, true, true, true)
  end.

(** The names of the four basic permissions on the command line. *)
Definition basic_permissions : list string :=
  ["registryread"; "registrywrite"; "serviceconnect"; "deviceconnect"].

(** Which of the four basic permissions a list names. *)
Definition permissions_named (l : list string) : bool * bool * bool * bool :=
  (bool_decide ("registryread" ∈ l), bool_decide ("registrywrite" ∈ l),
   bool_decide ("serviceconnect" ∈ l), bool_decide ("deviceconnect" ∈ l)).

(** The key made of the sorted list [l] is in the table, with rights that
    grant what [l] names. *)
Definition key_grants_what_is_named (l : list string) : bool :=
  match access_rights_mapping !! join "_" (sorted l) with
  | Some r => bool_decide (granted r = permissions_named l)
  | None => false
  end.

(** What [update_iot_hub_custom] has no assignment for. *)
Definition same_identity (a b : IotHubDescription) : Prop :=
  h_name a = h_name b /\ h_etag a = h_etag b /\ h_location a = h_location b /\
  additional_properties a = additional_properties b /\
  routing (h_properties a) = routing (h_properties b) /\
  authorization_policies (h_properties a) = authorization_policies (h_properties b) /\
  host_name (h_properties a) = host_name (h_properties b).

(** Whatever the command returns satisfies [P]. *)
Definition returns_only {A : Type} (P : A -> Prop) (m : M A) : Prop :=
  forall cl tr a, (m cl tr).1 = inr a -> P a.

(** A duration, in seconds, that [timedelta] accepts. *)
Definition timedelta_accepts (seconds : Z) : Prop :=
  (Z.abs (timedelta_days seconds) <= 999999999)%Z.

(** A command that never calls [generateKey], whatever it is answered. *)
Definition generates_no_key {A : Type} (m : M A) : Prop :=
  forall cl tr, utils_generateKey ∉ (m cl tr).2.

(** * Properties *)

Section Properties.
Context `{Shared}.

(** ** Running commands *)

Lemma bind_inr {A B : Type} (m : M A) (f : A -> M B) cl tr a new :
  m cl tr = (inr a, new) ->
  (m ≫= f) cl tr = ((f a cl (tr ++ new)).1, new ++ (f a cl (tr ++ new)).2).
Proof.
  intros Hm. unfold mbind, M_bind. rewrite Hm.
  destruct (f a cl (tr ++ new)); reflexivity.
Qed.

Lemma bind_inl {A B : Type} (m : M A) (f : A -> M B) cl tr e new :
  m cl tr = (inl e, new) -> (m ≫= f) cl tr = (inl e, new).
Proof. intros Hm. unfold mbind, M_bind. rewrite Hm. reflexivity. Qed.

Lemma fmap_calls {A B : Type} (g : A -> B) (m : M A) cl tr :
  ((g <$> m) cl tr).2 = (m cl tr).2.
Proof. unfold fmap, M_fmap. destruct (m cl tr) as [[e|a] new]; reflexivity. Qed.

Lemma bind_calls_inr {A B : Type} (m : M A) (f : A -> M B) cl tr a new :
  m cl tr = (inr a, new) ->
  ((m ≫= f) cl tr).2 = new ++ (f a cl (tr ++ new)).2.
Proof. intros Hm. rewrite (bind_inr _ _ _ _ _ _ Hm). reflexivity. Qed.

Lemma reads_only_ret {A : Type} (a : A) : reads_only (mret a).
Proof. intros cl tr. reflexivity. Qed.

Lemma reads_only_raise {A : Type} (e : Error) : reads_only (@raise A e).
Proof. intros cl tr. reflexivity. Qed.

Lemma reads_only_sdk {A : Type} (c : Call) (answer : Client -> Trace -> Error + A) :
  is_create_or_update c = false -> reads_only (sdk c answer).
Proof. intros Hc cl tr. unfold sdk. simpl. rewrite Hc. reflexivity. Qed.

Lemma reads_only_bind {A B : Type} (m : M A) (f : A -> M B) :
  reads_only m -> (forall a, reads_only (f a)) -> reads_only (m ≫= f).
Proof.
  intros Hm Hf cl tr. unfold mbind, M_bind.
  specialize (Hm cl tr).
  destruct (m cl tr) as [[e|a] new]; simpl in *; [exact Hm|].
  specialize (Hf a cl (tr ++ new)).
  destruct (f a cl (tr ++ new)) as [r new']; simpl in *.
  rewrite List.filter_app, Hm, Hf. reflexivity.
Qed.

Lemma reads_only_fmap {A B : Type} (g : A -> B) (m : M A) :
  reads_only m -> reads_only (g <$> m).
Proof. intros Hm cl tr. rewrite fmap_calls. apply Hm. Qed.

Lemma reads_only_getitem {V : Type} (d : gmap string V) (k : string) :
  reads_only (getitem d k).
Proof. unfold getitem. destruct (d !! k); [apply reads_only_ret | apply reads_only_raise]. Qed.

Lemma reads_only_LongRunningOperation {A : Type} (p : LROPoller A) :
  reads_only (LongRunningOperation p).
Proof. intros cl tr. reflexivity. Qed.

Lemma resubmissions_bind_inr {A B : Type} (m : M A) (f : A -> M B) cl tr a new :
  m cl tr = (inr a, new) -> reads_only m ->
  resubmissions (m ≫= f) cl tr = resubmissions (f a) cl (tr ++ new).
Proof.
  intros Hm Hr. unfold resubmissions. rewrite (bind_calls_inr _ _ _ _ _ _ Hm).
  rewrite List.filter_app. specialize (Hr cl tr). rewrite Hm in Hr. simpl in Hr.
  rewrite Hr. reflexivity.
Qed.

Lemma resubmissions_bind_inl {A B : Type} (m : M A) (f : A -> M B) cl tr e new :
  m cl tr = (inl e, new) -> reads_only m -> resubmissions (m ≫= f) cl tr = [].
Proof.
  intros Hm Hr. unfold resubmissions. rewrite (bind_inl _ _ _ _ _ _ Hm).
  specialize (Hr cl tr). rewrite Hm in Hr. exact Hr.
Qed.

Lemma resubmissions_fmap {A B : Type} (g : A -> B) (m : M A) cl tr :
  resubmissions (g <$> m) cl tr = resubmissions m cl tr.
Proof. unfold resubmissions. rewrite fmap_calls. reflexivity. Qed.

(** ** Scans *)

Lemma find_first {A : Type} (found : A -> bool) (l : list A) :
  match List.find found l with
  | Some x =>
      exists before after,
        l = before ++ x :: after /\ found x = true /\
        Forall (fun y => found y = false) before
  | None => Forall (fun y => found y = false) l
  end.
Proof.
  induction l as [|y l IH]; simpl.
  - constructor.
  - destruct (found y) eqn:Hy.
    + exists [], l. repeat split; [assumption | constructor].
    + destruct (List.find found l) as [x|].
      * destruct IH as (before & after & -> & Hx & Hb).
        exists (y :: before), after. repeat split; [assumption|].
        constructor; assumption.
      * constructor; assumption.
Qed.

Lemma filter_none {A : Type} (found : A -> bool) (l : list A) :
  Forall (fun y => found y = false) l ->
  List.filter (fun y => negb (found y)) l = l.
Proof.
  induction 1 as [|y l Hy _ IH]; simpl; [reflexivity|].
  rewrite Hy. simpl. rewrite IH. reflexivity.
Qed.

Lemma existsb_none {A : Type} (found : A -> bool) (l : list A) :
  Forall (fun y => found y = false) l -> existsb found l = false.
Proof.
  induction 1 as [|y l Hy _ IH]; simpl; [reflexivity|].
  rewrite Hy, IH. reflexivity.
Qed.

Lemma _is_policy_existed_spec {R : Type} (policies : list (AuthorizationRule R))
    (policy_name : string) :
  _is_policy_existed policies policy_name = true <->
  exists p, In p policies /\ lower (rule_key_name p) = lower policy_name.
Proof.
  unfold _is_policy_existed. rewrite bool_decide_eq_true, elem_of_list_to_set.
  rewrite list_elem_of_In, List.in_map_iff. split.
  - intros (p & Hp & Hin). exists p. split; [assumption | exact Hp].
  - intros (p & Hin & Hp). exists p. split; [exact Hp | assumption].
Qed.

Lemma _is_linked_hub_existed_spec (hubs : list IotHubDefinitionDescription)
    (hub_name : string) :
  _is_linked_hub_existed hubs hub_name = true <->
  exists h, In h hubs /\ lower (linked_name h) = lower hub_name.
Proof.
  unfold _is_linked_hub_existed. rewrite bool_decide_eq_true, elem_of_list_to_set.
  rewrite list_elem_of_In, List.in_map_iff. split.
  - intros (p & Hp & Hin). exists p. split; [assumption | exact Hp].
  - intros (p & Hin & Hp). exists p. split; [exact Hp | assumption].
Qed.

(** ** Lookup by name without a resource group *)

Lemma _get_iot_hub_by_name_run cl tr hub_name :
  _get_iot_hub_by_name hub_name cl tr =
  (match on_hub_list_by_subscription cl tr with
   | inl e => inl e
   | inr None => inl (CLIError "No IoT Hub found in current subscription.")
   | inr (Some all_hubs) =>
       match List.find (fun x => String.eqb (lower hub_name) (lower (h_name x)))
                       all_hubs with
       | Some target_hub => inr target_hub
       | None => inl (CLIError ("No IoT Hub found with name " +:+ hub_name +:+
                                " in current subscription."))
       end
   end, [iot_hub_resource_list_by_subscription]).
Proof.
  unfold _get_iot_hub_by_name, iot_hub_list, hub_list_by_subscription, sdk,
    mbind, M_bind.
  destruct (on_hub_list_by_subscription cl tr) as [e|[all_hubs|]]; try reflexivity.
  destruct (List.find _ all_hubs); reflexivity.
Qed.

Lemma _get_iot_dps_by_name_run cl tr dps_name :
  _get_iot_dps_by_name dps_name None cl tr =
  (match on_dps_list_by_subscription cl tr with
   | inl e => inl e
   | inr None => inl (CLIError "No DPS found in current subscription.")
   | inr (Some all_dps) =>
       match List.find (fun x => String.eqb (lower dps_name) (lower (d_name x)))
                       all_dps with
       | Some target_dps => inr target_dps
       | None => inl (CLIError ("No DPS found with name " +:+ dps_name +:+
                                " in current subscription."))
       end
   end, [iot_dps_resource_list_by_subscription]).
Proof.
  unfold _get_iot_dps_by_name, iot_dps_list, dps_list_by_subscription, sdk,
    mbind, M_bind.
  destruct (on_dps_list_by_subscription cl tr) as [e|[all_dps|]]; try reflexivity.
  destruct (List.find _ all_dps); reflexivity.
Qed.

(** C5. With the resource group omitted, [iot_hub_get] and [iot_dps_get]
    make one call, the subscription-wide listing, and return the first
    listed resource whose name equals the requested one up to letter
    case; when no listed resource matches, or nothing is listed, they
    raise the CLIError saying that none was found. *)
Theorem lookup_without_resource_group (cl : Client) (tr : Trace) (name : string) :
  ((iot_hub_get name None cl tr).2 = [iot_hub_resource_list_by_subscription] /\
   (on_hub_list_by_subscription cl tr = inr None ->
    (iot_hub_get name None cl tr).1 =
      inl (CLIError "No IoT Hub found in current subscription.")) /\
   (forall all_hubs,
      on_hub_list_by_subscription cl tr = inr (Some all_hubs) ->
      (exists before target after,
         all_hubs = before ++ target :: after /\
         lower (h_name target) = lower name /\
         Forall (fun x => lower (h_name x) <> lower name) before /\
         (iot_hub_get name None cl tr).1 = inr target)
      \/
      (Forall (fun x => lower (h_name x) <> lower name) all_hubs /\
       (iot_hub_get name None cl tr).1 =
         inl (CLIError ("No IoT Hub found with name " +:+ name +:+
                        " in current subscription.")))))
  /\
  ((iot_dps_get name None cl tr).2 = [iot_dps_resource_list_by_subscription] /\
   (on_dps_list_by_subscription cl tr = inr None ->
    (iot_dps_get name None cl tr).1 =
      inl (CLIError "No DPS found in current subscription.")) /\
   (forall all_dps,
      on_dps_list_by_subscription cl tr = inr (Some all_dps) ->
      (exists before target after,
         all_dps = before ++ target :: after /\
         lower (d_name target) = lower name /\
         Forall (fun x => lower (d_name x) <> lower name) before /\
         (iot_dps_get name None cl tr).1 = inr target)
      \/
      (Forall (fun x => lower (d_name x) <> lower name) all_dps /\
       (iot_dps_get name None cl tr).1 =
         inl (CLIError ("No DPS found with name " +:+ name +:+
                        " in current subscription."))))).
Proof.
  split.
  - unfold iot_hub_get. rewrite _get_iot_hub_by_name_run. simpl.
    split; [reflexivity|]. split.
    + intros ->. reflexivity.
    + intros all_hubs ->.
      pose proof (find_first
        (fun x => String.eqb (lower name) (lower (h_name x))) all_hubs) as Hf.
      destruct (List.find _ all_hubs) as [target|].
      * left. destruct Hf as (before & after & -> & Ht & Hb).
        exists before, target, after. repeat split.
        -- symmetry. apply String.eqb_eq. exact Ht.
        -- eapply Forall_impl; [exact Hb|]. simpl. intros x Hx Heq.
           apply String.eqb_neq in Hx. congruence.
      * right. split; [|reflexivity].
        eapply Forall_impl; [exact Hf|]. simpl. intros x Hx Heq.
        apply String.eqb_neq in Hx. congruence.
  - unfold iot_dps_get. rewrite _get_iot_dps_by_name_run. simpl.
    split; [reflexivity|]. split.
    + intros ->. reflexivity.
    + intros all_dps ->.
      pose proof (find_first
        (fun x => String.eqb (lower name) (lower (d_name x))) all_dps) as Hf.
      destruct (List.find _ all_dps) as [target|].
      * left. destruct Hf as (before & after & -> & Ht & Hb).
        exists before, target, after. repeat split.
        -- symmetry. apply String.eqb_eq. exact Ht.
        -- eapply Forall_impl; [exact Hb|]. simpl. intros x Hx Heq.
           apply String.eqb_neq in Hx. congruence.
      * right. split; [|reflexivity].
        eapply Forall_impl; [exact Hf|]. simpl. intros x Hx Heq.
        apply String.eqb_neq in Hx. congruence.
Qed.

(** ** The commands that only read *)

Create HintDb reads.

Ltac reads_only_step :=
  first
    [ apply reads_only_ret
    | apply reads_only_raise
    | apply reads_only_getitem
    | apply reads_only_LongRunningOperation
    | apply reads_only_sdk; reflexivity
    | solve [auto with reads]
    | apply reads_only_fmap
    | apply reads_only_bind; [|intros ?]
    | match goal with
      | |- reads_only (match ?x with _ => _ end) => destruct x
      end ].

Ltac reads_only_tac := repeat reads_only_step.

Lemma reads_only_iot_dps_get dps_name rg : reads_only (iot_dps_get dps_name rg).
Proof.
  unfold iot_dps_get, _get_iot_dps_by_name, iot_dps_list, dps_get,
    dps_list_by_subscription, dps_list_by_resource_group.
  reads_only_tac.
Qed.
#[local] Hint Resolve reads_only_iot_dps_get : reads.

Lemma reads_only_iot_dps_access_policy_list dps_name rg :
  reads_only (iot_dps_access_policy_list dps_name rg).
Proof. unfold iot_dps_access_policy_list, dps_list_keys. reads_only_tac. Qed.
#[local] Hint Resolve reads_only_iot_dps_access_policy_list : reads.

Lemma reads_only_iot_dps_access_policy_get dps_name rg name :
  reads_only (iot_dps_access_policy_get dps_name rg name).
Proof. unfold iot_dps_access_policy_get, dps_list_keys_for_key_name. reads_only_tac. Qed.
#[local] Hint Resolve reads_only_iot_dps_access_policy_get : reads.

Lemma reads_only_iot_dps_linked_hub_list dps_name rg :
  reads_only (iot_dps_linked_hub_list dps_name rg).
Proof. unfold iot_dps_linked_hub_list. reads_only_tac. Qed.
#[local] Hint Resolve reads_only_iot_dps_linked_hub_list : reads.

Lemma reads_only_iot_dps_linked_hub_get dps_name rg linked_hub :
  reads_only (iot_dps_linked_hub_get dps_name rg linked_hub).
Proof. unfold iot_dps_linked_hub_get. reads_only_tac. Qed.
#[local] Hint Resolve reads_only_iot_dps_linked_hub_get : reads.

Lemma reads_only_set_api_version v : reads_only (set_api_version v).
Proof. unfold set_api_version. reads_only_tac. Qed.
#[local] Hint Resolve reads_only_set_api_version : reads.

Lemma reads_only__get_iot_hub_by_name hub_name :
  reads_only (_get_iot_hub_by_name hub_name).
Proof.
  unfold _get_iot_hub_by_name, iot_hub_list, hub_list_by_subscription.
  reads_only_tac.
Qed.
#[local] Hint Resolve reads_only__get_iot_hub_by_name : reads.

Lemma reads_only__ensure_resource_group_name rg hub_name :
  reads_only (_ensure_resource_group_name rg hub_name).
Proof. unfold _ensure_resource_group_name. reads_only_tac. Qed.
#[local] Hint Resolve reads_only__ensure_resource_group_name : reads.

Lemma reads_only_iot_hub_get hub_name rg : reads_only (iot_hub_get hub_name rg).
Proof.
  unfold iot_hub_get, _ensure_resource_group_existence, rg_check_existence,
    hub_check_name_availability, hub_get.
  reads_only_tac.
Qed.
#[local] Hint Resolve reads_only_iot_hub_get : reads.

Lemma reads_only_iot_hub_policy_list hub_name rg :
  reads_only (iot_hub_policy_list hub_name rg).
Proof. unfold iot_hub_policy_list, hub_list_keys. reads_only_tac. Qed.
#[local] Hint Resolve reads_only_iot_hub_policy_list : reads.

Lemma reads_only_iot_hub_policy_get hub_name policy_name rg :
  reads_only (iot_hub_policy_get hub_name policy_name rg).
Proof. unfold iot_hub_policy_get, hub_get_keys_for_key_name. reads_only_tac. Qed.
#[local] Hint Resolve reads_only_iot_hub_policy_get : reads.

Lemma reads_only_hub_routing hub : reads_only (hub_routing hub).
Proof. unfold hub_routing. reads_only_tac. Qed.
#[local] Hint Resolve reads_only_hub_routing : reads.

Lemma reads_only__convert_perms_to_access_rights perm_list :
  reads_only (_convert_perms_to_access_rights perm_list).
Proof. unfold _convert_perms_to_access_rights. reads_only_tac. Qed.
#[local] Hint Resolve reads_only__convert_perms_to_access_rights : reads.

Lemma reads_only_generateKey : reads_only generateKey.
Proof. unfold generateKey. reads_only_tac. Qed.
#[local] Hint Resolve reads_only_generateKey : reads.

Lemma reads_only_resubmissions {A : Type} (m : M A) cl tr :
  reads_only m -> resubmissions m cl tr = [].
Proof. intros Hm. apply Hm. Qed.

Lemma resubmissions_bind {A B : Type} (m : M A) (f : A -> M B) cl tr :
  resubmissions (m ≫= f) cl tr =
  List.filter is_create_or_update (m cl tr).2 ++
  match (m cl tr).1 with
  | inr a => resubmissions (f a) cl (tr ++ (m cl tr).2)
  | inl _ => []
  end.
Proof.
  unfold resubmissions, mbind, M_bind.
  destruct (m cl tr) as [[e|a] new]; simpl.
  - rewrite app_nil_r. reflexivity.
  - destruct (f a cl (tr ++ new)) as [r new']. simpl.
    apply List.filter_app.
Qed.

Lemma bind_ret_run {A B : Type} (a : A) (f : A -> M B) cl tr :
  (mret a ≫= f) cl tr = f a cl tr.
Proof.
  unfold mbind, M_bind, mret, M_ret. rewrite app_nil_r.
  destruct (f a cl tr); reflexivity.
Qed.

Lemma bind_assoc_run {A B C : Type} (m : M A) (f : A -> M B) (g : B -> M C) cl tr :
  ((m ≫= f) ≫= g) cl tr = (m ≫= (fun a => f a ≫= g)) cl tr.
Proof.
  unfold mbind, M_bind.
  destruct (m cl tr) as [[e|a] new]; [reflexivity|].
  destruct (f a cl (tr ++ new)) as [[e|b] new']; [reflexivity|].
  rewrite <- app_assoc.
  destruct (g b cl (tr ++ new ++ new')) as [r new'']. rewrite <- app_assoc.
  reflexivity.
Qed.

(** ** DPS commands: what is sent back *)

(** The tail shared by the DPS commands: the call, then (unless
    [no_wait]) the wait and a read. *)
Lemma dps_submit_resubmissions {B : Type} (readback : M B) (no_wait : bool)
    rg dps_name dps_description cl tr :
  reads_only readback ->
  resubmissions
    (if no_wait then
       inl <$> dps_create_or_update rg dps_name dps_description None
     else
       poller ← dps_create_or_update rg dps_name dps_description None;
       _ ← LongRunningOperation poller;
       inr <$> readback) cl tr =
  [iot_dps_resource_create_or_update rg dps_name dps_description None].
Proof.
  intros Hread. destruct no_wait.
  - rewrite resubmissions_fmap. reflexivity.
  - rewrite resubmissions_bind. unfold dps_create_or_update, sdk. simpl.
    destruct (on_dps_create_or_update _ _ _ _ _ _) as [e|poller]; [reflexivity|].
    rewrite reads_only_resubmissions; [reflexivity|]. reads_only_tac.
Qed.

Ltac run_with Hm := rewrite (bind_inr _ _ _ _ _ _ Hm); cbv beta.
Ltac resub_with Hm :=
  rewrite (resubmissions_bind_inr _ _ _ _ _ _ Hm) by auto with reads; cbv beta.

Lemma dps_policy_create_existing cl tr dps_name rg name rights pk sk no_wait
    policies new1 :
  iot_dps_access_policy_list dps_name rg cl tr = (inr policies, new1) ->
  _is_policy_existed policies name = true ->
  iot_dps_access_policy_create dps_name rg name rights pk sk no_wait cl tr =
    (inl (CLIError ("Access policy " +:+ name +:+ " already existed.")), new1) /\
  resubmissions (iot_dps_access_policy_create dps_name rg name rights pk sk no_wait)
    cl tr = [].
Proof.
  intros Hlist Hex. unfold iot_dps_access_policy_create. split.
  - run_with Hlist. rewrite Hex. simpl. rewrite app_nil_r. reflexivity.
  - resub_with Hlist. rewrite Hex. reflexivity.
Qed.

Lemma dps_policy_create_fresh cl tr dps_name rg name rights pk sk no_wait
    policies new1 dps new2 :
  iot_dps_access_policy_list dps_name rg cl tr = (inr policies, new1) ->
  _is_policy_existed policies name = false ->
  iot_dps_get dps_name rg cl (tr ++ new1) = (inr dps, new2) ->
  resubmissions (iot_dps_access_policy_create dps_name rg name rights pk sk no_wait)
    cl tr =
  [iot_dps_resource_create_or_update rg dps_name
     (dps_description_of dps
        (mkDpsProperties (iot_hubs (d_properties dps))
           (allocation_policy (d_properties dps))
           (policies ++ [mkRule name pk sk (_convert_rights_to_access_rights rights)])))
     None].
Proof.
  intros Hlist Hex Hget. unfold iot_dps_access_policy_create.
  resub_with Hlist. rewrite Hex. resub_with Hget.
  apply dps_submit_resubmissions. auto with reads.
Qed.

Lemma dps_policy_update_missing cl tr dps_name rg name pk sk rights no_wait
    policies new1 :
  iot_dps_access_policy_list dps_name rg cl tr = (inr policies, new1) ->
  _is_policy_existed policies name = false ->
  iot_dps_access_policy_update dps_name rg name pk sk rights no_wait cl tr =
    (inl (CLIError ("Access policy " +:+ name +:+ " doesn't exist.")), new1) /\
  resubmissions (iot_dps_access_policy_update dps_name rg name pk sk rights no_wait)
    cl tr = [].
Proof.
  intros Hlist Hex. unfold iot_dps_access_policy_update. split.
  - run_with Hlist. rewrite Hex. simpl. rewrite app_nil_r. reflexivity.
  - resub_with Hlist. rewrite Hex. reflexivity.
Qed.

Lemma dps_policy_update_present cl tr dps_name rg name pk sk rights no_wait
    policies new1 dps new2 :
  iot_dps_access_policy_list dps_name rg cl tr = (inr policies, new1) ->
  _is_policy_existed policies name = true ->
  iot_dps_get dps_name rg cl (tr ++ new1) = (inr dps, new2) ->
  resubmissions (iot_dps_access_policy_update dps_name rg name pk sk rights no_wait)
    cl tr =
  [iot_dps_resource_create_or_update rg dps_name
     (dps_description_of dps
        (mkDpsProperties (iot_hubs (d_properties dps))
           (allocation_policy (d_properties dps))
           (map (update_policy name pk sk rights) policies)))
     None].
Proof.
  intros Hlist Hex Hget. unfold iot_dps_access_policy_update.
  resub_with Hlist. rewrite Hex. simpl negb. cbv iota. resub_with Hget.
  apply dps_submit_resubmissions. auto with reads.
Qed.

Lemma dps_policy_delete_missing cl tr dps_name rg name no_wait policies new1 :
  iot_dps_access_policy_list dps_name rg cl tr = (inr policies, new1) ->
  _is_policy_existed policies name = false ->
  iot_dps_access_policy_delete dps_name rg name no_wait cl tr =
    (inl (CLIError ("Access policy " +:+ name +:+ " doesn't existed.")), new1) /\
  resubmissions (iot_dps_access_policy_delete dps_name rg name no_wait) cl tr = [].
Proof.
  intros Hlist Hex. unfold iot_dps_access_policy_delete. split.
  - run_with Hlist. rewrite Hex. simpl. rewrite app_nil_r. reflexivity.
  - resub_with Hlist. rewrite Hex. reflexivity.
Qed.

Lemma dps_policy_delete_present cl tr dps_name rg name no_wait
    policies new1 dps new2 :
  iot_dps_access_policy_list dps_name rg cl tr = (inr policies, new1) ->
  _is_policy_existed policies name = true ->
  iot_dps_get dps_name rg cl (tr ++ new1) = (inr dps, new2) ->
  resubmissions (iot_dps_access_policy_delete dps_name rg name no_wait) cl tr =
  [iot_dps_resource_create_or_update rg dps_name
     (dps_description_of dps
        (mkDpsProperties (iot_hubs (d_properties dps))
           (allocation_policy (d_properties dps))
           (List.filter
              (fun p => negb (String.eqb (lower (rule_key_name p)) (lower name)))
              policies)))
     None].
Proof.
  intros Hlist Hex Hget. unfold iot_dps_access_policy_delete.
  resub_with Hlist. rewrite Hex. simpl negb. cbv iota. resub_with Hget.
  apply dps_submit_resubmissions. auto with reads.
Qed.

Lemma dps_linked_hub_create_appends cl tr dps_name rg connection_string location
    apply_allocation_policy allocation_weight no_wait hubs new1 dps new2 :
  iot_dps_linked_hub_list dps_name rg cl tr = (inr hubs, new1) ->
  iot_dps_get dps_name rg cl (tr ++ new1 ++ [client_set_api_version "2017-11-15"]) =
    (inr dps, new2) ->
  resubmissions
    (iot_dps_linked_hub_create dps_name rg connection_string location
       apply_allocation_policy allocation_weight no_wait) cl tr =
  [iot_dps_resource_create_or_update rg dps_name
     (dps_description_of dps
        (mkDpsProperties
           (hubs ++ [mkLinkedHub EmptyString connection_string location
                       apply_allocation_policy allocation_weight])
           (allocation_policy (d_properties dps))
           (dps_authorization_policies (d_properties dps))))
     None].
Proof.
  intros Hlist Hget. unfold iot_dps_linked_hub_create.
  resub_with Hlist.
  assert (Hset : set_api_version "2017-11-15" cl (tr ++ new1) =
                 (inr tt, [client_set_api_version "2017-11-15"])) by reflexivity.
  resub_with Hset. rewrite <- app_assoc. resub_with Hget.
  apply dps_submit_resubmissions. auto with reads.
Qed.

Lemma dps_linked_hub_update_missing cl tr dps_name rg linked_hub
    apply_allocation_policy allocation_weight no_wait hubs new1 :
  iot_dps_linked_hub_list dps_name rg cl tr = (inr hubs, new1) ->
  _is_linked_hub_existed hubs linked_hub = false ->
  iot_dps_linked_hub_update dps_name rg linked_hub apply_allocation_policy
    allocation_weight no_wait cl tr =
    (inl (CLIError ("Access policy " +:+ linked_hub +:+ " doesn't existed.")), new1) /\
  resubmissions
    (iot_dps_linked_hub_update dps_name rg linked_hub apply_allocation_policy
       allocation_weight no_wait) cl tr = [].
Proof.
  intros Hlist Hex. unfold iot_dps_linked_hub_update. split.
  - run_with Hlist. rewrite Hex. simpl. rewrite app_nil_r. reflexivity.
  - resub_with Hlist. rewrite Hex. reflexivity.
Qed.

Lemma dps_linked_hub_update_present cl tr dps_name rg linked_hub
    apply_allocation_policy allocation_weight no_wait hubs new1 dps new2 :
  iot_dps_linked_hub_list dps_name rg cl tr = (inr hubs, new1) ->
  _is_linked_hub_existed hubs linked_hub = true ->
  iot_dps_get dps_name rg cl (tr ++ new1) = (inr dps, new2) ->
  resubmissions
    (iot_dps_linked_hub_update dps_name rg linked_hub apply_allocation_policy
       allocation_weight no_wait) cl tr =
  [iot_dps_resource_create_or_update rg dps_name
     (dps_description_of dps
        (mkDpsProperties
           (map (update_linked_hub linked_hub apply_allocation_policy allocation_weight)
                hubs)
           (allocation_policy (d_properties dps))
           (dps_authorization_policies (d_properties dps))))
     None].
Proof.
  intros Hlist Hex Hget. unfold iot_dps_linked_hub_update.
  resub_with Hlist. rewrite Hex. simpl negb. cbv iota. resub_with Hget.
  apply dps_submit_resubmissions. auto with reads.
Qed.

Lemma dps_linked_hub_delete_missing cl tr dps_name rg linked_hub no_wait hubs new1 :
  iot_dps_linked_hub_list dps_name rg cl tr = (inr hubs, new1) ->
  _is_linked_hub_existed hubs linked_hub = false ->
  iot_dps_linked_hub_delete dps_name rg linked_hub no_wait cl tr =
    (inl (CLIError ("Linked hub " +:+ linked_hub +:+ " doesn't existed.")), new1) /\
  resubmissions (iot_dps_linked_hub_delete dps_name rg linked_hub no_wait) cl tr = [].
Proof.
  intros Hlist Hex. unfold iot_dps_linked_hub_delete. split.
  - run_with Hlist. rewrite Hex. simpl. rewrite app_nil_r. reflexivity.
  - resub_with Hlist. rewrite Hex. reflexivity.
Qed.

Lemma dps_linked_hub_delete_present cl tr dps_name rg linked_hub no_wait
    hubs new1 dps new2 :
  iot_dps_linked_hub_list dps_name rg cl tr = (inr hubs, new1) ->
  _is_linked_hub_existed hubs linked_hub = true ->
  iot_dps_get dps_name rg cl (tr ++ new1) = (inr dps, new2) ->
  resubmissions (iot_dps_linked_hub_delete dps_name rg linked_hub no_wait) cl tr =
  [iot_dps_resource_create_or_update rg dps_name
     (dps_description_of dps
        (mkDpsProperties
           (List.filter
              (fun p => negb (String.eqb (lower (linked_name p)) (lower linked_hub)))
              hubs)
           (allocation_policy (d_properties dps))
           (dps_authorization_policies (d_properties dps))))
     None].
Proof.
  intros Hlist Hex Hget. unfold iot_dps_linked_hub_delete.
  resub_with Hlist. rewrite Hex. simpl negb. cbv iota. resub_with Hget.
  apply dps_submit_resubmissions. auto with reads.
Qed.

(** ** Hub commands: what is sent back *)

Lemma getitem_Some {V : Type} (d : gmap string V) (k : string) (v : V) :
  d !! k = Some v -> getitem d k = mret v.
Proof. intros Hk. unfold getitem. rewrite Hk. reflexivity. Qed.

Lemma hub_routing_Some hub r :
  routing (h_properties hub) = Some r -> hub_routing hub = mret r.
Proof. intros Hr. unfold hub_routing. rewrite Hr. reflexivity. Qed.

Lemma hub_routing_set r hub : hub_routing (set_hub_routing r hub) = mret r.
Proof. reflexivity. Qed.

Lemma hub_routing_set_routes v r hub :
  hub_routing (set_hub_routes v r hub) = mret (set_routing_routes v r).
Proof. reflexivity. Qed.

Lemma hub_create_or_update_run rg name hub hdrs cl tr :
  hub_create_or_update rg name hub hdrs cl tr =
  (on_hub_create_or_update cl tr rg name hub hdrs,
   [iot_hub_resource_create_or_update rg name hub hdrs]).
Proof. reflexivity. Qed.

Lemma _convert_perms_to_access_rights_calls perm_list cl tr :
  (_convert_perms_to_access_rights perm_list cl tr).2 = [].
Proof.
  unfold _convert_perms_to_access_rights, getitem.
  destruct (access_rights_mapping !! _); reflexivity.
Qed.

Lemma _convert_perms_to_access_rights_run perm_list cl tr rights :
  (_convert_perms_to_access_rights perm_list cl tr).1 = inr rights ->
  _convert_perms_to_access_rights perm_list cl tr = (inr rights, []).
Proof.
  intros Hr. pose proof (_convert_perms_to_access_rights_calls perm_list cl tr) as Hc.
  destruct (_convert_perms_to_access_rights perm_list cl tr) as [r new].
  simpl in Hr, Hc. subst. reflexivity.
Qed.

Lemma fetch_run {B : Type} (k : string -> IotHubDescription -> M B)
    hub_name resource_group_name cl tr rg hub news :
  hub_fetched hub_name resource_group_name cl tr rg hub news ->
  (rg ← _ensure_resource_group_name resource_group_name hub_name;
   hub ← iot_hub_get hub_name (Some rg); k rg hub) cl tr =
  ((k rg hub cl (tr ++ news)).1, news ++ (k rg hub cl (tr ++ news)).2).
Proof.
  intros (new1 & new2 & Hens & Hget & ->).
  run_with Hens. run_with Hget. simpl. rewrite !app_assoc. reflexivity.
Qed.

Lemma hub_policy_create_existing cl tr hub_name policy_name permissions rg
    rights hub new1 rgp policies new2 :
  (_convert_perms_to_access_rights permissions cl tr).1 = inr rights ->
  iot_hub_get hub_name rg cl tr = (inr hub, new1) ->
  additional_properties hub !! "resourcegroup" = Some rgp ->
  iot_hub_policy_list hub_name (Some rgp) cl (tr ++ new1) = (inr policies, new2) ->
  _is_policy_existed policies policy_name = true ->
  iot_hub_policy_create hub_name policy_name permissions rg cl tr =
    (inl (CLIError ("Policy " +:+ policy_name +:+ " already existed.")),
     new1 ++ new2).
Proof.
  intros Hperm Hget Hrg Hkeys Hex. unfold iot_hub_policy_create.
  apply _convert_perms_to_access_rights_run in Hperm.
  run_with Hperm. rewrite app_nil_r. run_with Hget.
  rewrite (getitem_Some _ _ _ Hrg), bind_ret_run.
  run_with Hkeys. rewrite Hex. simpl. rewrite app_nil_r. reflexivity.
Qed.

Lemma hub_policy_create_fresh cl tr hub_name policy_name permissions rg
    rights hub new1 rgp policies new2 :
  (_convert_perms_to_access_rights permissions cl tr).1 = inr rights ->
  iot_hub_get hub_name rg cl tr = (inr hub, new1) ->
  additional_properties hub !! "resourcegroup" = Some rgp ->
  iot_hub_policy_list hub_name (Some rgp) cl (tr ++ new1) = (inr policies, new2) ->
  _is_policy_existed policies policy_name = false ->
  let hub' :=
    set_hub_authorization_policies
      (policies ++ [mkRule policy_name None None rights]) hub in
  iot_hub_policy_create hub_name policy_name permissions rg cl tr =
    (on_hub_create_or_update cl (tr ++ new1 ++ new2) rgp hub_name hub'
       (if_match_headers hub),
     new1 ++ new2 ++
     [iot_hub_resource_create_or_update rgp hub_name hub' (if_match_headers hub)]).
Proof.
  intros Hperm Hget Hrg Hkeys Hex hub'. unfold iot_hub_policy_create.
  apply _convert_perms_to_access_rights_run in Hperm.
  run_with Hperm. rewrite app_nil_r. run_with Hget.
  rewrite (getitem_Some _ _ _ Hrg), bind_ret_run.
  run_with Hkeys. rewrite Hex. cbv beta iota zeta.
  change (additional_properties (set_hub_authorization_policies _ hub))
    with (additional_properties hub).
  rewrite (getitem_Some _ _ _ Hrg), bind_ret_run.
  rewrite hub_create_or_update_run. simpl. rewrite !app_assoc. reflexivity.
Qed.

Lemma hub_policy_delete_missing cl tr hub_name policy_name rg
    hub new1 rgp policies new2 :
  iot_hub_get hub_name rg cl tr = (inr hub, new1) ->
  additional_properties hub !! "resourcegroup" = Some rgp ->
  iot_hub_policy_list hub_name (Some rgp) cl (tr ++ new1) = (inr policies, new2) ->
  _is_policy_existed policies policy_name = false ->
  iot_hub_policy_delete hub_name policy_name rg cl tr =
    (inl (CLIError ("Policy " +:+ policy_name +:+ " not found.")), new1 ++ new2).
Proof.
  intros Hget Hrg Hkeys Hex. unfold iot_hub_policy_delete.
  run_with Hget. rewrite (getitem_Some _ _ _ Hrg), bind_ret_run.
  run_with Hkeys. rewrite Hex. simpl. rewrite app_nil_r. reflexivity.
Qed.

Lemma route_create_run cl tr hub_name route_name source_type endpoint_name
    enabled condition resource_group_name rg hub news r :
  hub_fetched hub_name resource_group_name cl tr rg hub news ->
  routing (h_properties hub) = Some r ->
  let hub' :=
    set_hub_routes
      (routing_routes r ++
       [mkRoute route_name source_type
          (match condition with None => "true" | Some condition => condition end)
          (split endpoint_name)
          (match enabled with None => true | Some enabled => enabled end)])
      r hub in
  iot_hub_route_create hub_name route_name source_type endpoint_name enabled
    condition resource_group_name cl tr =
    (on_hub_create_or_update cl (tr ++ news) rg hub_name hub' (if_match_headers hub),
     news ++ [iot_hub_resource_create_or_update rg hub_name hub' (if_match_headers hub)]).
Proof.
  intros Hf Hr hub'. unfold iot_hub_route_create.
  rewrite (fetch_run _ _ _ _ _ _ _ _ Hf).
  rewrite (hub_routing_Some _ _ Hr), bind_ret_run, hub_create_or_update_run.
  reflexivity.
Qed.

Lemma route_delete_run cl tr hub_name route_name source_type resource_group_name
    rg hub news r :
  hub_fetched hub_name resource_group_name cl tr rg hub news ->
  routing (h_properties hub) = Some r ->
  let hub' :=
    set_hub_routes (routes_after_delete route_name source_type (routing_routes r))
      r hub in
  iot_hub_route_delete hub_name route_name source_type resource_group_name cl tr =
    (on_hub_create_or_update cl (tr ++ news) rg hub_name hub' (if_match_headers hub),
     news ++ [iot_hub_resource_create_or_update rg hub_name hub' (if_match_headers hub)]).
Proof.
  intros Hf Hr hub'. unfold iot_hub_route_delete.
  rewrite (fetch_run _ _ _ _ _ _ _ _ Hf).
  subst hub'. unfold routes_after_delete.
  destruct (truthy route_name), (truthy source_type); simpl negb; simpl andb;
    cbv iota;
    repeat first
      [ rewrite bind_assoc_run
      | rewrite (hub_routing_Some _ _ Hr)
      | rewrite hub_routing_set_routes
      | rewrite bind_ret_run; cbv beta ];
    rewrite hub_create_or_update_run; reflexivity.
Qed.

Lemma bind_raise_run {A B : Type} (e : Error) (f : A -> M B) cl tr :
  (raise e ≫= f) cl tr = (inl e, []).
Proof. reflexivity. Qed.

Lemma hub_routing_None hub :
  routing (h_properties hub) = None -> hub_routing hub = raise (AttributeError "routing").
Proof. intros Hr. unfold hub_routing. rewrite Hr. reflexivity. Qed.

Ltac run_norm :=
  repeat first
    [ rewrite bind_assoc_run
    | rewrite bind_ret_run; cbv beta
    | rewrite bind_raise_run
    | rewrite hub_routing_set_routes
    | rewrite hub_routing_set
    | rewrite hub_create_or_update_run
    | match goal with
      | Hr : routing (h_properties ?hub) = Some _ |- _ =>
          rewrite (hub_routing_Some hub _ Hr)
      | Hr : routing (h_properties ?hub) = None |- _ =>
          rewrite (hub_routing_None hub Hr)
      end ].

Lemma route_update_found cl tr hub_name route_name source_type endpoint_name
    enabled condition resource_group_name rg hub news r route :
  hub_fetched hub_name resource_group_name cl tr rg hub news ->
  routing (h_properties hub) = Some r ->
  List.find (fun route => String.eqb (lower (rt_name route)) (lower route_name))
            (routing_routes r) = Some route ->
  let hub' :=
    set_hub_routes
      (update_first
         (fun route => String.eqb (lower (rt_name route)) (lower route_name))
         (update_route source_type endpoint_name enabled condition)
         (routing_routes r)) r hub in
  iot_hub_route_update hub_name route_name source_type endpoint_name enabled
    condition resource_group_name cl tr =
    (on_hub_create_or_update cl (tr ++ news) rg hub_name hub' (if_match_headers hub),
     news ++ [iot_hub_resource_create_or_update rg hub_name hub' (if_match_headers hub)]).
Proof.
  intros Hf Hr Hfind hub'. unfold iot_hub_route_update.
  rewrite (fetch_run _ _ _ _ _ _ _ _ Hf). run_norm. rewrite Hfind. run_norm.
  reflexivity.
Qed.

Lemma route_update_missing cl tr hub_name route_name source_type endpoint_name
    enabled condition resource_group_name rg hub news r :
  hub_fetched hub_name resource_group_name cl tr rg hub news ->
  routing (h_properties hub) = Some r ->
  List.find (fun route => String.eqb (lower (rt_name route)) (lower route_name))
            (routing_routes r) = None ->
  iot_hub_route_update hub_name route_name source_type endpoint_name enabled
    condition resource_group_name cl tr =
    (inl (CLIError "No route found."), news).
Proof.
  intros Hf Hr Hfind. unfold iot_hub_route_update.
  rewrite (fetch_run _ _ _ _ _ _ _ _ Hf). run_norm. rewrite Hfind.
  simpl. rewrite app_nil_r. reflexivity.
Qed.

Lemma routing_endpoint_delete_run cl tr hub_name endpoint_name endpoint_type
    resource_group_name rg hub news r :
  hub_fetched hub_name resource_group_name cl tr rg hub news ->
  routing (h_properties hub) = Some r ->
  let hub' :=
    set_hub_routing
      (set_routing_endpoints
         (_delete_routing_endpoints endpoint_name endpoint_type (routing_endpoints r))
         r) hub in
  iot_hub_routing_endpoint_delete hub_name endpoint_name endpoint_type
    resource_group_name cl tr =
    (on_hub_create_or_update cl (tr ++ news) rg hub_name hub' (if_match_headers hub),
     news ++ [iot_hub_resource_create_or_update rg hub_name hub' (if_match_headers hub)]).
Proof.
  intros Hf Hr hub'. unfold iot_hub_routing_endpoint_delete.
  rewrite (fetch_run _ _ _ _ _ _ _ _ Hf). run_norm. reflexivity.
Qed.

Lemma message_enrichment_create_run cl tr hub_name key value endpoints
    resource_group_name rg hub news r :
  hub_fetched hub_name resource_group_name cl tr rg hub news ->
  routing (h_properties hub) = Some r ->
  let hub' :=
    set_hub_routing
      (set_routing_enrichments
         (Some (default [] (routing_enrichments r) ++
                [mkEnrichment key value endpoints])) r) hub in
  iot_message_enrichment_create hub_name key value endpoints resource_group_name
    cl tr =
    (on_hub_create_or_update cl (tr ++ news) rg hub_name hub' (if_match_headers hub),
     news ++ [iot_hub_resource_create_or_update rg hub_name hub' (if_match_headers hub)]).
Proof.
  intros Hf Hr hub'. unfold iot_message_enrichment_create.
  rewrite (fetch_run _ _ _ _ _ _ _ _ Hf). run_norm.
  subst hub'. destruct r as [e rs [en|]]; reflexivity.
Qed.

Lemma message_enrichment_update_missing cl tr hub_name key value endpoints
    resource_group_name rg hub news r enrichments :
  hub_fetched hub_name resource_group_name cl tr rg hub news ->
  routing (h_properties hub) = Some r ->
  routing_enrichments r = Some enrichments ->
  List.find (fun endpoint => String.eqb (enrichment_key endpoint) key) enrichments
    = None ->
  iot_message_enrichment_update hub_name key value endpoints resource_group_name
    cl tr =
    (inl (CLIError "No message enrichment with that key exists"), news).
Proof.
  intros Hf Hr Hen Hfind. unfold iot_message_enrichment_update.
  rewrite (fetch_run _ _ _ _ _ _ _ _ Hf). run_norm. rewrite Hen, Hfind.
  simpl. rewrite app_nil_r. reflexivity.
Qed.

Lemma message_enrichment_delete_missing cl tr hub_name key
    resource_group_name rg hub news r enrichments :
  hub_fetched hub_name resource_group_name cl tr rg hub news ->
  routing (h_properties hub) = Some r ->
  routing_enrichments r = Some enrichments ->
  List.find (fun endpoint => String.eqb (enrichment_key endpoint) key) enrichments
    = None ->
  iot_message_enrichment_delete hub_name key resource_group_name cl tr =
    (inl (CLIError "No message enrichment with that key exists"), news).
Proof.
  intros Hf Hr Hen Hfind. unfold iot_message_enrichment_delete.
  rewrite (fetch_run _ _ _ _ _ _ _ _ Hf). run_norm. rewrite Hen, Hfind.
  simpl. rewrite app_nil_r. reflexivity.
Qed.

(** The calls of a fetch are reads. *)
Lemma hub_fetched_reads hub_name resource_group_name cl tr rg hub news :
  hub_fetched hub_name resource_group_name cl tr rg hub news ->
  List.filter is_create_or_update news = [].
Proof.
  intros (new1 & new2 & Hens & Hget & ->). rewrite List.filter_app.
  pose proof (reads_only__ensure_resource_group_name resource_group_name hub_name
                cl tr) as H1.
  pose proof (reads_only_iot_hub_get hub_name (Some rg) cl (tr ++ new1)) as H2.
  rewrite Hens in H1. rewrite Hget in H2. simpl in H1, H2.
  rewrite H1, H2. reflexivity.
Qed.

Lemma resubmissions_run {A : Type} (m : M A) cl tr r news c :
  m cl tr = (r, news ++ [c]) ->
  List.filter is_create_or_update news = [] ->
  is_create_or_update c = true ->
  resubmissions m cl tr = [c].
Proof.
  intros Hm Hn Hc. unfold resubmissions. rewrite Hm. simpl.
  rewrite List.filter_app, Hn. simpl. rewrite Hc. reflexivity.
Qed.

Lemma resubmissions_failed {A : Type} (m : M A) cl tr r news :
  m cl tr = (r, news) ->
  List.filter is_create_or_update news = [] ->
  resubmissions m cl tr = [].
Proof. intros Hm Hn. unfold resubmissions. rewrite Hm. exact Hn. Qed.

(** ** [_delete_routing_endpoints] *)

Lemma names_type_eqb endpoint_type t t' :
  names_type endpoint_type t ->
  String.eqb (EndpointType_value t') (lower endpoint_type) = bool_decide (t' = t).
Proof.
  intros Hn. destruct (Hn t') as [H1 H2].
  destruct (decide (t' = t)) as [Heq|Hne].
  - rewrite bool_decide_eq_true_2 by assumption. apply String.eqb_eq. auto.
  - rewrite bool_decide_eq_false_2 by assumption. apply String.eqb_neq. auto.
Qed.

Lemma name_only_delete endpoint_name endpoints :
  truthy (Some endpoint_name) = true ->
  _delete_routing_endpoints (Some endpoint_name) None endpoints =
  remove_by_name endpoint_name endpoints.
Proof.
  intros Hn. unfold _delete_routing_endpoints, remove_by_name.
  rewrite Hn. simpl.
  destruct (existsb _ (service_bus_queues endpoints)); [reflexivity|].
  destruct (existsb _ (service_bus_topics endpoints)); [reflexivity|].
  destruct (existsb _ (storage_containers endpoints)); [reflexivity|].
  destruct (existsb _ (event_hubs endpoints)); reflexivity.
Qed.

Lemma type_then_name_delete endpoint_name endpoint_type t endpoints :
  truthy (Some endpoint_type) = true ->
  names_type endpoint_type t ->
  (truthy endpoint_name = true /\
   _delete_routing_endpoints endpoint_name (Some endpoint_type) endpoints =
   _delete_routing_endpoints endpoint_name None (clear_type t endpoints)) \/
  (truthy endpoint_name = false /\
   _delete_routing_endpoints endpoint_name (Some endpoint_type) endpoints =
   clear_type t endpoints).
Proof.
  intros Ht Hn. unfold _delete_routing_endpoints at 1 3.
  rewrite Ht. cbv zeta. simpl default.
  rewrite !(names_type_eqb _ _ _ Hn).
  destruct (truthy endpoint_name) eqn:Hname.
  - left. split; [reflexivity|].
    unfold _delete_routing_endpoints. rewrite Hname. simpl.
    destruct t; reflexivity.
  - right. split; [reflexivity|]. destruct t; reflexivity.
Qed.

(** C7. A routing-endpoint delete given a type and no name empties the
    sub-collection of that type and leaves the three others as they were. *)
Theorem type_only_delete_clears_that_type
    (endpoint_name : option string) (endpoint_type : string) (t : EndpointType)
    (endpoints : RoutingEndpoints) :
  truthy endpoint_name = false ->
  truthy (Some endpoint_type) = true ->
  names_type endpoint_type t ->
  let result := _delete_routing_endpoints endpoint_name (Some endpoint_type) endpoints in
  service_bus_queues result =
    (if decide (t = ServiceBusQueue) then [] else service_bus_queues endpoints) /\
  service_bus_topics result =
    (if decide (t = ServiceBusTopic) then [] else service_bus_topics endpoints) /\
  storage_containers result =
    (if decide (t = AzureStorageContainer) then [] else storage_containers endpoints) /\
  event_hubs result =
    (if decide (t = EventHub) then [] else event_hubs endpoints).
Proof.
  intros Hname Ht Hn result. subst result.
  destruct (type_then_name_delete endpoint_name _ _ endpoints Ht Hn)
    as [[Htrue _]|[_ Heq]].
  - congruence.
  - rewrite Heq. destruct t; repeat split; reflexivity.
Qed.

(** C4, as the code has it. Given both a name and a type, the
    sub-collection of that type is emptied first; the name is then looked
    for in what is left, in the order service bus queues, service bus
    topics, storage containers, event hubs, and the first sub-collection
    that has it loses the endpoints so named. *)
Theorem delete_by_name_and_type
    (endpoint_name endpoint_type : string) (t : EndpointType)
    (endpoints : RoutingEndpoints) :
  truthy (Some endpoint_name) = true ->
  truthy (Some endpoint_type) = true ->
  names_type endpoint_type t ->
  _delete_routing_endpoints (Some endpoint_name) (Some endpoint_type) endpoints =
  remove_by_name endpoint_name (clear_type t endpoints).
Proof.
  intros Hname Ht Hn.
  destruct (type_then_name_delete (Some endpoint_name) _ _ endpoints Ht Hn)
    as [[_ Heq]|[Hfalse _]].
  - rewrite Heq. apply name_only_delete. exact Hname.
  - congruence.
Qed.

(** ** Unchanged sub-collections *)

Lemma set_hub_routes_same hub r :
  routing (h_properties hub) = Some r ->
  set_hub_routes (routing_routes r) r hub = hub.
Proof.
  destruct hub as [n e l sk [ap eh ro st me en cd hn] ad]. simpl.
  intros ->. destruct r. reflexivity.
Qed.

Lemma set_hub_endpoints_same hub r :
  routing (h_properties hub) = Some r ->
  set_hub_routing (set_routing_endpoints (routing_endpoints r) r) hub = hub.
Proof.
  destruct hub as [n e l sk [ap eh ro st me en cd hn] ad]. simpl.
  intros ->. destruct r. reflexivity.
Qed.

Lemma routes_after_delete_no_match route_name routes :
  truthy (Some route_name) = true ->
  Forall (fun route => lower (rt_name route) <> lower route_name) routes ->
  routes_after_delete (Some route_name) None routes = routes.
Proof.
  intros Hn Hno. unfold routes_after_delete. rewrite Hn. simpl.
  apply (filter_none
           (fun route => String.eqb (lower (rt_name route)) (lower route_name))).
  eapply Forall_impl; [exact Hno|]. simpl. intros route Hr.
  apply String.eqb_neq. exact Hr.
Qed.

Lemma remove_by_name_no_match endpoint_name endpoints :
  (forall t, has_name endpoint_name endpoints t = false) ->
  remove_by_name endpoint_name endpoints = endpoints.
Proof.
  intros Hno. unfold remove_by_name, scan_order, List.find.
  rewrite !Hno. reflexivity.
Qed.

Lemma reads_calls {A : Type} (m : M A) cl tr r new :
  reads_only m -> m cl tr = (r, new) -> List.filter is_create_or_update new = [].
Proof. intros Hm Hrun. specialize (Hm cl tr). rewrite Hrun in Hm. exact Hm. Qed.

Lemma routing_endpoint_create_run cl tr hub_name endpoint_name endpoint_type
    endpoint_resource_group endpoint_subscription_id connection_string
    container_name encoding resource_group_name batch_frequency chunk_size_window
    file_name_format rg hub news r t :
  hub_fetched hub_name resource_group_name cl tr rg hub news ->
  routing (h_properties hub) = Some r ->
  names_type endpoint_type t ->
  (t = AzureStorageContainer -> truthy container_name = true) ->
  let hub' :=
    set_hub_routing
      (set_routing_endpoints
         (with_new_endpoint t endpoint_name endpoint_resource_group
            endpoint_subscription_id connection_string container_name encoding
            batch_frequency chunk_size_window file_name_format
            (routing_endpoints r)) r) hub in
  iot_hub_routing_endpoint_create hub_name endpoint_name endpoint_type
    endpoint_resource_group endpoint_subscription_id connection_string
    container_name encoding resource_group_name batch_frequency chunk_size_window
    file_name_format cl tr =
    (on_hub_create_or_update cl (tr ++ news) rg hub_name hub' (if_match_headers hub),
     news ++ [iot_hub_resource_create_or_update rg hub_name hub' (if_match_headers hub)]).
Proof.
  intros Hf Hr Hn Hc hub'. unfold iot_hub_routing_endpoint_create.
  rewrite (fetch_run _ _ _ _ _ _ _ _ Hf).
  rewrite !(names_type_eqb _ _ _ Hn).
  destruct t; simpl bool_decide; cbv iota;
    try (rewrite (Hc eq_refl); simpl negb; cbv iota);
    run_norm; reflexivity.
Qed.

Lemma routing_endpoint_create_no_container cl tr hub_name endpoint_name endpoint_type
    endpoint_resource_group endpoint_subscription_id connection_string
    container_name encoding resource_group_name batch_frequency chunk_size_window
    file_name_format rg hub news :
  hub_fetched hub_name resource_group_name cl tr rg hub news ->
  names_type endpoint_type AzureStorageContainer ->
  truthy container_name = false ->
  iot_hub_routing_endpoint_create hub_name endpoint_name endpoint_type
    endpoint_resource_group endpoint_subscription_id connection_string
    container_name encoding resource_group_name batch_frequency chunk_size_window
    file_name_format cl tr =
    (inl (CLIError "Container name is required."), news).
Proof.
  intros Hf Htype Hcontainer. unfold iot_hub_routing_endpoint_create.
  rewrite (fetch_run _ _ _ _ _ _ _ _ Hf).
  rewrite !(names_type_eqb _ _ _ Htype).
  rewrite !bool_decide_eq_false_2 by discriminate.
  rewrite bool_decide_eq_true_2 by reflexivity.
  rewrite Hcontainer. change (negb false) with true. cbv iota.
  run_norm. simpl. rewrite app_nil_r. reflexivity.
Qed.

Lemma routing_endpoint_create_unknown_type cl tr hub_name endpoint_name endpoint_type
    endpoint_resource_group endpoint_subscription_id connection_string
    container_name encoding resource_group_name batch_frequency chunk_size_window
    file_name_format rg hub news :
  hub_fetched hub_name resource_group_name cl tr rg hub news ->
  (forall t, EndpointType_value t <> lower endpoint_type) ->
  iot_hub_routing_endpoint_create hub_name endpoint_name endpoint_type
    endpoint_resource_group endpoint_subscription_id connection_string
    container_name encoding resource_group_name batch_frequency chunk_size_window
    file_name_format cl tr =
    (on_hub_create_or_update cl (tr ++ news) rg hub_name hub (if_match_headers hub),
     news ++ [iot_hub_resource_create_or_update rg hub_name hub (if_match_headers hub)]).
Proof.
  intros Hf Hunknown.
  assert (Hno : forall t,
             String.eqb (EndpointType_value t) (lower endpoint_type) = false).
  { intros t. apply String.eqb_neq, Hunknown. }
  unfold iot_hub_routing_endpoint_create.
  rewrite (fetch_run _ _ _ _ _ _ _ _ Hf). rewrite !Hno. run_norm.
  reflexivity.
Qed.

(** C9. A route delete given neither a route name nor a source type
    raises no error of its own: once the hub is fetched, it sends the hub
    back with an empty list of routes (and the hub's entity tag as
    IF-MATCH), and its outcome is the answer to that call. *)
Theorem route_delete_without_arguments_deletes_all
    (cl : Client) (tr : Trace) (hub_name : string)
    (route_name source_type resource_group_name : option string)
    (rg : string) (hub : IotHubDescription) (news : Trace) (r : RoutingProperties) :
  truthy route_name = false ->
  truthy source_type = false ->
  hub_fetched hub_name resource_group_name cl tr rg hub news ->
  routing (h_properties hub) = Some r ->
  let hub' := set_hub_routes [] r hub in
  iot_hub_route_delete hub_name route_name source_type resource_group_name cl tr =
    (on_hub_create_or_update cl (tr ++ news) rg hub_name hub' (if_match_headers hub),
     news ++ [iot_hub_resource_create_or_update rg hub_name hub' (if_match_headers hub)])
  /\ routing_routes <$> routing (h_properties hub') = Some [].
Proof.
  intros Hname Htype Hf Hr hub'. split; [|reflexivity].
  rewrite (route_delete_run _ _ _ _ _ _ _ _ _ _ Hf Hr).
  unfold routes_after_delete. rewrite Hname, Htype. reflexivity.
Qed.

(** ** Names that are absent *)

Lemma find_none {A : Type} (found : A -> bool) (l : list A) :
  Forall (fun y => found y = false) l -> List.find found l = None.
Proof.
  induction 1 as [|y l Hy _ IH]; simpl; [reflexivity|].
  rewrite Hy. exact IH.
Qed.

Lemma _is_policy_existed_false {R : Type} (policies : list (AuthorizationRule R))
    (policy_name : string) :
  Forall (fun p => lower (rule_key_name p) <> lower policy_name) policies ->
  _is_policy_existed policies policy_name = false.
Proof.
  intros Hno. destruct (_is_policy_existed policies policy_name) eqn:Hex;
    [|reflexivity].
  apply _is_policy_existed_spec in Hex. destruct Hex as (p & Hin & Hp).
  rewrite List.Forall_forall in Hno. destruct (Hno p Hin Hp).
Qed.

Lemma _is_linked_hub_existed_false (hubs : list IotHubDefinitionDescription)
    (hub_name : string) :
  Forall (fun h => lower (linked_name h) <> lower hub_name) hubs ->
  _is_linked_hub_existed hubs hub_name = false.
Proof.
  intros Hno. destruct (_is_linked_hub_existed hubs hub_name) eqn:Hex;
    [|reflexivity].
  apply _is_linked_hub_existed_spec in Hex. destruct Hex as (p & Hin & Hp).
  rewrite List.Forall_forall in Hno. destruct (Hno p Hin Hp).
Qed.

(** C2, as the code has it. An update or a delete of a DPS access
    policy or linked hub, an update of a route, an update or a delete of a
    message enrichment: when no entry has the given name (the given key,
    for an enrichment), the command raises its CLIError and makes no
    [create_or_update] call. A delete of a route or of a routing endpoint
    by a name that no entry has raises nothing: the hub is sent back as it
    was fetched. *)
Theorem missing_name_on_update_or_delete (cl : Client) (tr : Trace) :
  (forall dps_name rg name pk sk rights no_wait policies new1,
     iot_dps_access_policy_list dps_name rg cl tr = (inr policies, new1) ->
     Forall (fun p => lower (rule_key_name p) <> lower name) policies ->
     iot_dps_access_policy_update dps_name rg name pk sk rights no_wait cl tr =
       (inl (CLIError ("Access policy " +:+ name +:+ " doesn't exist.")), new1) /\
     resubmissions
       (iot_dps_access_policy_update dps_name rg name pk sk rights no_wait) cl tr = [])
  /\
  (forall dps_name rg name no_wait policies new1,
     iot_dps_access_policy_list dps_name rg cl tr = (inr policies, new1) ->
     Forall (fun p => lower (rule_key_name p) <> lower name) policies ->
     iot_dps_access_policy_delete dps_name rg name no_wait cl tr =
       (inl (CLIError ("Access policy " +:+ name +:+ " doesn't existed.")), new1) /\
     resubmissions (iot_dps_access_policy_delete dps_name rg name no_wait) cl tr = [])
  /\
  (forall dps_name rg linked_hub apply_allocation_policy allocation_weight no_wait
          hubs new1,
     iot_dps_linked_hub_list dps_name rg cl tr = (inr hubs, new1) ->
     Forall (fun h => lower (linked_name h) <> lower linked_hub) hubs ->
     iot_dps_linked_hub_update dps_name rg linked_hub apply_allocation_policy
       allocation_weight no_wait cl tr =
       (inl (CLIError ("Access policy " +:+ linked_hub +:+ " doesn't existed.")),
        new1) /\
     resubmissions
       (iot_dps_linked_hub_update dps_name rg linked_hub apply_allocation_policy
          allocation_weight no_wait) cl tr = [])
  /\
  (forall dps_name rg linked_hub no_wait hubs new1,
     iot_dps_linked_hub_list dps_name rg cl tr = (inr hubs, new1) ->
     Forall (fun h => lower (linked_name h) <> lower linked_hub) hubs ->
     iot_dps_linked_hub_delete dps_name rg linked_hub no_wait cl tr =
       (inl (CLIError ("Linked hub " +:+ linked_hub +:+ " doesn't existed.")), new1) /\
     resubmissions (iot_dps_linked_hub_delete dps_name rg linked_hub no_wait) cl tr
       = [])
  /\
  (forall hub_name route_name source_type endpoint_name enabled condition
          resource_group_name rg hub news r,
     hub_fetched hub_name resource_group_name cl tr rg hub news ->
     routing (h_properties hub) = Some r ->
     Forall (fun route => lower (rt_name route) <> lower route_name)
            (routing_routes r) ->
     iot_hub_route_update hub_name route_name source_type endpoint_name enabled
       condition resource_group_name cl tr =
       (inl (CLIError "No route found."), news) /\
     resubmissions
       (iot_hub_route_update hub_name route_name source_type endpoint_name enabled
          condition resource_group_name) cl tr = [])
  /\
  (forall hub_name key value endpoints resource_group_name rg hub news r enrichments,
     hub_fetched hub_name resource_group_name cl tr rg hub news ->
     routing (h_properties hub) = Some r ->
     routing_enrichments r = Some enrichments ->
     Forall (fun e => enrichment_key e <> key) enrichments ->
     iot_message_enrichment_update hub_name key value endpoints resource_group_name
       cl tr =
       (inl (CLIError "No message enrichment with that key exists"), news) /\
     resubmissions
       (iot_message_enrichment_update hub_name key value endpoints
          resource_group_name) cl tr = [])
  /\
  (forall hub_name key resource_group_name rg hub news r enrichments,
     hub_fetched hub_name resource_group_name cl tr rg hub news ->
     routing (h_properties hub) = Some r ->
     routing_enrichments r = Some enrichments ->
     Forall (fun e => enrichment_key e <> key) enrichments ->
     iot_message_enrichment_delete hub_name key resource_group_name cl tr =
       (inl (CLIError "No message enrichment with that key exists"), news) /\
     resubmissions (iot_message_enrichment_delete hub_name key resource_group_name)
       cl tr = [])
  /\
  (forall hub_name route_name resource_group_name rg hub news r,
     hub_fetched hub_name resource_group_name cl tr rg hub news ->
     routing (h_properties hub) = Some r ->
     truthy (Some route_name) = true ->
     Forall (fun route => lower (rt_name route) <> lower route_name)
            (routing_routes r) ->
     iot_hub_route_delete hub_name (Some route_name) None resource_group_name cl tr =
       (on_hub_create_or_update cl (tr ++ news) rg hub_name hub (if_match_headers hub),
        news ++
        [iot_hub_resource_create_or_update rg hub_name hub (if_match_headers hub)]))
  /\
  (forall hub_name endpoint_name resource_group_name rg hub news r,
     hub_fetched hub_name resource_group_name cl tr rg hub news ->
     routing (h_properties hub) = Some r ->
     truthy (Some endpoint_name) = true ->
     (forall t, has_name endpoint_name (routing_endpoints r) t = false) ->
     iot_hub_routing_endpoint_delete hub_name (Some endpoint_name) None
       resource_group_name cl tr =
       (on_hub_create_or_update cl (tr ++ news) rg hub_name hub (if_match_headers hub),
        news ++
        [iot_hub_resource_create_or_update rg hub_name hub (if_match_headers hub)])).
Proof.
  repeat split.
  - eapply proj1, dps_policy_update_missing; [eassumption|].
    apply _is_policy_existed_false; assumption.
  - eapply proj2, dps_policy_update_missing; [eassumption|].
    apply _is_policy_existed_false; assumption.
  - eapply proj1, dps_policy_delete_missing; [eassumption|].
    apply _is_policy_existed_false; assumption.
  - eapply proj2, dps_policy_delete_missing; [eassumption|].
    apply _is_policy_existed_false; assumption.
  - eapply proj1, dps_linked_hub_update_missing; [eassumption|].
    apply _is_linked_hub_existed_false; assumption.
  - eapply proj2, dps_linked_hub_update_missing; [eassumption|].
    apply _is_linked_hub_existed_false; assumption.
  - eapply proj1, dps_linked_hub_delete_missing; [eassumption|].
    apply _is_linked_hub_existed_false; assumption.
  - eapply proj2, dps_linked_hub_delete_missing; [eassumption|].
    apply _is_linked_hub_existed_false; assumption.
  - eapply route_update_missing; [eassumption..|].
    apply find_none. eapply Forall_impl; [eassumption|]. simpl.
    intros route Hr. apply String.eqb_neq. exact Hr.
  - eapply resubmissions_failed.
    + eapply route_update_missing; [eassumption..|].
      apply find_none. eapply Forall_impl; [eassumption|]. simpl.
      intros route Hr. apply String.eqb_neq. exact Hr.
    + eapply hub_fetched_reads; eassumption.
  - eapply message_enrichment_update_missing; [eassumption..|].
    apply find_none. eapply Forall_impl; [eassumption|]. simpl.
    intros e He. apply String.eqb_neq. exact He.
  - eapply resubmissions_failed.
    + eapply message_enrichment_update_missing; [eassumption..|].
      apply find_none. eapply Forall_impl; [eassumption|]. simpl.
      intros e He. apply String.eqb_neq. exact He.
    + eapply hub_fetched_reads; eassumption.
  - eapply message_enrichment_delete_missing; [eassumption..|].
    apply find_none. eapply Forall_impl; [eassumption|]. simpl.
    intros e He. apply String.eqb_neq. exact He.
  - eapply resubmissions_failed.
    + eapply message_enrichment_delete_missing; [eassumption..|].
      apply find_none. eapply Forall_impl; [eassumption|]. simpl.
      intros e He. apply String.eqb_neq. exact He.
    + eapply hub_fetched_reads; eassumption.
  - intros hub_name route_name resource_group_name rg hub news r Hf Hr Hn Hno.
    rewrite (route_delete_run _ _ _ _ _ _ _ _ _ _ Hf Hr).
    rewrite (routes_after_delete_no_match _ _ Hn Hno).
    rewrite (set_hub_routes_same _ _ Hr). reflexivity.
  - intros hub_name endpoint_name resource_group_name rg hub news r Hf Hr Hn Hno.
    rewrite (routing_endpoint_delete_run _ _ _ _ _ _ _ _ _ _ Hf Hr).
    rewrite (name_only_delete _ _ Hn), (remove_by_name_no_match _ _ Hno).
    rewrite (set_hub_endpoints_same _ _ Hr). reflexivity.
Qed.

(** ** Creation *)

(** C1, as the code has it. The creation of a DPS access policy or of a
    hub policy looks the new name up, letter case apart, in the policies
    listed: when it is there the command raises its CLIError and makes
    no [create_or_update] call, otherwise the new policy is added at the
    end of the list that is sent back. The creation of a linked hub, a
    route or a message enrichment looks nothing up: the new entry is
    added at the end and the resource is sent back, whatever names are
    there already. The creation of a routing endpoint looks no name up
    either: when the endpoint type names a member of [EndpointType],
    and a storage container comes with a container name, the endpoint
    is added at the end of the list of its type and the hub is sent
    back; a storage container without a container name raises
    "Container name is required." and nothing is sent; with a type that
    names no member nothing is added and the hub is sent back as it
    was fetched. *)
Theorem create_looks_up_policies_only (cl : Client) (tr : Trace) :
  (forall dps_name rg name rights pk sk no_wait policies new1,
     iot_dps_access_policy_list dps_name rg cl tr = (inr policies, new1) ->
     ((exists p, In p policies /\ lower (rule_key_name p) = lower name) ->
      iot_dps_access_policy_create dps_name rg name rights pk sk no_wait cl tr =
        (inl (CLIError ("Access policy " +:+ name +:+ " already existed.")), new1) /\
      resubmissions
        (iot_dps_access_policy_create dps_name rg name rights pk sk no_wait) cl tr
        = []) /\
     (Forall (fun p => lower (rule_key_name p) <> lower name) policies ->
      forall dps new2,
        iot_dps_get dps_name rg cl (tr ++ new1) = (inr dps, new2) ->
        resubmissions
          (iot_dps_access_policy_create dps_name rg name rights pk sk no_wait) cl tr =
        [iot_dps_resource_create_or_update rg dps_name
           (dps_description_of dps
              (mkDpsProperties (iot_hubs (d_properties dps))
                 (allocation_policy (d_properties dps))
                 (policies ++
                  [mkRule name pk sk (_convert_rights_to_access_rights rights)])))
           None]))
  /\
  (forall hub_name policy_name permissions rg rights hub new1 rgp policies new2,
     (_convert_perms_to_access_rights permissions cl tr).1 = inr rights ->
     iot_hub_get hub_name rg cl tr = (inr hub, new1) ->
     additional_properties hub !! "resourcegroup" = Some rgp ->
     iot_hub_policy_list hub_name (Some rgp) cl (tr ++ new1) = (inr policies, new2) ->
     ((exists p, In p policies /\ lower (rule_key_name p) = lower policy_name) ->
      iot_hub_policy_create hub_name policy_name permissions rg cl tr =
        (inl (CLIError ("Policy " +:+ policy_name +:+ " already existed.")),
         new1 ++ new2) /\
      resubmissions (iot_hub_policy_create hub_name policy_name permissions rg) cl tr
        = []) /\
     (Forall (fun p => lower (rule_key_name p) <> lower policy_name) policies ->
      let hub' :=
        set_hub_authorization_policies
          (policies ++ [mkRule policy_name None None rights]) hub in
      iot_hub_policy_create hub_name policy_name permissions rg cl tr =
        (on_hub_create_or_update cl (tr ++ new1 ++ new2) rgp hub_name hub'
           (if_match_headers hub),
         new1 ++ new2 ++
         [iot_hub_resource_create_or_update rgp hub_name hub'
            (if_match_headers hub)])))
  /\
  (forall dps_name rg connection_string location apply_allocation_policy
          allocation_weight no_wait hubs new1 dps new2,
     iot_dps_linked_hub_list dps_name rg cl tr = (inr hubs, new1) ->
     iot_dps_get dps_name rg cl
       (tr ++ new1 ++ [client_set_api_version "2017-11-15"]) = (inr dps, new2) ->
     resubmissions
       (iot_dps_linked_hub_create dps_name rg connection_string location
          apply_allocation_policy allocation_weight no_wait) cl tr =
     [iot_dps_resource_create_or_update rg dps_name
        (dps_description_of dps
           (mkDpsProperties
              (hubs ++ [mkLinkedHub EmptyString connection_string location
                          apply_allocation_policy allocation_weight])
              (allocation_policy (d_properties dps))
              (dps_authorization_policies (d_properties dps))))
        None])
  /\
  (forall hub_name route_name source_type endpoint_name enabled condition
          resource_group_name rg hub news r,
     hub_fetched hub_name resource_group_name cl tr rg hub news ->
     routing (h_properties hub) = Some r ->
     let hub' :=
       set_hub_routes
         (routing_routes r ++
          [mkRoute route_name source_type
             (match condition with None => "true" | Some condition => condition end)
             (split endpoint_name)
             (match enabled with None => true | Some enabled => enabled end)])
         r hub in
     iot_hub_route_create hub_name route_name source_type endpoint_name enabled
       condition resource_group_name cl tr =
       (on_hub_create_or_update cl (tr ++ news) rg hub_name hub'
          (if_match_headers hub),
        news ++
        [iot_hub_resource_create_or_update rg hub_name hub' (if_match_headers hub)]))
  /\
  (forall hub_name key value endpoints resource_group_name rg hub news r,
     hub_fetched hub_name resource_group_name cl tr rg hub news ->
     routing (h_properties hub) = Some r ->
     let hub' :=
       set_hub_routing
         (set_routing_enrichments
            (Some (default [] (routing_enrichments r) ++
                   [mkEnrichment key value endpoints])) r) hub in
     iot_message_enrichment_create hub_name key value endpoints resource_group_name
       cl tr =
       (on_hub_create_or_update cl (tr ++ news) rg hub_name hub'
          (if_match_headers hub),
        news ++
        [iot_hub_resource_create_or_update rg hub_name hub' (if_match_headers hub)]))
  /\
  (forall hub_name endpoint_name endpoint_type endpoint_resource_group
          endpoint_subscription_id connection_string container_name encoding
          resource_group_name batch_frequency chunk_size_window file_name_format
          rg hub news r t,
     hub_fetched hub_name resource_group_name cl tr rg hub news ->
     routing (h_properties hub) = Some r ->
     names_type endpoint_type t ->
     (t = AzureStorageContainer -> truthy container_name = true) ->
     let hub' :=
       set_hub_routing
         (set_routing_endpoints
            (with_new_endpoint t endpoint_name endpoint_resource_group
               endpoint_subscription_id connection_string container_name encoding
               batch_frequency chunk_size_window file_name_format
               (routing_endpoints r)) r) hub in
     iot_hub_routing_endpoint_create hub_name endpoint_name endpoint_type
       endpoint_resource_group endpoint_subscription_id connection_string
       container_name encoding resource_group_name batch_frequency
       chunk_size_window file_name_format cl tr =
       (on_hub_create_or_update cl (tr ++ news) rg hub_name hub'
          (if_match_headers hub),
        news ++
        [iot_hub_resource_create_or_update rg hub_name hub' (if_match_headers hub)]))
  /\
  (forall hub_name endpoint_name endpoint_type endpoint_resource_group
          endpoint_subscription_id connection_string container_name encoding
          resource_group_name batch_frequency chunk_size_window file_name_format
          rg hub news,
     hub_fetched hub_name resource_group_name cl tr rg hub news ->
     names_type endpoint_type AzureStorageContainer ->
     truthy container_name = false ->
     iot_hub_routing_endpoint_create hub_name endpoint_name endpoint_type
       endpoint_resource_group endpoint_subscription_id connection_string
       container_name encoding resource_group_name batch_frequency
       chunk_size_window file_name_format cl tr =
       (inl (CLIError "Container name is required."), news) /\
     resubmissions
       (iot_hub_routing_endpoint_create hub_name endpoint_name endpoint_type
          endpoint_resource_group endpoint_subscription_id connection_string
          container_name encoding resource_group_name batch_frequency
          chunk_size_window file_name_format) cl tr = [])
  /\
  (forall hub_name endpoint_name endpoint_type endpoint_resource_group
          endpoint_subscription_id connection_string container_name encoding
          resource_group_name batch_frequency chunk_size_window file_name_format
          rg hub news,
     hub_fetched hub_name resource_group_name cl tr rg hub news ->
     (forall t, EndpointType_value t <> lower endpoint_type) ->
     iot_hub_routing_endpoint_create hub_name endpoint_name endpoint_type
       endpoint_resource_group endpoint_subscription_id connection_string
       container_name encoding resource_group_name batch_frequency
       chunk_size_window file_name_format cl tr =
       (on_hub_create_or_update cl (tr ++ news) rg hub_name hub
          (if_match_headers hub),
        news ++
        [iot_hub_resource_create_or_update rg hub_name hub (if_match_headers hub)])).
Proof.
  split; [|split; [|split; [|split; [|split; [|split; [|split]]]]]].
  - intros dps_name rg name rights pk sk no_wait policies new1 Hlist. split.
    + intros Hex. apply _is_policy_existed_spec in Hex.
      eapply dps_policy_create_existing; eassumption.
    + intros Hno dps new2 Hget. apply _is_policy_existed_false in Hno.
      apply dps_policy_create_fresh with (new1 := new1) (new2 := new2); assumption.
  - intros hub_name policy_name permissions rg rights hub new1 rgp policies new2
      Hperm Hget Hrg Hkeys. split.
    + intros Hex. apply _is_policy_existed_spec in Hex.
      pose proof (hub_policy_create_existing _ _ _ _ _ _ _ _ _ _ _ _
                    Hperm Hget Hrg Hkeys Hex) as Hrun.
      split; [exact Hrun|].
      eapply resubmissions_failed; [exact Hrun|].
      rewrite List.filter_app.
      rewrite (reads_calls _ _ _ _ _ (reads_only_iot_hub_get _ _) Hget).
      rewrite (reads_calls _ _ _ _ _ (reads_only_iot_hub_policy_list _ _) Hkeys).
      reflexivity.
    + intros Hno. apply _is_policy_existed_false in Hno.
      eapply hub_policy_create_fresh; eassumption.
  - intros. eapply dps_linked_hub_create_appends; eassumption.
  - intros. eapply route_create_run; eassumption.
  - intros. eapply message_enrichment_create_run; eassumption.
  - intros. eapply routing_endpoint_create_run; eassumption.
  - intros hub_name endpoint_name endpoint_type endpoint_resource_group
      endpoint_subscription_id connection_string container_name encoding
      resource_group_name batch_frequency chunk_size_window file_name_format
      rg hub news Hf Htype Hcontainer.
    pose proof (routing_endpoint_create_no_container cl tr hub_name endpoint_name
                  endpoint_type endpoint_resource_group endpoint_subscription_id
                  connection_string container_name encoding resource_group_name
                  batch_frequency chunk_size_window file_name_format rg hub news
                  Hf Htype Hcontainer) as Hrun.
    split; [exact Hrun|].
    eapply resubmissions_failed; [exact Hrun|].
    exact (hub_fetched_reads _ _ _ _ _ _ _ Hf).
  - intros. eapply routing_endpoint_create_unknown_type; eassumption.
Qed.

(** ** Updates *)

Lemma update_policy_exact name pk sk rights p :
  rule_key_name p = name ->
  update_policy name pk sk rights p =
  mkRule (rule_key_name p)
    (match pk with Some k => Some k | None => rule_primary_key p end)
    (match sk with Some k => Some k | None => rule_secondary_key p end)
    (match rights with
     | Some r => _convert_rights_to_access_rights r
     | None => rule_rights p
     end).
Proof.
  intros Hn. unfold update_policy.
  apply String.eqb_eq in Hn. rewrite Hn.
  destruct p, pk, sk, rights; reflexivity.
Qed.

Lemma update_linked_hub_exact name a w h :
  linked_name h = name ->
  update_linked_hub name a w h =
  mkLinkedHub (linked_name h) (linked_connection_string h) (linked_location h)
    (match a with Some a => Some a | None => linked_apply_allocation_policy h end)
    (match w with Some w => Some w | None => linked_allocation_weight h end).
Proof.
  intros Hn. unfold update_linked_hub.
  apply String.eqb_eq in Hn. rewrite Hn.
  destruct h, a, w; reflexivity.
Qed.

Lemma update_policy_other name pk sk rights policies :
  Forall (fun p => rule_key_name p <> name) policies ->
  map (update_policy name pk sk rights) policies = policies.
Proof.
  induction 1 as [|p policies Hp _ IH]; simpl; [reflexivity|].
  rewrite IH. unfold update_policy.
  apply String.eqb_neq in Hp. rewrite Hp. reflexivity.
Qed.

Lemma update_linked_hub_other name a w hubs :
  Forall (fun h => linked_name h <> name) hubs ->
  map (update_linked_hub name a w) hubs = hubs.
Proof.
  induction 1 as [|h hubs Hh _ IH]; simpl; [reflexivity|].
  rewrite IH. unfold update_linked_hub.
  apply String.eqb_neq in Hh. rewrite Hh. reflexivity.
Qed.

Lemma fmap_sdk_run {A B : Type} (g : A -> B) (c : Call)
    (answer : Client -> Trace -> Error + A) cl tr :
  (g <$> sdk c answer) cl tr = (g <$> answer cl tr, [c]).
Proof.
  unfold fmap at 1, M_fmap, sdk. destruct (answer cl tr); reflexivity.
Qed.

(** C10. An update of a DPS access policy, or of a linked hub, by a name
    that some entry has up to letter case and no entry has exactly:
    the existence check passes, the loop changes no entry, and the
    command sends the resource back with every entry as it was listed.
    With [no_wait] its outcome is the answer to that call: it raises no
    error of its own. *)
Theorem update_by_name_in_other_letter_case (cl : Client) (tr : Trace) :
  (forall dps_name rg name pk sk rights policies new1 dps new2,
     iot_dps_access_policy_list dps_name rg cl tr = (inr policies, new1) ->
     (exists p, In p policies /\ lower (rule_key_name p) = lower name) ->
     Forall (fun p => rule_key_name p <> name) policies ->
     iot_dps_get dps_name rg cl (tr ++ new1) = (inr dps, new2) ->
     let sent :=
       iot_dps_resource_create_or_update rg dps_name
         (dps_description_of dps
            (mkDpsProperties (iot_hubs (d_properties dps))
               (allocation_policy (d_properties dps)) policies)) None in
     (forall no_wait,
        resubmissions
          (iot_dps_access_policy_update dps_name rg name pk sk rights no_wait)
          cl tr = [sent]) /\
     iot_dps_access_policy_update dps_name rg name pk sk rights true cl tr =
       (inl <$> on_dps_create_or_update cl (tr ++ new1 ++ new2) rg dps_name
                  (dps_description_of dps
                     (mkDpsProperties (iot_hubs (d_properties dps))
                        (allocation_policy (d_properties dps)) policies)) None,
        new1 ++ new2 ++ [sent]))
  /\
  (forall dps_name rg linked_hub apply_allocation_policy allocation_weight
          hubs new1 dps new2,
     iot_dps_linked_hub_list dps_name rg cl tr = (inr hubs, new1) ->
     (exists h, In h hubs /\ lower (linked_name h) = lower linked_hub) ->
     Forall (fun h => linked_name h <> linked_hub) hubs ->
     iot_dps_get dps_name rg cl (tr ++ new1) = (inr dps, new2) ->
     let sent :=
       iot_dps_resource_create_or_update rg dps_name
         (dps_description_of dps
            (mkDpsProperties hubs (allocation_policy (d_properties dps))
               (dps_authorization_policies (d_properties dps)))) None in
     (forall no_wait,
        resubmissions
          (iot_dps_linked_hub_update dps_name rg linked_hub apply_allocation_policy
             allocation_weight no_wait) cl tr = [sent]) /\
     iot_dps_linked_hub_update dps_name rg linked_hub apply_allocation_policy
       allocation_weight true cl tr =
       (inl <$> on_dps_create_or_update cl (tr ++ new1 ++ new2) rg dps_name
                  (dps_description_of dps
                     (mkDpsProperties hubs (allocation_policy (d_properties dps))
                        (dps_authorization_policies (d_properties dps)))) None,
        new1 ++ new2 ++ [sent])).
Proof.
  split.
  - intros dps_name rg name pk sk rights policies new1 dps new2
      Hlist Hex Hno Hget sent.
    apply _is_policy_existed_spec in Hex. split.
    + intros no_wait.
      rewrite (dps_policy_update_present _ _ _ _ _ _ _ _ _ _ _ _ _
                 Hlist Hex Hget).
      rewrite (update_policy_other _ _ _ _ _ Hno). reflexivity.
    + unfold iot_dps_access_policy_update.
      run_with Hlist. rewrite Hex. change (negb true) with false. cbv iota zeta.
      run_with Hget. rewrite (update_policy_other _ _ _ _ _ Hno).
      unfold dps_create_or_update. rewrite fmap_sdk_run. simpl.
      rewrite !app_assoc. reflexivity.
  - intros dps_name rg linked_hub apply_allocation_policy allocation_weight
      hubs new1 dps new2 Hlist Hex Hno Hget sent.
    apply _is_linked_hub_existed_spec in Hex. split.
    + intros no_wait.
      rewrite (dps_linked_hub_update_present _ _ _ _ _ _ _ _ _ _ _ _
                 Hlist Hex Hget).
      rewrite (update_linked_hub_other _ _ _ _ Hno). reflexivity.
    + unfold iot_dps_linked_hub_update.
      run_with Hlist. rewrite Hex. change (negb true) with false. cbv iota zeta.
      run_with Hget. rewrite (update_linked_hub_other _ _ _ _ Hno).
      unfold dps_create_or_update. rewrite fmap_sdk_run. simpl.
      rewrite !app_assoc. reflexivity.
Qed.

(** ** Validation of the file upload arguments *)

















(** ** The entity tag of what is sent back *)

Lemma submits_only_reads {A : Type} (P : Call -> Prop) (m : M A) :
  reads_only m -> submits_only P m.
Proof.
  intros Hm cl tr c Hc. rewrite (reads_only_resubmissions _ _ _ Hm) in Hc.
  destruct Hc.
Qed.

Lemma submits_only_bind_post {A B : Type} (P : Call -> Prop) (Q : A -> Prop)
    (m : M A) (f : A -> M B) :
  submits_only P m ->
  (forall cl tr a, (m cl tr).1 = inr a -> Q a) ->
  (forall a, Q a -> submits_only P (f a)) ->
  submits_only P (m ≫= f).
Proof.
  intros Hm Hq Hf cl tr c Hc. rewrite resubmissions_bind in Hc.
  apply List.in_app_or in Hc. destruct Hc as [Hc|Hc].
  - exact (Hm cl tr c Hc).
  - destruct (m cl tr).1 as [e|a] eqn:Hrun; [destruct Hc|].
    exact (Hf a (Hq cl tr a Hrun) _ _ c Hc).
Qed.

Lemma submits_only_bind {A B : Type} (P : Call -> Prop) (m : M A) (f : A -> M B) :
  submits_only P m -> (forall a, submits_only P (f a)) -> submits_only P (m ≫= f).
Proof.
  intros Hm Hf.
  apply (submits_only_bind_post P (fun _ => True)); auto.
Qed.

Lemma submits_only_fmap {A B : Type} (P : Call -> Prop) (g : A -> B) (m : M A) :
  submits_only P m -> submits_only P (g <$> m).
Proof. intros Hm cl tr c Hc. rewrite resubmissions_fmap in Hc. exact (Hm cl tr c Hc). Qed.

Lemma submits_hub_create_or_update e rg name hub :
  h_etag hub = e ->
  submits_only (carries_etag e) (hub_create_or_update rg name hub (if_match_headers hub)).
Proof.
  intros He cl tr c [<-|[]]. split; [|exact He].
  simpl. rewrite lookup_singleton_eq. rewrite He. reflexivity.
Qed.

Lemma submits_dps_create_or_update rg name dps props :
  submits_only carries_no_etag
    (dps_create_or_update rg name (dps_description_of dps props) None).
Proof. intros cl tr c [<-|[]]. split; reflexivity. Qed.

Ltac submits_step :=
  first
    [ apply submits_only_reads; solve [auto with reads | reads_only_tac]
    | apply submits_hub_create_or_update; reflexivity
    | apply submits_dps_create_or_update
    | apply submits_only_fmap
    | apply submits_only_bind; [|intros ?]
    | match goal with
      | |- submits_only _ (match ?x with _ => _ end) => destruct x
      end ].

Ltac submits_tac := repeat submits_step.

Lemma fetch_hub_run hub_name resource_group_name cl tr rg new1 hub new2 :
  _ensure_resource_group_name resource_group_name hub_name cl tr = (inr rg, new1) ->
  iot_hub_get hub_name (Some rg) cl (tr ++ new1) = (inr hub, new2) ->
  fetch_hub hub_name resource_group_name cl tr = (inr hub, new1 ++ new2).
Proof.
  intros Hens Hget. unfold fetch_hub. run_with Hens. rewrite Hget. reflexivity.
Qed.

Lemma fetch_then {B : Type} (k : string -> IotHubDescription -> M B)
    hub_name resource_group_name :
  (forall rg hub, submits_only (carries_etag (h_etag hub)) (k rg hub)) ->
  resubmits_with_etag_of (fetch_hub hub_name resource_group_name)
    (rg ← _ensure_resource_group_name resource_group_name hub_name;
     hub ← iot_hub_get hub_name (Some rg); k rg hub).
Proof.
  intros Hk cl tr c Hc.
  destruct (_ensure_resource_group_name resource_group_name hub_name cl tr)
    as [[e|rg] new1] eqn:Hens.
  - rewrite (resubmissions_bind_inl _ _ _ _ _ _ Hens) in Hc by auto with reads.
    destruct Hc.
  - rewrite (resubmissions_bind_inr _ _ _ _ _ _ Hens) in Hc by auto with reads.
    destruct (iot_hub_get hub_name (Some rg) cl (tr ++ new1))
      as [[e|hub] new2] eqn:Hget.
    + rewrite (resubmissions_bind_inl _ _ _ _ _ _ Hget) in Hc by auto with reads.
      destruct Hc.
    + rewrite (resubmissions_bind_inr _ _ _ _ _ _ Hget) in Hc by auto with reads.
      exists hub, (new1 ++ new2). split.
      * eapply fetch_hub_run; eassumption.
      * exact (Hk rg hub _ _ c Hc).
Qed.

Lemma get_then {B : Type} (k : IotHubDescription -> M B) hub_name resource_group_name :
  (forall hub, submits_only (carries_etag (h_etag hub)) (k hub)) ->
  resubmits_with_etag_of (iot_hub_get hub_name resource_group_name)
    (hub ← iot_hub_get hub_name resource_group_name; k hub).
Proof.
  intros Hk cl tr c Hc.
  destruct (iot_hub_get hub_name resource_group_name cl tr)
    as [[e|hub] new1] eqn:Hget.
  - rewrite (resubmissions_bind_inl _ _ _ _ _ _ Hget) in Hc by auto with reads.
    destruct Hc.
  - rewrite (resubmissions_bind_inr _ _ _ _ _ _ Hget) in Hc by auto with reads.
    exists hub, new1. split; [reflexivity|].
    exact (Hk hub _ _ c Hc).
Qed.

Lemma route_delete_step_keeps_etag (b : bool) v hub cl tr hub' :
  ((if b then r ← hub_routing hub; mret (set_hub_routes (v r) r hub)
    else mret hub) cl tr).1 = inr hub' ->
  h_etag hub' = h_etag hub.
Proof.
  destruct b.
  - unfold hub_routing. destruct (routing (h_properties hub)) as [r|].
    + rewrite bind_ret_run. simpl. intros [= <-]. reflexivity.
    + simpl. discriminate.
  - simpl. intros [= <-]. reflexivity.
Qed.

Lemma policy_create_etag hub_name policy_name permissions rg :
  resubmits_with_etag_of (iot_hub_get hub_name rg)
    (iot_hub_policy_create hub_name policy_name permissions rg).
Proof.
  intros cl tr c Hc. unfold iot_hub_policy_create in Hc.
  destruct (_convert_perms_to_access_rights permissions cl tr)
    as [[e|rights] new0] eqn:Hperm.
  - rewrite (resubmissions_bind_inl _ _ _ _ _ _ Hperm) in Hc by auto with reads.
    destruct Hc.
  - pose proof (_convert_perms_to_access_rights_calls permissions cl tr) as Hnil.
    rewrite Hperm in Hnil. simpl in Hnil. subst new0.
    rewrite (resubmissions_bind_inr _ _ _ _ _ _ Hperm) in Hc by auto with reads.
    rewrite app_nil_r in Hc.
    eapply get_then; [|exact Hc]. intros hub. submits_tac.
Qed.

Lemma policy_delete_etag hub_name policy_name rg :
  resubmits_with_etag_of (iot_hub_get hub_name rg)
    (iot_hub_policy_delete hub_name policy_name rg).
Proof. unfold iot_hub_policy_delete. apply get_then. intros hub. submits_tac. Qed.

Lemma policy_key_renew_etag hub_name policy_name regenerate_key rg no_wait :
  resubmits_with_etag_of (iot_hub_get hub_name rg)
    (iot_hub_policy_key_renew hub_name policy_name regenerate_key rg no_wait).
Proof. unfold iot_hub_policy_key_renew. apply get_then. intros hub. submits_tac. Qed.

Lemma routing_endpoint_create_etag hub_name endpoint_name endpoint_type
    endpoint_resource_group endpoint_subscription_id connection_string
    container_name encoding rg batch_frequency chunk_size_window file_name_format :
  resubmits_with_etag_of (fetch_hub hub_name rg)
    (iot_hub_routing_endpoint_create hub_name endpoint_name endpoint_type
       endpoint_resource_group endpoint_subscription_id connection_string
       container_name encoding rg batch_frequency chunk_size_window
       file_name_format).
Proof.
  unfold iot_hub_routing_endpoint_create. apply fetch_then. intros rg' hub.
  apply (submits_only_bind_post _ (fun h => h_etag h = h_etag hub)).
  - apply submits_only_reads. reads_only_tac.
  - intros cl tr hub'. unfold hub_routing.
    repeat match goal with
           | |- context [if ?b then _ else _] => destruct b
           end;
      destruct (routing (h_properties hub)) as [r|];
      try rewrite bind_ret_run; simpl; intros [= <-]; reflexivity.
  - intros hub' He. apply submits_hub_create_or_update. exact He.
Qed.

Lemma routing_endpoint_delete_etag hub_name endpoint_name endpoint_type rg :
  resubmits_with_etag_of (fetch_hub hub_name rg)
    (iot_hub_routing_endpoint_delete hub_name endpoint_name endpoint_type rg).
Proof.
  unfold iot_hub_routing_endpoint_delete. apply fetch_then. intros rg' hub.
  submits_tac.
Qed.

Lemma route_create_etag hub_name route_name source_type endpoint_name enabled
    condition rg :
  resubmits_with_etag_of (fetch_hub hub_name rg)
    (iot_hub_route_create hub_name route_name source_type endpoint_name enabled
       condition rg).
Proof.
  unfold iot_hub_route_create. apply fetch_then. intros rg' hub. submits_tac.
Qed.

Lemma route_delete_etag hub_name route_name source_type rg :
  resubmits_with_etag_of (fetch_hub hub_name rg)
    (iot_hub_route_delete hub_name route_name source_type rg).
Proof.
  unfold iot_hub_route_delete. apply fetch_then. intros rg' hub.
  apply (submits_only_bind_post _ (fun h => h_etag h = h_etag hub)).
  { apply submits_only_reads. reads_only_tac. }
  { intros cl tr hub1.
    apply (route_delete_step_keeps_etag _ (fun _ => [])). }
  intros hub1 H1.
  apply (submits_only_bind_post _ (fun h => h_etag h = h_etag hub)).
  { apply submits_only_reads. reads_only_tac. }
  { intros cl tr hub2 Hrun. rewrite <- H1. revert Hrun.
    apply (route_delete_step_keeps_etag _
      (fun r => List.filter
                  (fun route =>
                     negb (String.eqb (lower (rt_name route))
                             (lower (default EmptyString route_name))))
                  (routing_routes r))). }
  intros hub2 H2.
  apply (submits_only_bind_post _ (fun h => h_etag h = h_etag hub)).
  { apply submits_only_reads. reads_only_tac. }
  { intros cl tr hub3 Hrun. rewrite <- H2. revert Hrun.
    apply (route_delete_step_keeps_etag _
      (fun r => List.filter
                  (fun route =>
                     negb (String.eqb (lower (rt_source route))
                             (lower (default EmptyString source_type))))
                  (routing_routes r))). }
  intros hub3 H3. apply submits_hub_create_or_update. exact H3.
Qed.

Lemma route_update_etag hub_name route_name source_type endpoint_name enabled
    condition rg :
  resubmits_with_etag_of (fetch_hub hub_name rg)
    (iot_hub_route_update hub_name route_name source_type endpoint_name enabled
       condition rg).
Proof.
  unfold iot_hub_route_update. apply fetch_then. intros rg' hub. submits_tac.
Qed.

Lemma message_enrichment_create_etag hub_name key value endpoints rg :
  resubmits_with_etag_of (fetch_hub hub_name rg)
    (iot_message_enrichment_create hub_name key value endpoints rg).
Proof.
  unfold iot_message_enrichment_create. apply fetch_then. intros rg' hub.
  submits_tac.
Qed.

Lemma message_enrichment_update_etag hub_name key value endpoints rg :
  resubmits_with_etag_of (fetch_hub hub_name rg)
    (iot_message_enrichment_update hub_name key value endpoints rg).
Proof.
  unfold iot_message_enrichment_update. apply fetch_then. intros rg' hub.
  submits_tac.
Qed.

Lemma message_enrichment_delete_etag hub_name key rg :
  resubmits_with_etag_of (fetch_hub hub_name rg)
    (iot_message_enrichment_delete hub_name key rg).
Proof.
  unfold iot_message_enrichment_delete. apply fetch_then. intros rg' hub.
  submits_tac.
Qed.

Lemma hub_update_etag hub_name parameters rg :
  resubmits_with_etag_of (mret parameters) (iot_hub_update hub_name parameters rg).
Proof.
  intros cl tr c Hc. exists parameters, []. split; [reflexivity|].
  revert cl tr c Hc. unfold iot_hub_update.
  change (submits_only (carries_etag (h_etag parameters))
            (resource_group_name ← _ensure_resource_group_name rg hub_name;
             hub_create_or_update resource_group_name hub_name parameters
               (if_match_headers parameters))).
  submits_tac.
Qed.

Lemma without_etag_intro {A : Type} (m : M A) :
  submits_only carries_no_etag m -> resubmits_without_etag m.
Proof. intros Hm cl tr c Hc. exact (Hm cl tr c Hc). Qed.

Lemma dps_commands_without_etag :
  (forall dps_name rg name rights pk sk no_wait,
     resubmits_without_etag
       (iot_dps_access_policy_create dps_name rg name rights pk sk no_wait)) /\
  (forall dps_name rg name pk sk rights no_wait,
     resubmits_without_etag
       (iot_dps_access_policy_update dps_name rg name pk sk rights no_wait)) /\
  (forall dps_name rg name no_wait,
     resubmits_without_etag (iot_dps_access_policy_delete dps_name rg name no_wait)) /\
  (forall dps_name rg connection_string location apply_allocation_policy
          allocation_weight no_wait,
     resubmits_without_etag
       (iot_dps_linked_hub_create dps_name rg connection_string location
          apply_allocation_policy allocation_weight no_wait)) /\
  (forall dps_name rg linked_hub apply_allocation_policy allocation_weight no_wait,
     resubmits_without_etag
       (iot_dps_linked_hub_update dps_name rg linked_hub apply_allocation_policy
          allocation_weight no_wait)) /\
  (forall dps_name rg linked_hub no_wait,
     resubmits_without_etag (iot_dps_linked_hub_delete dps_name rg linked_hub no_wait)).
Proof.
  refine (conj _ (conj _ (conj _ (conj _ (conj _ _)))));
    intros; apply without_etag_intro;
    unfold iot_dps_access_policy_create, iot_dps_access_policy_update,
      iot_dps_access_policy_delete, iot_dps_linked_hub_create,
      iot_dps_linked_hub_update, iot_dps_linked_hub_delete;
    submits_tac.
Qed.

(** C6, as the code has it. Every [create_or_update] call of a hub
    command that edits a sub-collection carries, in its IF-MATCH header
    and in the description it submits, the entity tag of the hub as the
    command fetched it ([iot_hub_update]: of the hub it is given). The
    six DPS commands that edit a sub-collection (the access policies and
    the linked hubs: create, update, delete) send a description built
    anew, without an entity tag, and no IF-MATCH header. [iot_dps_update]
    makes one call, which sends the description it is given, entity tag
    included, and no IF-MATCH header. *)
Theorem resubmission_entity_tag :
  ((forall hub_name policy_name permissions rg,
      resubmits_with_etag_of (iot_hub_get hub_name rg)
        (iot_hub_policy_create hub_name policy_name permissions rg)) /\
   (forall hub_name policy_name rg,
      resubmits_with_etag_of (iot_hub_get hub_name rg)
        (iot_hub_policy_delete hub_name policy_name rg)) /\
   (forall hub_name policy_name regenerate_key rg no_wait,
      resubmits_with_etag_of (iot_hub_get hub_name rg)
        (iot_hub_policy_key_renew hub_name policy_name regenerate_key rg no_wait)) /\
   (forall hub_name endpoint_name endpoint_type endpoint_resource_group
           endpoint_subscription_id connection_string container_name encoding rg
           batch_frequency chunk_size_window file_name_format,
      resubmits_with_etag_of (fetch_hub hub_name rg)
        (iot_hub_routing_endpoint_create hub_name endpoint_name endpoint_type
           endpoint_resource_group endpoint_subscription_id connection_string
           container_name encoding rg batch_frequency chunk_size_window
           file_name_format)) /\
   (forall hub_name endpoint_name endpoint_type rg,
      resubmits_with_etag_of (fetch_hub hub_name rg)
        (iot_hub_routing_endpoint_delete hub_name endpoint_name endpoint_type rg)) /\
   (forall hub_name route_name source_type endpoint_name enabled condition rg,
      resubmits_with_etag_of (fetch_hub hub_name rg)
        (iot_hub_route_create hub_name route_name source_type endpoint_name
           enabled condition rg)) /\
   (forall hub_name route_name source_type rg,
      resubmits_with_etag_of (fetch_hub hub_name rg)
        (iot_hub_route_delete hub_name route_name source_type rg)) /\
   (forall hub_name route_name source_type endpoint_name enabled condition rg,
      resubmits_with_etag_of (fetch_hub hub_name rg)
        (iot_hub_route_update hub_name route_name source_type endpoint_name
           enabled condition rg)) /\
   (forall hub_name key value endpoints rg,
      resubmits_with_etag_of (fetch_hub hub_name rg)
        (iot_message_enrichment_create hub_name key value endpoints rg)) /\
   (forall hub_name key value endpoints rg,
      resubmits_with_etag_of (fetch_hub hub_name rg)
        (iot_message_enrichment_update hub_name key value endpoints rg)) /\
   (forall hub_name key rg,
      resubmits_with_etag_of (fetch_hub hub_name rg)
        (iot_message_enrichment_delete hub_name key rg)) /\
   (forall hub_name parameters rg,
      resubmits_with_etag_of (mret parameters)
        (iot_hub_update hub_name parameters rg)))
  /\
  ((forall dps_name rg name rights pk sk no_wait,
      resubmits_without_etag
        (iot_dps_access_policy_create dps_name rg name rights pk sk no_wait)) /\
   (forall dps_name rg name pk sk rights no_wait,
      resubmits_without_etag
        (iot_dps_access_policy_update dps_name rg name pk sk rights no_wait)) /\
   (forall dps_name rg name no_wait,
      resubmits_without_etag
        (iot_dps_access_policy_delete dps_name rg name no_wait)) /\
   (forall dps_name rg connection_string location apply_allocation_policy
           allocation_weight no_wait,
      resubmits_without_etag
        (iot_dps_linked_hub_create dps_name rg connection_string location
           apply_allocation_policy allocation_weight no_wait)) /\
   (forall dps_name rg linked_hub apply_allocation_policy allocation_weight no_wait,
      resubmits_without_etag
        (iot_dps_linked_hub_update dps_name rg linked_hub apply_allocation_policy
           allocation_weight no_wait)) /\
   (forall dps_name rg linked_hub no_wait,
      resubmits_without_etag
        (iot_dps_linked_hub_delete dps_name rg linked_hub no_wait)))
  /\
  (forall dps_name parameters rg cl tr,
     resubmissions (iot_dps_update dps_name parameters rg) cl tr =
       [iot_dps_resource_create_or_update rg dps_name parameters None] /\
     forall c,
       In c (resubmissions (iot_dps_update dps_name parameters rg) cl tr) ->
       if_match c = None /\ submitted_etag c = d_etag parameters).
Proof.
  refine (conj _ (conj _ _)).
  - refine (conj _ (conj _ (conj _ (conj _ (conj _ (conj _
             (conj _ (conj _ (conj _ (conj _ (conj _ _)))))))))));
      intros.
    + apply policy_create_etag.
    + apply policy_delete_etag.
    + apply policy_key_renew_etag.
    + apply routing_endpoint_create_etag.
    + apply routing_endpoint_delete_etag.
    + apply route_create_etag.
    + apply route_delete_etag.
    + apply route_update_etag.
    + apply message_enrichment_create_etag.
    + apply message_enrichment_update_etag.
    + apply message_enrichment_delete_etag.
    + apply hub_update_etag.
  - exact dps_commands_without_etag.
  - intros dps_name parameters rg cl tr.
    assert (Hsent : resubmissions (iot_dps_update dps_name parameters rg) cl tr =
                    [iot_dps_resource_create_or_update rg dps_name parameters None])
      by reflexivity.
    split; [exact Hsent|].
    intros c Hc. rewrite Hsent in Hc. destruct Hc as [<-|[]].
    split; reflexivity.
Qed.

(** * Further properties *)

(** ** Lists *)

Lemma filter_sublist {A : Type} (keep : A -> bool) (l : list A) :
  List.filter keep l `sublist_of` l.
Proof.
  induction l as [|x l IH]; simpl; [constructor|].
  destruct (keep x); [apply sublist_skip | apply sublist_cons]; exact IH.
Qed.

Lemma NoDup_map_filter {A B : Type} (f : A -> B) (keep : A -> bool) (l : list A) :
  NoDup (map f l) -> NoDup (map f (List.filter keep l)).
Proof.
  intros Hl. eapply sublist_NoDup; [exact Hl|].
  apply (fmap_sublist f), filter_sublist.
Qed.

Lemma map_update_policy_names name pk sk rights policies :
  map (fun p => lower (rule_key_name p))
      (map (update_policy name pk sk rights) policies) =
  map (fun p => lower (rule_key_name p)) policies.
Proof.
  rewrite List.map_map. apply List.map_ext. intros p.
  unfold update_policy. destruct (String.eqb _ _); [|reflexivity].
  destruct pk, sk, rights; reflexivity.
Qed.

Lemma lower_names_absent {R : Type} (policies : list (AuthorizationRule R)) name :
  Forall (fun p => lower (rule_key_name p) <> lower name) policies ->
  lower name ∉ map (fun p => lower (rule_key_name p)) policies.
Proof.
  intros Hno Hin. apply list_elem_of_In, List.in_map_iff in Hin.
  destruct Hin as (p & Hp & Hin). rewrite List.Forall_forall in Hno.
  exact (Hno p Hin Hp).
Qed.

Lemma unique_names_snoc {R : Type} (policies : list (AuthorizationRule R)) p :
  unique_names policies ->
  Forall (fun q => lower (rule_key_name q) <> lower (rule_key_name p)) policies ->
  unique_names (policies ++ [p]).
Proof.
  intros Hu Hno. unfold unique_names. rewrite List.map_app. simpl.
  apply NoDup_app. split; [exact Hu|]. split.
  - intros x Hx Hin. apply list_elem_of_singleton in Hin. subst x.
    exact (lower_names_absent _ _ Hno Hx).
  - apply NoDup_singleton.
Qed.

Lemma filter_other_names {R : Type} (policies : list (AuthorizationRule R)) name :
  Forall (fun p => lower (rule_key_name p) <> lower name)
    (List.filter
       (fun p => negb (String.eqb (lower (rule_key_name p)) (lower name)))
       policies).
Proof.
  apply List.Forall_forall. intros p Hin. apply List.filter_In in Hin.
  destruct Hin as [_ Hp]. apply negb_true_iff, String.eqb_neq in Hp. exact Hp.
Qed.

(** ** DPS access policies *)

(** X1. Once a DPS access policy is created, the list sent back has
    its name: on a service that lists what was sent, creating a policy
    of that name again, in any letter case, raises the CLIError and
    nothing more is called. *)
Theorem dps_policy_create_is_not_repeatable
    (cl : Client) (tr : Trace) (dps_name : string) (rg : option string)
    (name : string) (rights : list string) (pk sk : option string) (no_wait : bool)
    (policies : list SharedAccessSignatureAuthorizationRuleAccessRightsDescription)
    (new1 : Trace) (dps : ProvisioningServiceDescription) (new2 : Trace) :
  iot_dps_access_policy_list dps_name rg cl tr = (inr policies, new1) ->
  Forall (fun p => lower (rule_key_name p) <> lower name) policies ->
  iot_dps_get dps_name rg cl (tr ++ new1) = (inr dps, new2) ->
  exists sent,
    resubmissions
      (iot_dps_access_policy_create dps_name rg name rights pk sk no_wait) cl tr =
      [dps_sent_with_policies rg dps_name dps sent] /\
    forall name' rights' pk' sk' no_wait' cl' tr' new',
      lower name' = lower name ->
      iot_dps_access_policy_list dps_name rg cl' tr' = (inr sent, new') ->
      iot_dps_access_policy_create dps_name rg name' rights' pk' sk' no_wait' cl' tr' =
        (inl (CLIError ("Access policy " +:+ name' +:+ " already existed.")), new').
Proof.
  intros Hlist Hno Hget.
  exists (policies ++ [mkRule name pk sk (_convert_rights_to_access_rights rights)]).
  split.
  - apply _is_policy_existed_false in Hno.
    exact (dps_policy_create_fresh _ _ _ _ _ _ _ _ _ _ _ _ _ Hlist Hno Hget).
  - intros name' rights' pk' sk' no_wait' cl' tr' new' Hname Hlist'.
    eapply proj1, dps_policy_create_existing; [exact Hlist'|].
    apply _is_policy_existed_spec. eexists. split.
    + apply List.in_or_app. right. left. reflexivity.
    + simpl. symmetry. exact Hname.
Qed.

(** X2. The delete of a DPS access policy sends back the policies
    listed, in their order, without those of the given name (letter
    case apart) and with all the others. On a service that lists what
    was sent, a second delete of that name raises the CLIError. *)
Theorem dps_policy_delete_removes_the_name
    (cl : Client) (tr : Trace) (dps_name : string) (rg : option string)
    (name : string) (no_wait : bool)
    (policies : list SharedAccessSignatureAuthorizationRuleAccessRightsDescription)
    (new1 : Trace) (dps : ProvisioningServiceDescription) (new2 : Trace) :
  iot_dps_access_policy_list dps_name rg cl tr = (inr policies, new1) ->
  (exists p, In p policies /\ lower (rule_key_name p) = lower name) ->
  iot_dps_get dps_name rg cl (tr ++ new1) = (inr dps, new2) ->
  exists sent,
    resubmissions (iot_dps_access_policy_delete dps_name rg name no_wait) cl tr =
      [dps_sent_with_policies rg dps_name dps sent] /\
    sent `sublist_of` policies /\
    (forall p, In p sent <->
               In p policies /\ lower (rule_key_name p) <> lower name) /\
    forall no_wait' cl' tr' new',
      iot_dps_access_policy_list dps_name rg cl' tr' = (inr sent, new') ->
      iot_dps_access_policy_delete dps_name rg name no_wait' cl' tr' =
        (inl (CLIError ("Access policy " +:+ name +:+ " doesn't existed.")), new').
Proof.
  intros Hlist Hex Hget. apply _is_policy_existed_spec in Hex.
  eexists. split; [|split; [|split]].
  - exact (dps_policy_delete_present _ _ _ _ _ _ _ _ _ _ Hlist Hex Hget).
  - apply filter_sublist.
  - intros p. rewrite List.filter_In, negb_true_iff, String.eqb_neq. reflexivity.
  - intros no_wait' cl' tr' new' Hlist'.
    eapply proj1, dps_policy_delete_missing; [exact Hlist'|].
    apply _is_policy_existed_false, filter_other_names.
Qed.

(** X3. The create, the update and the delete of a DPS access policy
    keep the names of the policies distinct up to letter case: when the
    policies listed have distinct names, so have the policies sent back. *)
Theorem dps_policy_commands_keep_names_unique
    (cl : Client) (tr : Trace) (dps_name : string) (rg : option string)
    (name : string)
    (policies : list SharedAccessSignatureAuthorizationRuleAccessRightsDescription)
    (new1 : Trace) (dps : ProvisioningServiceDescription) (new2 : Trace) :
  iot_dps_access_policy_list dps_name rg cl tr = (inr policies, new1) ->
  iot_dps_get dps_name rg cl (tr ++ new1) = (inr dps, new2) ->
  unique_names policies ->
  (forall rights pk sk no_wait c,
     In c (resubmissions
             (iot_dps_access_policy_create dps_name rg name rights pk sk no_wait)
             cl tr) ->
     exists sent, c = dps_sent_with_policies rg dps_name dps sent /\ unique_names sent)
  /\
  (forall pk sk rights no_wait c,
     In c (resubmissions
             (iot_dps_access_policy_update dps_name rg name pk sk rights no_wait)
             cl tr) ->
     exists sent, c = dps_sent_with_policies rg dps_name dps sent /\ unique_names sent)
  /\
  (forall no_wait c,
     In c (resubmissions (iot_dps_access_policy_delete dps_name rg name no_wait)
             cl tr) ->
     exists sent, c = dps_sent_with_policies rg dps_name dps sent /\ unique_names sent).
Proof.
  intros Hlist Hget Hu.
  destruct (_is_policy_existed policies name) eqn:Hex.
  - split; [|split].
    + intros rights pk sk no_wait c Hc.
      rewrite (proj2 (dps_policy_create_existing _ _ _ _ _ rights pk sk no_wait
                        _ _ Hlist Hex)) in Hc. destruct Hc.
    + intros pk sk rights no_wait c Hc.
      rewrite (dps_policy_update_present _ _ _ _ _ _ _ _ _ _ _ _ _
                 Hlist Hex Hget) in Hc.
      destruct Hc as [<-|[]]. eexists. split; [reflexivity|].
      unfold unique_names. rewrite map_update_policy_names. exact Hu.
    + intros no_wait c Hc.
      rewrite (dps_policy_delete_present _ _ _ _ _ _ _ _ _ _ Hlist Hex Hget) in Hc.
      destruct Hc as [<-|[]]. eexists. split; [reflexivity|].
      apply NoDup_map_filter. exact Hu.
  - split; [|split].
    + intros rights pk sk no_wait c Hc.
      rewrite (dps_policy_create_fresh _ _ _ _ _ _ _ _ _ _ _ _ _
                 Hlist Hex Hget) in Hc.
      destruct Hc as [<-|[]]. eexists. split; [reflexivity|].
      apply unique_names_snoc; [exact Hu|]. simpl.
      apply List.Forall_forall. intros q Hq Heq.
      assert (Htrue : _is_policy_existed policies name = true).
      { apply _is_policy_existed_spec. exists q. split; assumption. }
      congruence.
    + intros pk sk rights no_wait c Hc.
      rewrite (proj2 (dps_policy_update_missing _ _ _ _ _ pk sk rights no_wait
                        _ _ Hlist Hex)) in Hc. destruct Hc.
    + intros no_wait c Hc.
      rewrite (proj2 (dps_policy_delete_missing _ _ _ _ _ no_wait _ _ Hlist Hex))
        in Hc. destruct Hc.
Qed.

(** X4. An update of a DPS access policy by its exact name, which no
    other policy has: the policy keeps its place and its name, takes the
    keys and rights that are given and keeps those that are not; the
    other policies are sent back as they were listed. *)
Theorem dps_policy_update_by_exact_name
    (cl : Client) (tr : Trace) (dps_name : string) (rg : option string)
    (pk sk : option string) (rights : option (list string)) (no_wait : bool)
    (before after :
       list SharedAccessSignatureAuthorizationRuleAccessRightsDescription)
    (p : SharedAccessSignatureAuthorizationRuleAccessRightsDescription)
    (new1 : Trace) (dps : ProvisioningServiceDescription) (new2 : Trace) :
  iot_dps_access_policy_list dps_name rg cl tr = (inr (before ++ p :: after), new1) ->
  Forall (fun q => rule_key_name q <> rule_key_name p) (before ++ after) ->
  iot_dps_get dps_name rg cl (tr ++ new1) = (inr dps, new2) ->
  resubmissions
    (iot_dps_access_policy_update dps_name rg (rule_key_name p) pk sk rights no_wait)
    cl tr =
  [dps_sent_with_policies rg dps_name dps
     (before ++
      mkRule (rule_key_name p)
        (match pk with Some k => Some k | None => rule_primary_key p end)
        (match sk with Some k => Some k | None => rule_secondary_key p end)
        (match rights with
         | Some r => _convert_rights_to_access_rights r
         | None => rule_rights p
         end) :: after)].
Proof.
  intros Hlist Hother Hget.
  assert (Hex : _is_policy_existed (before ++ p :: after) (rule_key_name p) = true).
  { apply _is_policy_existed_spec. exists p. split; [|reflexivity].
    apply List.in_or_app. right. left. reflexivity. }
  rewrite (dps_policy_update_present _ _ _ _ _ _ _ _ _ _ _ _ _ Hlist Hex Hget).
  apply Forall_app in Hother. destruct Hother as [Hb Ha].
  rewrite List.map_app. simpl.
  rewrite (update_policy_other _ _ _ _ _ Hb), (update_policy_other _ _ _ _ _ Ha).
  rewrite (update_policy_exact _ _ _ _ p eq_refl). reflexivity.
Qed.

(** ** Permissions *)

Lemma key_grants_what_is_named_ok (l : list string) :
  NoDup l -> Forall (fun p => p ∈ basic_permissions) l -> l <> [] ->
  key_grants_what_is_named l = true.
Proof.
  intros Hnd Hall Hne.
  assert (Hlen : length l <= 4).
  { change 4 with (length basic_permissions).
    apply submseteq_length, NoDup_submseteq; [exact Hnd|].
    intros x Hx. rewrite Forall_forall in Hall. auto. }
  revert Hnd.
  destruct l as [|a [|b [|c [|d [|e l]]]]];
    [congruence| | | | |simpl in Hlen; lia];
    repeat match goal with
           | H : Forall _ (_ :: _) |- _ =>
               apply Forall_cons in H; destruct H as [? H]
           end;
    repeat match goal with
           | H : _ ∈ basic_permissions |- _ =>
               unfold basic_permissions in H;
               repeat (apply elem_of_cons in H; destruct H as [->|H]);
               [ .. | apply elem_of_nil in H; destruct H]
           end;
    (intros Hnd;
     first [ vm_compute; reflexivity
           | exfalso; apply (bool_decide_eq_true_2 _) in Hnd;
             vm_compute in Hnd; discriminate ]).
Qed.

Lemma permissions_named_ext (l k : list string) :
  (forall x, x ∈ l <-> x ∈ k) -> permissions_named l = permissions_named k.
Proof.
  intros Hext. unfold permissions_named.
  rewrite !(bool_decide_ext _ _ (Hext _)). reflexivity.
Qed.

(** X5. Python's [list(set(l))] being some arrangement of the distinct
    elements of [l]: every non-empty list of basic permissions, in any
    order and with any repetition, is converted without a KeyError, to
    the member of [AccessRights] that grants exactly the permissions the
    list names. *)
Theorem permissions_convert_to_the_rights_they_name
    (cl : Client) (tr : Trace) (perm_list : list string) :
  (forall s : gset string, set_to_list s ≡ₚ elements s) ->
  perm_list <> [] ->
  Forall (fun p => p ∈ basic_permissions) perm_list ->
  exists rights,
    _convert_perms_to_access_rights perm_list cl tr = (inr rights, []) /\
    granted rights = permissions_named perm_list.
Proof.
  intros Hset Hne Hall.
  set (l := set_to_list (list_to_set perm_list : gset string)).
  assert (Hmem : forall x, x ∈ l <-> x ∈ perm_list).
  { intros x. unfold l. rewrite (Hset _), elem_of_elements, elem_of_list_to_set.
    reflexivity. }
  assert (Hok : key_grants_what_is_named l = true).
  { apply key_grants_what_is_named_ok.
    - unfold l. rewrite (Hset _). apply NoDup_elements.
    - apply Forall_forall. intros x Hx. rewrite Forall_forall in Hall.
      apply Hall, Hmem, Hx.
    - destruct perm_list as [|x perm_list]; [congruence|].
      intros Hnil. assert (Hx : x ∈ l) by (apply Hmem; left).
      rewrite Hnil in Hx. apply elem_of_nil in Hx. exact Hx. }
  unfold key_grants_what_is_named in Hok.
  unfold _convert_perms_to_access_rights, getitem. fold l.
  destruct (access_rights_mapping !! join "_" (sorted l)) as [rights|];
    [|discriminate].
  exists rights. split; [reflexivity|].
  apply bool_decide_eq_true_1 in Hok. rewrite Hok.
  apply permissions_named_ext, Hmem.
Qed.

(** ** Hub policies *)

Lemma resubmissions_ret_bind {A B : Type} (a : A) (f : A -> M B) cl tr :
  resubmissions (mret a ≫= f) cl tr = resubmissions (f a) cl tr.
Proof. unfold resubmissions. rewrite bind_ret_run. reflexivity. Qed.

Lemma hub_submit_resubmissions {B : Type} (readback : M B) (no_wait : bool)
    rg hub_name hub hdrs cl tr :
  reads_only readback ->
  resubmissions
    (if no_wait then
       inl <$> hub_create_or_update rg hub_name hub hdrs
     else
       poller ← hub_create_or_update rg hub_name hub hdrs;
       _ ← LongRunningOperation poller;
       inr <$> readback) cl tr =
  [iot_hub_resource_create_or_update rg hub_name hub hdrs].
Proof.
  intros Hread. destruct no_wait.
  - rewrite resubmissions_fmap. reflexivity.
  - rewrite resubmissions_bind. unfold hub_create_or_update, sdk. simpl.
    destruct (on_hub_create_or_update _ _ _ _ _ _) as [e|poller]; [reflexivity|].
    rewrite reads_only_resubmissions; [reflexivity|]. reads_only_tac.
Qed.

Lemma hub_policy_delete_present cl tr hub_name policy_name rg
    hub new1 rgp policies new2 :
  iot_hub_get hub_name rg cl tr = (inr hub, new1) ->
  additional_properties hub !! "resourcegroup" = Some rgp ->
  iot_hub_policy_list hub_name (Some rgp) cl (tr ++ new1) = (inr policies, new2) ->
  _is_policy_existed policies policy_name = true ->
  let hub' :=
    set_hub_authorization_policies
      (List.filter
         (fun p => negb (String.eqb (lower (rule_key_name p)) (lower policy_name)))
         policies) hub in
  iot_hub_policy_delete hub_name policy_name rg cl tr =
    (on_hub_create_or_update cl (tr ++ new1 ++ new2) rgp hub_name hub'
       (if_match_headers hub),
     new1 ++ new2 ++
     [iot_hub_resource_create_or_update rgp hub_name hub' (if_match_headers hub)]).
Proof.
  intros Hget Hrg Hkeys Hex hub'. unfold iot_hub_policy_delete.
  run_with Hget. rewrite (getitem_Some _ _ _ Hrg), bind_ret_run.
  run_with Hkeys. rewrite Hex. change (negb true) with false. cbv beta iota zeta.
  change (additional_properties (set_hub_authorization_policies _ hub))
    with (additional_properties hub).
  rewrite (getitem_Some _ _ _ Hrg), bind_ret_run.
  rewrite hub_create_or_update_run. simpl. rewrite !app_assoc. reflexivity.
Qed.

Lemma reads_of_policy_fetch cl tr hub_name rg hub new1 rgp policies new2 :
  iot_hub_get hub_name rg cl tr = (inr hub, new1) ->
  iot_hub_policy_list hub_name (Some rgp) cl (tr ++ new1) = (inr policies, new2) ->
  List.filter is_create_or_update (new1 ++ new2) = [].
Proof.
  intros Hget Hkeys. rewrite List.filter_app.
  rewrite (reads_calls _ _ _ _ _ (reads_only_iot_hub_get _ _) Hget).
  rewrite (reads_calls _ _ _ _ _ (reads_only_iot_hub_policy_list _ _) Hkeys).
  reflexivity.
Qed.

Lemma filter_split_at_first {A : Type} (found : A -> bool) (before after : list A) p :
  Forall (fun q => found q = false) before -> found p = true ->
  List.filter found (before ++ p :: after) = p :: List.filter found after /\
  List.filter (fun q => negb (found q)) (before ++ p :: after) =
    before ++ List.filter (fun q => negb (found q)) after.
Proof.
  intros Hb Hp. rewrite !List.filter_app. simpl. rewrite Hp. simpl.
  rewrite (filter_none found before Hb). split; [|reflexivity].
  replace (List.filter found before) with (@nil A); [reflexivity|].
  symmetry. clear Hp. induction Hb as [|q before Hq _ IH]; simpl; [reflexivity|].
  rewrite Hq. exact IH.
Qed.

(** X6. A renewal that swaps the keys of a hub policy generates no
    key: it sends the hub back with the policies of other names in their
    order, followed by the policy asked for, its primary and secondary
    keys exchanged. (The value of [RenewKeyType.Swap] is assumed to be
    that of no other member.) *)
Theorem hub_policy_key_swap
    (cl : Client) (tr : Trace) (hub_name policy_name : string) (rg : option string)
    (hub : IotHubDescription) (new1 : Trace) (rgp : string)
    (before after : list SharedAccessSignatureAuthorizationRule)
    (p : SharedAccessSignatureAuthorizationRule) (new2 : Trace) :
  RenewKeyType_value Primary <> RenewKeyType_value Swap ->
  RenewKeyType_value Secondary <> RenewKeyType_value Swap ->
  iot_hub_get hub_name rg cl tr = (inr hub, new1) ->
  additional_properties hub !! "resourcegroup" = Some rgp ->
  iot_hub_policy_list hub_name (Some rgp) cl (tr ++ new1) =
    (inr (before ++ p :: after), new2) ->
  Forall (fun q => lower (rule_key_name q) <> lower policy_name) before ->
  lower (rule_key_name p) = lower policy_name ->
  let sent :=
    iot_hub_resource_create_or_update rgp hub_name
      (set_hub_authorization_policies
         (before ++
          List.filter
            (fun q => negb (String.eqb (lower (rule_key_name q)) (lower policy_name)))
            after ++
          [mkRule (rule_key_name p) (rule_secondary_key p) (rule_primary_key p)
             (rule_rights p)]) hub)
      (if_match_headers hub) in
  (forall no_wait,
     resubmissions
       (iot_hub_policy_key_renew hub_name policy_name (RenewKeyType_value Swap) rg
          no_wait) cl tr = [sent]) /\
  (iot_hub_policy_key_renew hub_name policy_name (RenewKeyType_value Swap) rg true
     cl tr).2 = new1 ++ new2 ++ [sent].
Proof.
  intros Hps Hss Hget Hrg Hkeys Hbefore Hp sent.
  assert (Hex : _is_policy_existed (before ++ p :: after) policy_name = true).
  { apply _is_policy_existed_spec. exists p. split; [|exact Hp].
    apply List.in_or_app. right. left. reflexivity. }
  pose proof (filter_split_at_first
                (fun q => String.eqb (lower (rule_key_name q)) (lower policy_name))
                before after p) as [Hreq Hupd].
  { eapply Forall_impl; [exact Hbefore|]. simpl. intros q Hq.
    apply String.eqb_neq. exact Hq. }
  { apply String.eqb_eq. exact Hp. }
  apply String.eqb_neq in Hps, Hss.
  rewrite String.eqb_sym in Hps. rewrite String.eqb_sym in Hss.
  unfold SharedAccessSignatureAuthorizationRule in *.
  split.
  - intros no_wait. unfold iot_hub_policy_key_renew.
    resub_with Hget. rewrite (getitem_Some _ _ _ Hrg), resubmissions_ret_bind.
    resub_with Hkeys. rewrite Hex. change (negb true) with false.
    cbv beta iota zeta. rewrite Hreq, Hupd, Hps, Hss, String.eqb_refl.
    rewrite !resubmissions_ret_bind. cbv beta iota zeta.
    change (additional_properties (set_hub_authorization_policies _ hub))
      with (additional_properties hub).
    rewrite (getitem_Some _ _ _ Hrg), resubmissions_ret_bind.
    rewrite hub_submit_resubmissions by auto with reads.
    subst sent. simpl. rewrite <- !app_assoc. reflexivity.
  - unfold iot_hub_policy_key_renew.
    rewrite (bind_calls_inr _ _ _ _ _ _ Hget). cbv beta.
    rewrite (getitem_Some _ _ _ Hrg), bind_ret_run.
    rewrite (bind_calls_inr _ _ _ _ _ _ Hkeys). cbv beta.
    rewrite Hex. change (negb true) with false.
    cbv beta iota zeta. rewrite Hreq, Hupd, Hps, Hss, String.eqb_refl.
    rewrite !bind_ret_run. cbv beta iota zeta.
    change (additional_properties (set_hub_authorization_policies _ hub))
      with (additional_properties hub).
    rewrite (getitem_Some _ _ _ Hrg), bind_ret_run.
    unfold hub_create_or_update. rewrite fmap_calls. subst sent. simpl.
    rewrite <- !app_assoc. reflexivity.
Qed.

Lemma hub_policy_create_resubmissions cl tr hub_name policy_name permissions rg
    hub new1 rgp policies new2 :
  iot_hub_get hub_name rg cl tr = (inr hub, new1) ->
  additional_properties hub !! "resourcegroup" = Some rgp ->
  iot_hub_policy_list hub_name (Some rgp) cl (tr ++ new1) = (inr policies, new2) ->
  resubmissions (iot_hub_policy_create hub_name policy_name permissions rg) cl tr =
  match (_convert_perms_to_access_rights permissions cl tr).1 with
  | inl _ => []
  | inr rights =>
      if _is_policy_existed policies policy_name then []
      else [iot_hub_resource_create_or_update rgp hub_name
              (set_hub_authorization_policies
                 (policies ++ [mkRule policy_name None None rights]) hub)
              (if_match_headers hub)]
  end.
Proof.
  intros Hget Hrg Hkeys.
  pose proof (reads_of_policy_fetch _ _ _ _ _ _ _ _ _ Hget Hkeys) as Hreads.
  destruct (_convert_perms_to_access_rights permissions cl tr).1 as [e|rights]
    eqn:Hconv.
  - unfold iot_hub_policy_create, resubmissions.
    pose proof (_convert_perms_to_access_rights_calls permissions cl tr) as Hc.
    destruct (_convert_perms_to_access_rights permissions cl tr) as [r news] eqn:Hrun.
    simpl in Hconv, Hc. subst r news.
    rewrite (bind_inl _ _ _ _ _ _ Hrun). reflexivity.
  - destruct (_is_policy_existed policies policy_name) eqn:Hex.
    + eapply resubmissions_failed; [|exact Hreads].
      eapply hub_policy_create_existing; eassumption.
    + eapply resubmissions_run; [| exact Hreads | reflexivity].
      rewrite <- app_assoc.
      exact (hub_policy_create_fresh _ _ _ _ _ _ _ _ _ _ _ _ Hconv Hget Hrg Hkeys Hex).
Qed.

Lemma hub_policy_delete_resubmissions cl tr hub_name policy_name rg
    hub new1 rgp policies new2 :
  iot_hub_get hub_name rg cl tr = (inr hub, new1) ->
  additional_properties hub !! "resourcegroup" = Some rgp ->
  iot_hub_policy_list hub_name (Some rgp) cl (tr ++ new1) = (inr policies, new2) ->
  resubmissions (iot_hub_policy_delete hub_name policy_name rg) cl tr =
  if _is_policy_existed policies policy_name then
    [iot_hub_resource_create_or_update rgp hub_name
       (set_hub_authorization_policies
          (List.filter
             (fun p => negb (String.eqb (lower (rule_key_name p)) (lower policy_name)))
             policies) hub)
       (if_match_headers hub)]
  else [].
Proof.
  intros Hget Hrg Hkeys.
  pose proof (reads_of_policy_fetch _ _ _ _ _ _ _ _ _ Hget Hkeys) as Hreads.
  destruct (_is_policy_existed policies policy_name) eqn:Hex.
  - eapply resubmissions_run; [| exact Hreads | reflexivity].
    rewrite <- app_assoc.
    exact (hub_policy_delete_present _ _ _ _ _ _ _ _ _ _ Hget Hrg Hkeys Hex).
  - eapply resubmissions_failed; [|exact Hreads].
    eapply hub_policy_delete_missing; eassumption.
Qed.

(** X7. The create, the delete and the key renewal of a hub policy keep
    the names of the policies distinct up to letter case: when the
    policies listed have distinct names, so have the policies of every
    hub that is sent back. *)
Theorem hub_policy_commands_keep_names_unique
    (cl : Client) (tr : Trace) (hub_name policy_name : string) (rg : option string)
    (hub : IotHubDescription) (new1 : Trace) (rgp : string)
    (policies : list SharedAccessSignatureAuthorizationRule) (new2 : Trace) :
  iot_hub_get hub_name rg cl tr = (inr hub, new1) ->
  additional_properties hub !! "resourcegroup" = Some rgp ->
  iot_hub_policy_list hub_name (Some rgp) cl (tr ++ new1) = (inr policies, new2) ->
  unique_names policies ->
  let well_sent c :=
    exists sent,
      c = iot_hub_resource_create_or_update rgp hub_name
            (set_hub_authorization_policies sent hub) (if_match_headers hub) /\
      unique_names sent in
  (forall permissions c,
     In c (resubmissions (iot_hub_policy_create hub_name policy_name permissions rg)
             cl tr) -> well_sent c) /\
  (forall c,
     In c (resubmissions (iot_hub_policy_delete hub_name policy_name rg) cl tr) ->
     well_sent c) /\
  (forall regenerate_key no_wait c,
     In c (resubmissions
             (iot_hub_policy_key_renew hub_name policy_name regenerate_key rg no_wait)
             cl tr) -> well_sent c).
Proof.
  intros Hget Hrg Hkeys Hu well_sent. split; [|split].
  - intros permissions c.
    rewrite (hub_policy_create_resubmissions _ _ _ _ permissions _ _ _ _ _ _
               Hget Hrg Hkeys).
    destruct (_convert_perms_to_access_rights permissions cl tr).1 as [e|rights];
      [intros []|].
    destruct (_is_policy_existed policies policy_name) eqn:Hex; [intros []|].
    intros [<-|[]]. eexists. split; [reflexivity|].
    apply unique_names_snoc; [exact Hu|]. simpl.
    apply List.Forall_forall. intros q Hq Heq.
    assert (Htrue : _is_policy_existed policies policy_name = true).
    { apply _is_policy_existed_spec. exists q. split; assumption. }
    congruence.
  - intros c.
    rewrite (hub_policy_delete_resubmissions _ _ _ _ _ _ _ _ _ _ Hget Hrg Hkeys).
    destruct (_is_policy_existed policies policy_name); [|intros []].
    intros [<-|[]]. eexists. split; [reflexivity|].
    apply NoDup_map_filter. exact Hu.
  - intros regenerate_key no_wait. unfold iot_hub_policy_key_renew.
    resub_with Hget. rewrite (getitem_Some _ _ _ Hrg), resubmissions_ret_bind.
    resub_with Hkeys.
    destruct (_is_policy_existed policies policy_name); [|intros c []].
    change (negb true) with false. cbv beta iota zeta.
    match goal with
    | |- forall c, In c (resubmissions ?T ?cl ?tr) -> _ =>
        enough (Hs : submits_only well_sent T) by exact (Hs cl tr)
    end.
    destruct (List.filter
                (fun p => String.eqb (lower (rule_key_name p)) (lower policy_name))
                policies) as [|requested rest] eqn:Hreq.
    { apply submits_only_reads. auto with reads. }
    assert (Hname : lower (rule_key_name requested) = lower policy_name).
    { assert (Hin : In requested (requested :: rest)) by (left; reflexivity).
      rewrite <- Hreq in Hin. apply List.filter_In in Hin.
      apply String.eqb_eq. exact (proj2 Hin). }
    apply (submits_only_bind_post well_sent
             (fun r => rule_key_name r = rule_key_name requested)).
    { destruct (String.eqb _ _); submits_tac. }
    { intros cl' tr' a. destruct (String.eqb _ _).
      - unfold generateKey, sdk, mbind, M_bind. simpl.
        intros [= <-]. reflexivity.
      - intros [= <-]. reflexivity. }
    intros requested0 Hname0.
    apply (submits_only_bind_post well_sent
             (fun r => rule_key_name r = rule_key_name requested)).
    { destruct (String.eqb _ _); submits_tac. }
    { intros cl' tr' a. destruct (String.eqb _ _).
      - unfold generateKey, sdk, mbind, M_bind. simpl.
        intros [= <-]. exact Hname0.
      - intros [= <-]. exact Hname0. }
    intros requested1 Hname1.
    change (additional_properties (set_hub_authorization_policies _ hub))
      with (additional_properties hub).
    rewrite (getitem_Some _ _ _ Hrg).
    intros cl' tr' c. rewrite resubmissions_ret_bind.
    rewrite hub_submit_resubmissions by auto with reads.
    intros [<-|[]]. eexists. split; [reflexivity|].
    apply unique_names_snoc; [apply NoDup_map_filter; exact Hu|].
    simpl.
    assert (Hk : rule_key_name
                   (if String.eqb regenerate_key (RenewKeyType_value Swap)
                    then set_rule_secondary_key (rule_primary_key requested1)
                           (set_rule_primary_key (rule_secondary_key requested1)
                              requested1)
                    else requested1) = rule_key_name requested).
    { destruct (String.eqb _ _); exact Hname1. }
    rewrite Hk, Hname. apply filter_other_names.
Qed.


(** ** Routing endpoints: show, list, create and delete *)

Lemma existsb_find {A : Type} (found : A -> bool) (l : list A) :
  existsb found l = match List.find found l with Some _ => true | None => false end.
Proof.
  induction l as [|x l IH]; simpl; [reflexivity|].
  destruct (found x); [reflexivity|exact IH].
Qed.

Lemma find_Some_found {A : Type} (found : A -> bool) (l : list A) x :
  List.find found l = Some x -> In x l /\ found x = true.
Proof. apply List.find_some. Qed.

Lemma filter_removes {A : Type} (found : A -> bool) (l : list A) :
  existsb found l = true -> List.filter (fun x => negb (found x)) l <> l.
Proof.
  intros Hex Heq.
  apply List.existsb_exists in Hex. destruct Hex as (x & Hin & Hx).
  rewrite <- Heq in Hin. apply List.filter_In in Hin.
  destruct Hin as [_ Hneg]. rewrite Hx in Hneg. discriminate.
Qed.

Lemma filter_keeps_others {A : Type} (found : A -> bool) (l : list A) :
  existsb found l = false -> List.filter (fun x => negb (found x)) l = l.
Proof.
  intros Hex. apply filter_none. apply List.Forall_forall. intros x Hin.
  destruct (found x) eqn:Hx; [|reflexivity].
  assert (Htrue : existsb found l = true)
    by (apply List.existsb_exists; exists x; split; assumption).
  congruence.
Qed.

(** X8. [_delete_routing_endpoints] only removes: whatever the name and
    the type given, each of the four sub-collections it returns is what
    is left of the original one after dropping some of its endpoints,
    the others kept in their order. *)
Theorem delete_routing_endpoints_only_removes
    (endpoint_name endpoint_type : option string) (endpoints : RoutingEndpoints) :
  let result := _delete_routing_endpoints endpoint_name endpoint_type endpoints in
  service_bus_queues result `sublist_of` service_bus_queues endpoints /\
  service_bus_topics result `sublist_of` service_bus_topics endpoints /\
  storage_containers result `sublist_of` storage_containers endpoints /\
  event_hubs result `sublist_of` event_hubs endpoints.
Proof.
  assert (Hnil : forall (A : Type) (l : list A), [] `sublist_of` l)
    by (intros A l; apply sublist_nil_l).
  assert (Hstep1 :
    forall e0 e1 : RoutingEndpoints,
      (service_bus_queues e1 `sublist_of` service_bus_queues e0 /\
       service_bus_topics e1 `sublist_of` service_bus_topics e0 /\
       storage_containers e1 `sublist_of` storage_containers e0 /\
       event_hubs e1 `sublist_of` event_hubs e0) ->
      forall name,
        let e2 :=
          if existsb (same_name name) (service_bus_queues e1) then
            set_service_bus_queues
              (List.filter (fun e => negb (same_name name e)) (service_bus_queues e1)) e1
          else if existsb (same_name name) (service_bus_topics e1) then
            set_service_bus_topics
              (List.filter (fun e => negb (same_name name e)) (service_bus_topics e1)) e1
          else if existsb (same_name name) (storage_containers e1) then
            set_storage_containers
              (List.filter (fun e => negb (same_name name e)) (storage_containers e1)) e1
          else if existsb (same_name name) (event_hubs e1) then
            set_event_hubs
              (List.filter (fun e => negb (same_name name e)) (event_hubs e1)) e1
          else e1 in
        service_bus_queues e2 `sublist_of` service_bus_queues e0 /\
        service_bus_topics e2 `sublist_of` service_bus_topics e0 /\
        storage_containers e2 `sublist_of` storage_containers e0 /\
        event_hubs e2 `sublist_of` event_hubs e0).
  { intros e0 e1 (Hq & Ht & Hc & He) name. cbv zeta.
    repeat match goal with
           | |- context [if existsb ?f ?l then _ else _] => destruct (existsb f l)
           end;
      simpl; refine (conj _ (conj _ (conj _ _))); try assumption;
      (etrans; [apply filter_sublist | assumption]). }
  intros result. subst result. unfold _delete_routing_endpoints.
  set (e1 := if truthy endpoint_type then _ else endpoints).
  assert (H1 : service_bus_queues e1 `sublist_of` service_bus_queues endpoints /\
               service_bus_topics e1 `sublist_of` service_bus_topics endpoints /\
               storage_containers e1 `sublist_of` storage_containers endpoints /\
               event_hubs e1 `sublist_of` event_hubs endpoints).
  { subst e1. destruct (truthy endpoint_type); [|repeat split; reflexivity].
    cbv zeta.
    repeat match goal with
           | |- context [if String.eqb ?a ?b then _ else _] => destruct (String.eqb a b)
           end;
      simpl; refine (conj _ (conj _ (conj _ _))); solve [reflexivity | apply Hnil]. }
  cbv zeta.
  set (e2 := if truthy endpoint_name then _ else e1).
  assert (H2 : service_bus_queues e2 `sublist_of` service_bus_queues endpoints /\
               service_bus_topics e2 `sublist_of` service_bus_topics endpoints /\
               storage_containers e2 `sublist_of` storage_containers endpoints /\
               event_hubs e2 `sublist_of` event_hubs endpoints).
  { subst e2. destruct (truthy endpoint_name); [|exact H1].
    exact (Hstep1 endpoints e1 H1 (default EmptyString endpoint_name)). }
  destruct (negb (truthy endpoint_type) && negb (truthy endpoint_name));
    [|exact H2].
  simpl. refine (conj _ (conj _ (conj _ _))); apply Hnil.
Qed.

Lemma endpoint_show_run cl tr hub_name endpoint_name resource_group_name
    rg hub news r :
  hub_fetched hub_name resource_group_name cl tr rg hub news ->
  routing (h_properties hub) = Some r ->
  iot_hub_routing_endpoint_show hub_name endpoint_name resource_group_name cl tr =
  (match List.find (same_name endpoint_name) (event_hubs (routing_endpoints r)) with
   | Some x => inr (an_event_hub x)
   | None =>
   match List.find (same_name endpoint_name)
           (service_bus_queues (routing_endpoints r)) with
   | Some x => inr (a_service_bus_queue x)
   | None =>
   match List.find (same_name endpoint_name)
           (service_bus_topics (routing_endpoints r)) with
   | Some x => inr (a_service_bus_topic x)
   | None =>
   match List.find (same_name endpoint_name)
           (storage_containers (routing_endpoints r)) with
   | Some x => inr (a_storage_container x)
   | None => inl (CLIError "No endpoint found.")
   end end end end, news).
Proof.
  intros Hf Hr. unfold iot_hub_routing_endpoint_show.
  rewrite (fetch_run _ _ _ _ _ _ _ _ Hf). run_norm. cbv zeta.
  destruct (List.find _ (event_hubs _)); [simpl; rewrite app_nil_r; reflexivity|].
  destruct (List.find _ (service_bus_queues _));
    [simpl; rewrite app_nil_r; reflexivity|].
  destruct (List.find _ (service_bus_topics _));
    [simpl; rewrite app_nil_r; reflexivity|].
  destruct (List.find _ (storage_containers _)); simpl; rewrite app_nil_r;
    reflexivity.
Qed.

Lemma endpoint_delete_resubmissions cl tr hub_name endpoint_name endpoint_type
    resource_group_name rg hub news r :
  hub_fetched hub_name resource_group_name cl tr rg hub news ->
  routing (h_properties hub) = Some r ->
  resubmissions
    (iot_hub_routing_endpoint_delete hub_name endpoint_name endpoint_type
       resource_group_name) cl tr =
  [iot_hub_resource_create_or_update rg hub_name
     (set_hub_routing
        (set_routing_endpoints
           (_delete_routing_endpoints endpoint_name endpoint_type
              (routing_endpoints r)) r) hub)
     (if_match_headers hub)].
Proof.
  intros Hf Hr. eapply resubmissions_run;
    [ exact (routing_endpoint_delete_run _ _ _ _ _ _ _ _ _ _ Hf Hr)
    | exact (hub_fetched_reads _ _ _ _ _ _ _ Hf)
    | reflexivity ].
Qed.

Lemma remove_by_name_changes endpoint_name endpoints t :
  has_name endpoint_name endpoints t = true ->
  remove_by_name endpoint_name endpoints <> endpoints.
Proof.
  intros Ht. destruct endpoints as [queues topics hubs containers].
  unfold remove_by_name, scan_order, List.find, has_name.
  cbn [service_bus_queues service_bus_topics event_hubs storage_containers].
  destruct (existsb _ queues) eqn:Hq.
  { intros [= Heq]. exact (filter_removes _ _ Hq Heq). }
  destruct (existsb _ topics) eqn:Hto.
  { intros [= Heq]. exact (filter_removes _ _ Hto Heq). }
  destruct (existsb _ containers) eqn:Hc.
  { intros [= Heq]. exact (filter_removes _ _ Hc Heq). }
  destruct (existsb _ hubs) eqn:Hh.
  { intros [= Heq]. exact (filter_removes _ _ Hh Heq). }
  destruct t; simpl in Ht; congruence.
Qed.

Lemma set_hub_endpoints_inj hub r e :
  routing (h_properties hub) = Some r ->
  set_hub_routing (set_routing_endpoints e r) hub = hub -> e = routing_endpoints r.
Proof.
  intros Hr Heq.
  apply (f_equal (fun h => routing_endpoints <$> routing (h_properties h))) in Heq.
  simpl in Heq. rewrite Hr in Heq. simpl in Heq. congruence.
Qed.

(** X10. For an endpoint name that is not empty, the show of a routing
    endpoint raises "No endpoint found." exactly when the delete by that
    name alone changes nothing, that is, sends the hub back as it was
    fetched. The delete by the empty name alone is the delete of
    everything: it sends the hub back with its four lists of endpoints
    empty. *)
Theorem endpoint_show_fails_iff_delete_by_name_changes_nothing
    (cl : Client) (tr : Trace) (hub_name endpoint_name : string)
    (resource_group_name : option string)
    (rg : string) (hub : IotHubDescription) (news : Trace) (r : RoutingProperties) :
  hub_fetched hub_name resource_group_name cl tr rg hub news ->
  routing (h_properties hub) = Some r ->
  (endpoint_name <> EmptyString ->
   (iot_hub_routing_endpoint_show hub_name endpoint_name resource_group_name cl tr =
      (inl (CLIError "No endpoint found."), news)
    <->
    resubmissions
      (iot_hub_routing_endpoint_delete hub_name (Some endpoint_name) None
         resource_group_name) cl tr =
    [iot_hub_resource_create_or_update rg hub_name hub (if_match_headers hub)]))
  /\
  resubmissions
    (iot_hub_routing_endpoint_delete hub_name (Some EmptyString) None
       resource_group_name) cl tr =
  [iot_hub_resource_create_or_update rg hub_name
     (set_hub_routing (set_routing_endpoints (mkEndpoints [] [] [] []) r) hub)
     (if_match_headers hub)].
Proof.
  intros Hf Hr. split.
  2: { rewrite (endpoint_delete_resubmissions _ _ _ _ _ _ _ _ _ _ Hf Hr).
       reflexivity. }
  intros Hne.
  assert (Hname : truthy (Some endpoint_name) = true).
  { simpl. apply negb_true_iff, String.eqb_neq. exact Hne. }
  rewrite (endpoint_show_run _ _ _ _ _ _ _ _ _ Hf Hr).
  rewrite (endpoint_delete_resubmissions _ _ _ _ _ _ _ _ _ _ Hf Hr).
  rewrite (name_only_delete _ _ Hname).
  set (e := routing_endpoints r).
  destruct (List.find (same_name endpoint_name) (event_hubs e)) as [x|] eqn:Hh;
  [|destruct (List.find (same_name endpoint_name) (service_bus_queues e))
      as [x|] eqn:Hq;
    [|destruct (List.find (same_name endpoint_name) (service_bus_topics e))
        as [x|] eqn:Hto;
      [|destruct (List.find (same_name endpoint_name) (storage_containers e))
          as [x|] eqn:Hc]]].
  5: { split; [intros _|reflexivity].
       rewrite remove_by_name_no_match.
       - subst e. rewrite (set_hub_endpoints_same _ _ Hr). reflexivity.
       - intros t. destruct t; simpl; rewrite existsb_find;
           [rewrite Hh | rewrite Hq | rewrite Hto | rewrite Hc]; reflexivity. }
  all: split; [discriminate|]; intros [= Heq];
    apply (set_hub_endpoints_inj _ _ _ Hr) in Heq; exfalso; revert Heq.
  - apply (remove_by_name_changes _ _ EventHub). simpl.
    rewrite existsb_find, Hh. reflexivity.
  - apply (remove_by_name_changes _ _ ServiceBusQueue). simpl.
    rewrite existsb_find, Hq. reflexivity.
  - apply (remove_by_name_changes _ _ ServiceBusTopic). simpl.
    rewrite existsb_find, Hto. reflexivity.
  - apply (remove_by_name_changes _ _ AzureStorageContainer). simpl.
    rewrite existsb_find, Hc. reflexivity.
Qed.

Lemma remove_by_name_spares_event_hubs endpoint_name endpoints t :
  t <> EventHub -> has_name endpoint_name endpoints t = true ->
  event_hubs (remove_by_name endpoint_name endpoints) = event_hubs endpoints.
Proof.
  intros Hne Ht. unfold remove_by_name, scan_order, List.find.
  destruct (has_name endpoint_name endpoints ServiceBusQueue) eqn:Hq;
    [reflexivity|].
  destruct (has_name endpoint_name endpoints ServiceBusTopic) eqn:Hto;
    [reflexivity|].
  destruct (has_name endpoint_name endpoints AzureStorageContainer) eqn:Hc;
    [reflexivity|].
  destruct t; congruence.
Qed.

(** X11. The show of an endpoint looks at the event hubs first, the
    delete by name at them last: when an event hub and an endpoint of
    another type have the name, the show returns the event hub, the
    delete by name leaves it in place, and the show of that name on the
    hub sent back still returns it. *)
Theorem endpoint_shown_survives_delete_by_name
    (cl : Client) (tr : Trace) (hub_name endpoint_name : string)
    (resource_group_name : option string)
    (rg : string) (hub : IotHubDescription) (news : Trace) (r : RoutingProperties)
    (t : EndpointType) :
  truthy (Some endpoint_name) = true ->
  hub_fetched hub_name resource_group_name cl tr rg hub news ->
  routing (h_properties hub) = Some r ->
  has_name endpoint_name (routing_endpoints r) EventHub = true ->
  t <> EventHub ->
  has_name endpoint_name (routing_endpoints r) t = true ->
  exists shown hub',
    iot_hub_routing_endpoint_show hub_name endpoint_name resource_group_name cl tr =
      (inr (an_event_hub shown), news) /\
    resubmissions
      (iot_hub_routing_endpoint_delete hub_name (Some endpoint_name) None
         resource_group_name) cl tr =
      [iot_hub_resource_create_or_update rg hub_name hub' (if_match_headers hub)] /\
    forall cl' tr' resource_group_name' rg' news',
      hub_fetched hub_name resource_group_name' cl' tr' rg' hub' news' ->
      iot_hub_routing_endpoint_show hub_name endpoint_name resource_group_name'
        cl' tr' = (inr (an_event_hub shown), news').
Proof.
  intros Hname Hf Hr Hh Hne Ht.
  simpl in Hh. rewrite existsb_find in Hh.
  destruct (List.find (same_name endpoint_name) (event_hubs (routing_endpoints r)))
    as [shown|] eqn:Hfind; [clear Hh|discriminate].
  exists shown. eexists. split; [|split].
  - rewrite (endpoint_show_run _ _ _ _ _ _ _ _ _ Hf Hr), Hfind. reflexivity.
  - exact (endpoint_delete_resubmissions _ _ _ _ _ _ _ _ _ _ Hf Hr).
  - intros cl' tr' resource_group_name' rg' news' Hf'.
    rewrite (endpoint_show_run _ _ _ _ _ _ _ _ _ Hf' eq_refl).
    cbn [routing_endpoints set_routing_endpoints].
    rewrite (name_only_delete _ _ Hname).
    rewrite (remove_by_name_spares_event_hubs _ _ _ Hne Ht), Hfind. reflexivity.
Qed.

(** X9. The delete of routing endpoints with neither a name nor a type
    sends the hub back with its four sub-collections of endpoints
    empty; on that hub the show of any name raises "No endpoint
    found.". *)
Theorem endpoint_delete_without_arguments_deletes_all
    (cl : Client) (tr : Trace) (hub_name : string)
    (endpoint_name endpoint_type resource_group_name : option string)
    (rg : string) (hub : IotHubDescription) (news : Trace) (r : RoutingProperties) :
  truthy endpoint_name = false ->
  truthy endpoint_type = false ->
  hub_fetched hub_name resource_group_name cl tr rg hub news ->
  routing (h_properties hub) = Some r ->
  let hub' :=
    set_hub_routing (set_routing_endpoints (mkEndpoints [] [] [] []) r) hub in
  iot_hub_routing_endpoint_delete hub_name endpoint_name endpoint_type
    resource_group_name cl tr =
    (on_hub_create_or_update cl (tr ++ news) rg hub_name hub' (if_match_headers hub),
     news ++ [iot_hub_resource_create_or_update rg hub_name hub' (if_match_headers hub)])
  /\
  forall cl' tr' resource_group_name' rg' news' name,
    hub_fetched hub_name resource_group_name' cl' tr' rg' hub' news' ->
    iot_hub_routing_endpoint_show hub_name name resource_group_name' cl' tr' =
      (inl (CLIError "No endpoint found."), news').
Proof.
  intros Hname Htype Hf Hr hub'.
  assert (Hdel : _delete_routing_endpoints endpoint_name endpoint_type
                   (routing_endpoints r) = mkEndpoints [] [] [] []).
  { unfold _delete_routing_endpoints. rewrite Hname, Htype. reflexivity. }
  split.
  - rewrite (routing_endpoint_delete_run _ _ _ _ _ _ _ _ _ _ Hf Hr).
    cbv zeta. rewrite Hdel. reflexivity.
  - intros cl' tr' resource_group_name' rg' news' name Hf'.
    rewrite (endpoint_show_run _ _ _ _ _ _ _ _ _ Hf' eq_refl). reflexivity.
Qed.


(** X13. The create of a storage container endpoint without a container
    name (none, or the empty string) fetches the hub, then raises
    "Container name is required." and sends nothing. *)
Theorem storage_endpoint_needs_container_name
    (cl : Client) (tr : Trace)
    (hub_name endpoint_name endpoint_type endpoint_resource_group
     endpoint_subscription_id connection_string : string)
    (container_name encoding resource_group_name : option string)
    (batch_frequency chunk_size_window : Z) (file_name_format : string)
    (rg : string) (hub : IotHubDescription) (news : Trace) :
  names_type endpoint_type AzureStorageContainer ->
  truthy container_name = false ->
  hub_fetched hub_name resource_group_name cl tr rg hub news ->
  iot_hub_routing_endpoint_create hub_name endpoint_name endpoint_type
    endpoint_resource_group endpoint_subscription_id connection_string
    container_name encoding resource_group_name batch_frequency chunk_size_window
    file_name_format cl tr =
    (inl (CLIError "Container name is required."), news) /\
  resubmissions
    (iot_hub_routing_endpoint_create hub_name endpoint_name endpoint_type
       endpoint_resource_group endpoint_subscription_id connection_string
       container_name encoding resource_group_name batch_frequency chunk_size_window
       file_name_format) cl tr = [].
Proof.
  intros Htype Hcontainer Hf.
  assert (Hrun : iot_hub_routing_endpoint_create hub_name endpoint_name endpoint_type
    endpoint_resource_group endpoint_subscription_id connection_string
    container_name encoding resource_group_name batch_frequency chunk_size_window
    file_name_format cl tr =
    (inl (CLIError "Container name is required."), news)).
  { unfold iot_hub_routing_endpoint_create.
    rewrite (fetch_run _ _ _ _ _ _ _ _ Hf).
    rewrite !(names_type_eqb _ _ _ Htype).
    rewrite !bool_decide_eq_false_2 by discriminate.
    rewrite bool_decide_eq_true_2 by reflexivity.
    rewrite Hcontainer. change (negb false) with true. cbv iota.
    run_norm. simpl. rewrite app_nil_r. reflexivity. }
  split; [exact Hrun|].
  eapply resubmissions_failed; [exact Hrun|].
  exact (hub_fetched_reads _ _ _ _ _ _ _ Hf).
Qed.

(** ** Routes: show, list, create, update and delete *)

Lemma route_show_run cl tr hub_name route_name resource_group_name rg hub news r :
  hub_fetched hub_name resource_group_name cl tr rg hub news ->
  routing (h_properties hub) = Some r ->
  iot_hub_route_show hub_name route_name resource_group_name cl tr =
  (match List.find
           (fun route => String.eqb (lower (rt_name route)) (lower route_name))
           (routing_routes r) with
   | Some route => inr route
   | None => inl (CLIError "No route found.")
   end, news).
Proof.
  intros Hf Hr. unfold iot_hub_route_show.
  rewrite (fetch_run _ _ _ _ _ _ _ _ Hf). run_norm.
  destruct (List.find _ _); simpl; rewrite app_nil_r; reflexivity.
Qed.

Lemma route_list_run cl tr hub_name source_type resource_group_name rg hub news r :
  hub_fetched hub_name resource_group_name cl tr rg hub news ->
  routing (h_properties hub) = Some r ->
  iot_hub_route_list hub_name source_type resource_group_name cl tr =
  (inr (if truthy source_type then
          List.filter
            (fun route =>
               String.eqb (lower (rt_source route))
                 (lower (default EmptyString source_type)))
            (routing_routes r)
        else routing_routes r), news).
Proof.
  intros Hf Hr. unfold iot_hub_route_list.
  rewrite (fetch_run _ _ _ _ _ _ _ _ Hf). run_norm.
  destruct (truthy source_type); simpl; rewrite app_nil_r; reflexivity.
Qed.

Lemma find_at_first {A : Type} (found : A -> bool) (before after : list A) x :
  Forall (fun y => found y = false) before -> found x = true ->
  List.find found (before ++ x :: after) = Some x.
Proof.
  intros Hb Hx. induction Hb as [|y before Hy _ IH]; simpl.
  - rewrite Hx. reflexivity.
  - rewrite Hy. exact IH.
Qed.

Lemma update_first_at_first {A : Type} (found : A -> bool) (f : A -> A)
    (before after : list A) x :
  Forall (fun y => found y = false) before -> found x = true ->
  update_first found f (before ++ x :: after) = before ++ f x :: after.
Proof.
  intros Hb Hx. induction Hb as [|y before Hy _ IH]; simpl.
  - rewrite Hx. reflexivity.
  - rewrite Hy, IH. reflexivity.
Qed.

(** X14. The update of a route changes the route that the show of that
    name returns, the first one with the name, letter case apart: it
    keeps its place and its name, takes the source, the endpoint names
    (the words of the argument), the condition and the state that are
    given and keeps those that are not; the routes before and after it,
    also later ones of the same name, are sent back as they were. *)
Theorem route_update_changes_the_route_shown
    (cl : Client) (tr : Trace) (hub_name route_name : string)
    (source_type endpoint_name : option string) (enabled : option bool)
    (condition resource_group_name : option string)
    (rg : string) (hub : IotHubDescription) (news : Trace) (r : RoutingProperties)
    (before after : list RouteProperties) (route : RouteProperties) :
  hub_fetched hub_name resource_group_name cl tr rg hub news ->
  routing (h_properties hub) = Some r ->
  routing_routes r = before ++ route :: after ->
  Forall (fun q => lower (rt_name q) <> lower route_name) before ->
  lower (rt_name route) = lower route_name ->
  iot_hub_route_show hub_name route_name resource_group_name cl tr =
    (inr route, news) /\
  resubmissions
    (iot_hub_route_update hub_name route_name source_type endpoint_name enabled
       condition resource_group_name) cl tr =
  [iot_hub_resource_create_or_update rg hub_name
     (set_hub_routes
        (before ++
         mkRoute (rt_name route)
           (default (rt_source route) source_type)
           (default (rt_condition route) condition)
           (match endpoint_name with
            | Some names => split names
            | None => rt_endpoint_names route
            end)
           (default (rt_is_enabled route) enabled) :: after) r hub)
     (if_match_headers hub)].
Proof.
  intros Hf Hr Hroutes Hbefore Hroute.
  assert (Hb : Forall
                 (fun q => String.eqb (lower (rt_name q)) (lower route_name) = false)
                 before).
  { eapply Forall_impl; [exact Hbefore|]. simpl. intros q Hq.
    apply String.eqb_neq. exact Hq. }
  apply String.eqb_eq in Hroute.
  pose proof (find_at_first _ before after route Hb Hroute) as Hfind.
  rewrite <- Hroutes in Hfind.
  split.
  - rewrite (route_show_run _ _ _ _ _ _ _ _ _ Hf Hr), Hfind. reflexivity.
  - rewrite (resubmissions_run _ _ _ _ _ _
               (route_update_found _ _ _ _ source_type endpoint_name enabled
                  condition _ _ _ _ _ _ Hf Hr Hfind)
               (hub_fetched_reads _ _ _ _ _ _ _ Hf) eq_refl).
    rewrite Hroutes, (update_first_at_first _ _ _ _ _ Hb Hroute).
    unfold update_route.
    destruct source_type, condition, endpoint_name, enabled; reflexivity.
Qed.

Lemma route_delete_resubmissions cl tr hub_name route_name source_type
    resource_group_name rg hub news r :
  hub_fetched hub_name resource_group_name cl tr rg hub news ->
  routing (h_properties hub) = Some r ->
  resubmissions
    (iot_hub_route_delete hub_name route_name source_type resource_group_name)
    cl tr =
  [iot_hub_resource_create_or_update rg hub_name
     (set_hub_routes (routes_after_delete route_name source_type (routing_routes r))
        r hub)
     (if_match_headers hub)].
Proof.
  intros Hf Hr. eapply resubmissions_run;
    [ exact (route_delete_run _ _ _ _ _ _ _ _ _ _ Hf Hr)
    | exact (hub_fetched_reads _ _ _ _ _ _ _ Hf)
    | reflexivity ].
Qed.

(** X15. The delete of routes sends back, in their order, the routes
    that match neither argument: with a name and a source type it
    removes the routes of that name and the routes of that source, not
    only those that have both; with neither argument it keeps no route. *)
Theorem route_delete_keeps_what_matches_neither
    (cl : Client) (tr : Trace) (hub_name : string)
    (route_name source_type resource_group_name : option string)
    (rg : string) (hub : IotHubDescription) (news : Trace) (r : RoutingProperties) :
  hub_fetched hub_name resource_group_name cl tr rg hub news ->
  routing (h_properties hub) = Some r ->
  exists kept,
    resubmissions
      (iot_hub_route_delete hub_name route_name source_type resource_group_name)
      cl tr =
    [iot_hub_resource_create_or_update rg hub_name (set_hub_routes kept r hub)
       (if_match_headers hub)] /\
    kept `sublist_of` routing_routes r /\
    forall route,
      In route kept <->
      In route (routing_routes r) /\
      (truthy route_name = true \/ truthy source_type = true) /\
      (truthy route_name = true ->
       lower (rt_name route) <> lower (default EmptyString route_name)) /\
      (truthy source_type = true ->
       lower (rt_source route) <> lower (default EmptyString source_type)).
Proof.
  intros Hf Hr. eexists. split; [|split].
  - exact (route_delete_resubmissions _ _ _ _ _ _ _ _ _ _ Hf Hr).
  - unfold routes_after_delete.
    destruct (truthy route_name), (truthy source_type); simpl.
    + etrans; apply filter_sublist.
    + apply filter_sublist.
    + apply filter_sublist.
    + apply sublist_nil_l.
  - intros route. unfold routes_after_delete.
    destruct (truthy route_name), (truthy source_type); simpl.
    + rewrite !List.filter_In, !negb_true_iff, !String.eqb_neq. intuition congruence.
    + rewrite !List.filter_In, !negb_true_iff, !String.eqb_neq. intuition congruence.
    + rewrite !List.filter_In, !negb_true_iff, !String.eqb_neq. intuition congruence.
    + intuition congruence.
Qed.

Lemma filter_of_the_filtered_out {A : Type} (found : A -> bool) (l : list A) :
  List.filter found (List.filter (fun x => negb (found x)) l) = [].
Proof.
  induction l as [|x l IH]; simpl; [reflexivity|].
  destruct (found x) eqn:Hx; simpl; [exact IH|]. rewrite Hx. exact IH.
Qed.

Lemma filter_of_the_others {A : Type} (found other : A -> bool) (l : list A) :
  (forall x, found x = true -> other x = false) ->
  List.filter other (List.filter (fun x => negb (found x)) l) = List.filter other l.
Proof.
  intros Hdisjoint. induction l as [|x l IH]; simpl; [reflexivity|].
  destruct (found x) eqn:Hx; simpl.
  - rewrite (Hdisjoint x Hx). exact IH.
  - rewrite IH. reflexivity.
Qed.

(** X16. After the delete of the routes of a source type, on the hub
    sent back the list of the routes of that source is empty, and the
    list of the routes of any other source is what it was on the hub
    fetched. *)
Theorem route_delete_by_source_then_list
    (cl : Client) (tr : Trace) (hub_name source_type : string)
    (resource_group_name : option string)
    (rg : string) (hub : IotHubDescription) (news : Trace) (r : RoutingProperties) :
  truthy (Some source_type) = true ->
  hub_fetched hub_name resource_group_name cl tr rg hub news ->
  routing (h_properties hub) = Some r ->
  exists hub',
    resubmissions
      (iot_hub_route_delete hub_name None (Some source_type) resource_group_name)
      cl tr =
    [iot_hub_resource_create_or_update rg hub_name hub' (if_match_headers hub)] /\
    forall cl' tr' resource_group_name' rg' news',
      hub_fetched hub_name resource_group_name' cl' tr' rg' hub' news' ->
      iot_hub_route_list hub_name (Some source_type) resource_group_name' cl' tr' =
        (inr [], news') /\
      forall other,
        truthy (Some other) = true ->
        lower other <> lower source_type ->
        iot_hub_route_list hub_name (Some other) resource_group_name' cl' tr' =
          (inr (List.filter
                  (fun route => String.eqb (lower (rt_source route)) (lower other))
                  (routing_routes r)), news').
Proof.
  intros Hsource Hf Hr. eexists. split.
  - exact (route_delete_resubmissions _ _ _ _ _ _ _ _ _ _ Hf Hr).
  - intros cl' tr' resource_group_name' rg' news' Hf'.
    assert (Hafter : routes_after_delete None (Some source_type) (routing_routes r) =
                     List.filter
                       (fun route =>
                          negb (String.eqb (lower (rt_source route))
                                  (lower source_type)))
                       (routing_routes r)).
    { unfold routes_after_delete. rewrite Hsource. reflexivity. }
    split.
    + rewrite (route_list_run _ _ _ _ _ _ _ _ _ Hf' eq_refl), Hsource.
      cbn [routing_routes set_routing_routes]. rewrite Hafter.
      change (default EmptyString (Some source_type)) with source_type.
      rewrite (filter_of_the_filtered_out
                 (fun route => String.eqb (lower (rt_source route))
                                 (lower source_type))).
      reflexivity.
    + intros other Hother Hne.
      rewrite (route_list_run _ _ _ _ _ _ _ _ _ Hf' eq_refl), Hother.
      cbn [routing_routes set_routing_routes]. rewrite Hafter.
      change (default EmptyString (Some other)) with other.
      rewrite (filter_of_the_others
                 (fun route => String.eqb (lower (rt_source route))
                                 (lower source_type))); [reflexivity|].
      intros route Hs. apply String.eqb_eq in Hs. apply String.eqb_neq.
      congruence.
Qed.

Lemma find_snoc {A : Type} (found : A -> bool) (l : list A) x :
  List.find found (l ++ [x]) =
  match List.find found l with
  | Some y => Some y
  | None => if found x then Some x else None
  end.
Proof.
  induction l as [|y l IH]; simpl; [reflexivity|].
  destruct (found y); [reflexivity|exact IH].
Qed.

(** X17. The create of a route puts the route at the end; the condition
    defaults to 'true' and the route is enabled unless said otherwise.
    On the hub sent back, the show of its name returns the route it
    returned before the create when there was one of that name (letter
    case apart), and the route created otherwise. *)
Theorem route_created_under_a_taken_name_is_shadowed
    (cl : Client) (tr : Trace) (hub_name route_name source_type endpoint_name : string)
    (enabled : option bool) (condition resource_group_name : option string)
    (rg : string) (hub : IotHubDescription) (news : Trace) (r : RoutingProperties) :
  hub_fetched hub_name resource_group_name cl tr rg hub news ->
  routing (h_properties hub) = Some r ->
  let created :=
    mkRoute route_name source_type (default "true" condition) (split endpoint_name)
      (default true enabled) in
  exists hub',
    resubmissions
      (iot_hub_route_create hub_name route_name source_type endpoint_name enabled
         condition resource_group_name) cl tr =
    [iot_hub_resource_create_or_update rg hub_name hub' (if_match_headers hub)] /\
    routing_routes <$> routing (h_properties hub') = Some (routing_routes r ++ [created])
    /\
    forall cl' tr' resource_group_name' rg' news',
      hub_fetched hub_name resource_group_name' cl' tr' rg' hub' news' ->
      iot_hub_route_show hub_name route_name resource_group_name' cl' tr' =
        (inr (match (iot_hub_route_show hub_name route_name resource_group_name
                       cl tr).1 with
              | inr older => older
              | inl _ => created
              end), news').
Proof.
  intros Hf Hr created. eexists. split; [|split].
  - eapply resubmissions_run;
      [ exact (route_create_run _ _ _ _ _ _ _ _ _ _ _ _ _ Hf Hr)
      | exact (hub_fetched_reads _ _ _ _ _ _ _ Hf)
      | reflexivity ].
  - simpl. subst created. destruct condition, enabled; reflexivity.
  - intros cl' tr' resource_group_name' rg' news' Hf'.
    rewrite (route_show_run _ _ _ _ _ _ _ _ _ Hf' eq_refl).
    rewrite (route_show_run _ _ _ _ _ _ _ _ _ Hf Hr).
    cbn [routing_routes set_routing_routes fst]. rewrite find_snoc.
    destruct (List.find _ (routing_routes r)); [reflexivity|].
    cbn [rt_name]. rewrite String.eqb_refl. subst created.
    destruct condition, enabled; reflexivity.
Qed.

(** ** Message enrichments *)

Lemma list_remove_at_first {A : Type} `{EqDecision A} (found : A -> bool)
    (before after : list A) x :
  Forall (fun y => found y = false) before -> found x = true ->
  list_remove x (before ++ x :: after) = before ++ after.
Proof.
  intros Hb Hx. induction Hb as [|y before Hy _ IH]; simpl.
  - rewrite decide_True by reflexivity. reflexivity.
  - rewrite decide_False by congruence. rewrite IH. reflexivity.
Qed.

(** X18. On a hub whose list of message enrichments is unset ([None]):
    the list command returns [None], the create sends the hub back with
    the new enrichment as its only one, and the update and the delete
    end with a [TypeError] once the hub is fetched. *)
Theorem hub_without_enrichment_list
    (cl : Client) (tr : Trace) (hub_name : string)
    (resource_group_name : option string)
    (rg : string) (hub : IotHubDescription) (news : Trace) (r : RoutingProperties) :
  hub_fetched hub_name resource_group_name cl tr rg hub news ->
  routing (h_properties hub) = Some r ->
  routing_enrichments r = None ->
  iot_message_enrichment_list hub_name resource_group_name cl tr = (inr None, news) /\
  (forall key value endpoints,
     resubmissions
       (iot_message_enrichment_create hub_name key value endpoints
          resource_group_name) cl tr =
     [iot_hub_resource_create_or_update rg hub_name
        (set_hub_routing
           (set_routing_enrichments (Some [mkEnrichment key value endpoints]) r) hub)
        (if_match_headers hub)]) /\
  (forall key value endpoints,
     iot_message_enrichment_update hub_name key value endpoints resource_group_name
       cl tr = (inl TypeError, news)) /\
  (forall key,
     iot_message_enrichment_delete hub_name key resource_group_name cl tr =
       (inl TypeError, news)).
Proof.
  intros Hf Hr Hnone. split; [|split; [|split]].
  - unfold iot_message_enrichment_list.
    rewrite (fetch_run _ _ _ _ _ _ _ _ Hf). run_norm. rewrite Hnone. simpl.
    rewrite app_nil_r. reflexivity.
  - intros key value endpoints.
    rewrite (resubmissions_run _ _ _ _ _ _
               (message_enrichment_create_run _ _ _ key value endpoints _ _ _ _ _
                  Hf Hr)
               (hub_fetched_reads _ _ _ _ _ _ _ Hf) eq_refl).
    rewrite Hnone. reflexivity.
  - intros key value endpoints. unfold iot_message_enrichment_update.
    rewrite (fetch_run _ _ _ _ _ _ _ _ Hf). run_norm. rewrite Hnone. simpl.
    rewrite app_nil_r. reflexivity.
  - intros key. unfold iot_message_enrichment_delete.
    rewrite (fetch_run _ _ _ _ _ _ _ _ Hf). run_norm. rewrite Hnone. simpl.
    rewrite app_nil_r. reflexivity.
Qed.

(** X19. The update and the delete of a message enrichment act on the
    first enrichment with exactly the key given: the update replaces its
    value and endpoint names in place, the delete drops it; all other
    enrichments, also later ones with the same key, are sent back in
    their order. *)
Theorem enrichment_update_and_delete_take_the_first_of_the_key
    (cl : Client) (tr : Trace) (hub_name key : string)
    (resource_group_name : option string)
    (rg : string) (hub : IotHubDescription) (news : Trace) (r : RoutingProperties)
    (before after : list EnrichmentProperties) (e : EnrichmentProperties) :
  hub_fetched hub_name resource_group_name cl tr rg hub news ->
  routing (h_properties hub) = Some r ->
  routing_enrichments r = Some (before ++ e :: after) ->
  Forall (fun x => enrichment_key x <> key) before ->
  enrichment_key e = key ->
  (forall value endpoints,
     resubmissions
       (iot_message_enrichment_update hub_name key value endpoints
          resource_group_name) cl tr =
     [iot_hub_resource_create_or_update rg hub_name
        (set_hub_routing
           (set_routing_enrichments
              (Some (before ++ mkEnrichment key value endpoints :: after)) r) hub)
        (if_match_headers hub)]) /\
  resubmissions (iot_message_enrichment_delete hub_name key resource_group_name)
    cl tr =
  [iot_hub_resource_create_or_update rg hub_name
     (set_hub_routing (set_routing_enrichments (Some (before ++ after)) r) hub)
     (if_match_headers hub)].
Proof.
  intros Hf Hr Hsome Hbefore He.
  assert (Hb : Forall (fun x => String.eqb (enrichment_key x) key = false) before).
  { eapply Forall_impl; [exact Hbefore|]. simpl. intros x Hx.
    apply String.eqb_neq. exact Hx. }
  apply String.eqb_eq in He.
  pose proof (find_at_first _ before after e Hb He) as Hfind.
  pose proof (hub_fetched_reads _ _ _ _ _ _ _ Hf) as Hreads.
  split.
  - intros value endpoints.
    eapply resubmissions_run; [|exact Hreads|reflexivity].
    unfold iot_message_enrichment_update.
    rewrite (fetch_run _ _ _ _ _ _ _ _ Hf). run_norm. rewrite Hsome.
    cbv beta iota zeta. rewrite Hfind.
    rewrite (update_first_at_first _ _ _ _ _ Hb He). run_norm. simpl.
    reflexivity.
  - eapply resubmissions_run; [|exact Hreads|reflexivity].
    unfold iot_message_enrichment_delete.
    rewrite (fetch_run _ _ _ _ _ _ _ _ Hf). run_norm. rewrite Hsome.
    cbv beta iota zeta. rewrite Hfind.
    rewrite (list_remove_at_first _ _ _ _ Hb He). run_norm. simpl.
    reflexivity.
Qed.

(** ** Failures of the fetch *)

Lemma fetch_fails_run {B : Type} (k : string -> IotHubDescription -> M B)
    hub_name resource_group_name cl tr e news :
  fetch_hub hub_name resource_group_name cl tr = (inl e, news) ->
  (rg ← _ensure_resource_group_name resource_group_name hub_name;
   hub ← iot_hub_get hub_name (Some rg); k rg hub) cl tr = (inl e, news).
Proof.
  unfold fetch_hub. intros Hfetch.
  destruct (_ensure_resource_group_name resource_group_name hub_name cl tr)
    as [[e1|rg] new1] eqn:Hrg.
  - rewrite (bind_inl _ _ _ _ _ _ Hrg) in Hfetch.
    rewrite (bind_inl _ _ _ _ _ _ Hrg). injection Hfetch as -> ->. reflexivity.
  - rewrite (bind_inr _ _ _ _ _ _ Hrg) in Hfetch.
    rewrite (bind_inr _ _ _ _ _ _ Hrg).
    destruct (iot_hub_get hub_name (Some rg) cl (tr ++ new1)) as [[e2|hub] new2]
      eqn:Hget; simpl in Hfetch.
    + rewrite (bind_inl _ _ _ _ _ _ Hget). simpl.
      injection Hfetch as -> ->. reflexivity.
    + discriminate.
Qed.

(** X20. When the hub cannot be fetched (the resource group is not
    resolved, or the hub is not read), each of the commands on routing
    endpoints, routes and message enrichments ends with the error of
    the fetch, having made the calls of the fetch and no other: nothing
    is sent. *)
Theorem routing_commands_fail_as_the_fetch_fails
    (cl : Client) (tr : Trace) (hub_name : string)
    (resource_group_name : option string) (e : Error) (news : Trace) :
  fetch_hub hub_name resource_group_name cl tr = (inl e, news) ->
  (forall endpoint_name endpoint_type endpoint_resource_group
          endpoint_subscription_id connection_string container_name encoding
          batch_frequency chunk_size_window file_name_format,
     iot_hub_routing_endpoint_create hub_name endpoint_name endpoint_type
       endpoint_resource_group endpoint_subscription_id connection_string
       container_name encoding resource_group_name batch_frequency chunk_size_window
       file_name_format cl tr = (inl e, news)) /\
  (forall endpoint_type,
     iot_hub_routing_endpoint_list hub_name endpoint_type resource_group_name cl tr =
       (inl e, news)) /\
  (forall endpoint_name,
     iot_hub_routing_endpoint_show hub_name endpoint_name resource_group_name cl tr =
       (inl e, news)) /\
  (forall endpoint_name endpoint_type,
     iot_hub_routing_endpoint_delete hub_name endpoint_name endpoint_type
       resource_group_name cl tr = (inl e, news)) /\
  (forall route_name source_type endpoint_name enabled condition,
     iot_hub_route_create hub_name route_name source_type endpoint_name enabled
       condition resource_group_name cl tr = (inl e, news)) /\
  (forall source_type,
     iot_hub_route_list hub_name source_type resource_group_name cl tr =
       (inl e, news)) /\
  (forall route_name,
     iot_hub_route_show hub_name route_name resource_group_name cl tr =
       (inl e, news)) /\
  (forall route_name source_type,
     iot_hub_route_delete hub_name route_name source_type resource_group_name cl tr =
       (inl e, news)) /\
  (forall route_name source_type endpoint_name enabled condition,
     iot_hub_route_update hub_name route_name source_type endpoint_name enabled
       condition resource_group_name cl tr = (inl e, news)) /\
  (forall key value endpoints,
     iot_message_enrichment_create hub_name key value endpoints resource_group_name
       cl tr = (inl e, news)) /\
  (forall key value endpoints,
     iot_message_enrichment_update hub_name key value endpoints resource_group_name
       cl tr = (inl e, news)) /\
  (forall key,
     iot_message_enrichment_delete hub_name key resource_group_name cl tr =
       (inl e, news)) /\
  iot_message_enrichment_list hub_name resource_group_name cl tr = (inl e, news) /\
  List.filter is_create_or_update news = [].
Proof.
  intros Hfetch.
  repeat match goal with
         | |- _ /\ _ => split
         end;
    try (intros; apply (fetch_fails_run _ _ _ _ _ _ _ Hfetch)).
  eapply reads_calls; [|exact Hfetch]. unfold fetch_hub. reads_only_tac.
Qed.

(** ** Lookup, creation and update of a hub *)

Lemma bind_sdk_inr {A B : Type} (c : Call) (answer : Client -> Trace -> Error + A)
    (f : A -> M B) cl tr a :
  answer cl tr = inr a ->
  (sdk c answer ≫= f) cl tr = ((f a cl (tr ++ [c])).1, c :: (f a cl (tr ++ [c])).2).
Proof.
  intros Ha. unfold mbind, M_bind, sdk. rewrite Ha.
  destruct (f a cl (tr ++ [c])); reflexivity.
Qed.

Lemma bind_sdk_inl {A B : Type} (c : Call) (answer : Client -> Trace -> Error + A)
    (f : A -> M B) cl tr e :
  answer cl tr = inl e -> (sdk c answer ≫= f) cl tr = (inl e, [c]).
Proof.
  intros Ha. unfold mbind, M_bind, sdk. rewrite Ha. reflexivity.
Qed.

(** X21. The lookup of a hub in a given resource group asks first
    whether the group exists, then whether the name is available, and
    reads the hub only when the group exists and the name is not
    reported available; otherwise it raises the CLIError of the check
    that failed, after one or two calls. *)
Theorem hub_lookup_in_a_resource_group
    (cl : Client) (tr : Trace) (hub_name rg : string) :
  let asked_group := resource_groups_check_existence rg in
  let asked_name := iot_hub_resource_check_name_availability hub_name in
  (on_rg_check_existence cl tr rg = inr false ->
   iot_hub_get hub_name (Some rg) cl tr =
     (inl (CLIError ("Resource group '" +:+ rg +:+ "' could not be found.")),
      [asked_group])) /\
  (forall message,
     on_rg_check_existence cl tr rg = inr true ->
     on_hub_check_name_availability cl (tr ++ [asked_group]) hub_name =
       inr (Some (mkAvailability true message)) ->
     iot_hub_get hub_name (Some rg) cl tr =
       (inl (CLIError ("An IotHub '" +:+ hub_name +:+ "' under resource group '" +:+
                       rg +:+ "' was not found.")),
        [asked_group; asked_name])) /\
  (forall answer,
     on_rg_check_existence cl tr rg = inr true ->
     on_hub_check_name_availability cl (tr ++ [asked_group]) hub_name = inr answer ->
     name_available <$> answer <> Some true ->
     iot_hub_get hub_name (Some rg) cl tr =
       (on_hub_get cl (tr ++ [asked_group; asked_name]) rg hub_name,
        [asked_group; asked_name; iot_hub_resource_get rg hub_name])).
Proof.
  intros asked_group asked_name.
  unfold iot_hub_get, _ensure_resource_group_existence, rg_check_existence,
    hub_check_name_availability, hub_get.
  split; [|split].
  - intros Hgroup.
    rewrite (bind_sdk_inr _ (fun cl tr => on_rg_check_existence cl tr rg) _ _ _ _
               Hgroup).
    reflexivity.
  - intros message Hgroup Hname.
    rewrite (bind_sdk_inr _ (fun cl tr => on_rg_check_existence cl tr rg) _ _ _ _
               Hgroup).
    change (negb true) with false. cbv iota.
    rewrite (bind_sdk_inr _ (fun cl tr => on_hub_check_name_availability cl tr hub_name)
               _ _ _ _ Hname).
    reflexivity.
  - intros answer Hgroup Hname Hanswer.
    rewrite (bind_sdk_inr _ (fun cl tr => on_rg_check_existence cl tr rg) _ _ _ _
               Hgroup).
    change (negb true) with false. cbv iota.
    rewrite (bind_sdk_inr _ (fun cl tr => on_hub_check_name_availability cl tr hub_name)
               _ _ _ _ Hname).
    destruct answer as [[[] message]|]; unfold sdk; simpl;
      rewrite <- ?app_assoc; try reflexivity.
    exfalso. apply Hanswer. reflexivity.
Qed.

Lemma timedelta_of_bind_run {B : Type} (seconds : Z) (f : timedelta -> M B) cl tr :
  (timedelta_of seconds ≫= f) cl tr =
  if (Z.abs (timedelta_days seconds) <=? 999999999)%Z then f seconds cl tr
  else (inl OverflowError, []).
Proof.
  unfold timedelta_of.
  destruct (Z.abs (timedelta_days seconds) <=? 999999999)%Z.
  - apply bind_ret_run.
  - apply bind_raise_run.
Qed.

Lemma timedelta_accepts_spec (seconds : Z) :
  (Z.abs (timedelta_days seconds) <=? 999999999)%Z = true <->
  timedelta_accepts seconds.
Proof. apply Z.leb_le. Qed.

(** X22. With file upload arguments that pass the validation, the create
    of a hub first asks for the name: when it is reported taken, the
    command raises a CLIError with the message of the service and
    creates nothing. Otherwise the location is the one given, or, when
    none is given, that of the resource group, which is then read first
    (an error of that read ends the command); then, when the five
    durations are in the range of [timedelta], the hub is created in
    that location, without entity tag or IF-MATCH header, and when one
    of them is not, the command ends with an OverflowError and creates
    nothing. *)
Theorem hub_create_checks_the_name_and_finds_the_location
    (cl : Client) (tr : Trace) (hub_name resource_group_name : string)
    (location : option string) (sku : string)
    (unit partition_count retention_day c2d_ttl c2d_max_delivery_count
     feedback_lock_duration feedback_ttl feedback_max_delivery_count : Z)
    (enable_fileupload_notifications : bool)
    (fileupload_notification_max_delivery_count fileupload_notification_ttl : Z)
    (fileupload_storage_connectionstring fileupload_storage_container_name :
       option string)
    (fileupload_sas_ttl : Z) :
  truthy fileupload_storage_connectionstring =
    truthy fileupload_storage_container_name ->
  (enable_fileupload_notifications = true ->
   truthy fileupload_storage_connectionstring = true) ->
  let create :=
    iot_hub_create hub_name resource_group_name location sku unit partition_count
      retention_day c2d_ttl c2d_max_delivery_count feedback_lock_duration
      feedback_ttl feedback_max_delivery_count enable_fileupload_notifications
      fileupload_notification_max_delivery_count fileupload_notification_ttl
      fileupload_storage_connectionstring fileupload_storage_container_name
      fileupload_sas_ttl in
  let asked_name := iot_hub_resource_check_name_availability hub_name in
  let in_range :=
    Forall timedelta_accepts
      [feedback_lock_duration; (feedback_ttl * 3600)%Z; (c2d_ttl * 3600)%Z;
       (fileupload_notification_ttl * 3600)%Z; (fileupload_sas_ttl * 3600)%Z] in
  (forall message,
     on_hub_check_name_availability cl tr hub_name =
       inr (Some (mkAvailability false message)) ->
     create cl tr = (inl (CLIError message), [asked_name])) /\
  (forall answer,
     on_hub_check_name_availability cl tr hub_name = inr answer ->
     name_available <$> answer <> Some false ->
     (forall given,
        location = Some given ->
        (in_range ->
         exists hub,
           create cl tr =
             (on_hub_create_or_update cl (tr ++ [asked_name]) resource_group_name
                hub_name hub None,
              [asked_name;
               iot_hub_resource_create_or_update resource_group_name hub_name hub
                 None])
           /\ h_location hub = given /\ h_etag hub = None) /\
        (~ in_range -> create cl tr = (inl OverflowError, [asked_name]))) /\
     (forall found,
        location = None ->
        on_rg_get_location cl (tr ++ [asked_name]) resource_group_name = inr found ->
        (in_range ->
         exists hub,
           create cl tr =
             (on_hub_create_or_update cl
                (tr ++ [asked_name; resource_groups_get resource_group_name])
                resource_group_name hub_name hub None,
              [asked_name; resource_groups_get resource_group_name;
               iot_hub_resource_create_or_update resource_group_name hub_name hub
                 None])
           /\ h_location hub = found /\ h_etag hub = None) /\
        (~ in_range ->
         create cl tr =
           (inl OverflowError,
            [asked_name; resource_groups_get resource_group_name]))) /\
     (forall e,
        location = None ->
        on_rg_get_location cl (tr ++ [asked_name]) resource_group_name = inl e ->
        create cl tr =
          (inl e, [asked_name; resource_groups_get resource_group_name]))).
Proof.
  intros Hboth Henabled create asked_name in_range.
  assert (Hpass :
    (enable_fileupload_notifications &&
     (negb (truthy fileupload_storage_connectionstring) ||
      negb (truthy fileupload_storage_container_name)) = false) /\
    (truthy fileupload_storage_connectionstring &&
     negb (truthy fileupload_storage_container_name) = false) /\
    (truthy fileupload_storage_container_name &&
     negb (truthy fileupload_storage_connectionstring) = false)).
  { rewrite <- Hboth.
    destruct enable_fileupload_notifications.
    - rewrite (Henabled eq_refl). repeat split; reflexivity.
    - destruct (truthy fileupload_storage_connectionstring); repeat split;
        reflexivity. }
  destruct Hpass as (Hp1 & Hp2 & Hp3).
  assert (Hrange :
    in_range <->
    (Z.abs (timedelta_days feedback_lock_duration) <=? 999999999)%Z = true /\
    (Z.abs (timedelta_days (feedback_ttl * 3600)) <=? 999999999)%Z = true /\
    (Z.abs (timedelta_days (c2d_ttl * 3600)) <=? 999999999)%Z = true /\
    (Z.abs (timedelta_days (fileupload_notification_ttl * 3600)) <=? 999999999)%Z
      = true /\
    (Z.abs (timedelta_days (fileupload_sas_ttl * 3600)) <=? 999999999)%Z = true).
  { subst in_range. rewrite !timedelta_accepts_spec. split.
    - intros Hall. repeat (apply Forall_cons_1 in Hall; destruct Hall as [? Hall]).
      repeat split; assumption.
    - intros (H1 & H2 & H3 & H4 & H5). repeat constructor; assumption. }
  subst create. unfold iot_hub_create. rewrite Hp1, Hp2, Hp3.
  unfold _check_name_availability, hub_check_name_availability, _ensure_location,
    rg_get_location.
  rewrite !bind_assoc_run.
  split.
  - intros message Hanswer.
    rewrite (bind_sdk_inr _ (fun cl tr => on_hub_check_name_availability cl tr hub_name)
               _ _ _ _ Hanswer).
    reflexivity.
  - intros answer Hanswer Hfree.
    rewrite (bind_sdk_inr _ (fun cl tr => on_hub_check_name_availability cl tr hub_name)
               _ _ _ _ Hanswer).
    assert (Hcheck :
      match answer with
      | Some a =>
          if negb (name_available a)
          then raise (CLIError (availability_message a))
          else mret tt
      | None => mret tt
      end = (mret tt : M Datatypes.unit)).
    { destruct answer as [[[] message]|]; try reflexivity.
      exfalso. apply Hfree. reflexivity. }
    rewrite Hcheck. rewrite bind_ret_run.
    unfold timedelta_seconds, timedelta_hours.
    split; [|split].
    + intros given ->. rewrite bind_ret_run. cbv beta zeta.
      repeat (rewrite timedelta_of_bind_run; cbv beta). split.
      * intros Hin. apply Hrange in Hin. destruct Hin as (H1 & H2 & H3 & H4 & H5).
        rewrite H1, H2, H3, H4, H5, hub_create_or_update_run.
        eexists. split; [reflexivity|]. split; reflexivity.
      * intros Hout.
        destruct (Z.abs (timedelta_days feedback_lock_duration) <=? 999999999)%Z
          eqn:H1; [|reflexivity].
        destruct (Z.abs (timedelta_days (feedback_ttl * 3600)) <=? 999999999)%Z
          eqn:H2; [|reflexivity].
        destruct (Z.abs (timedelta_days (c2d_ttl * 3600)) <=? 999999999)%Z
          eqn:H3; [|reflexivity].
        destruct (Z.abs (timedelta_days (fileupload_notification_ttl * 3600))
                  <=? 999999999)%Z eqn:H4; [|reflexivity].
        destruct (Z.abs (timedelta_days (fileupload_sas_ttl * 3600)) <=? 999999999)%Z
          eqn:H5; [|reflexivity].
        exfalso. apply Hout, Hrange. repeat split; reflexivity.
    + intros found -> Hfound.
      rewrite (bind_sdk_inr _
                 (fun cl tr => on_rg_get_location cl tr resource_group_name)
                 _ _ _ _ Hfound). cbv beta zeta.
      repeat (rewrite timedelta_of_bind_run; cbv beta). split.
      * intros Hin. apply Hrange in Hin. destruct Hin as (H1 & H2 & H3 & H4 & H5).
        rewrite H1, H2, H3, H4, H5, hub_create_or_update_run.
        eexists. rewrite <- app_assoc. split; [reflexivity|]. split; reflexivity.
      * intros Hout.
        destruct (Z.abs (timedelta_days feedback_lock_duration) <=? 999999999)%Z
          eqn:H1; [|reflexivity].
        destruct (Z.abs (timedelta_days (feedback_ttl * 3600)) <=? 999999999)%Z
          eqn:H2; [|reflexivity].
        destruct (Z.abs (timedelta_days (c2d_ttl * 3600)) <=? 999999999)%Z
          eqn:H3; [|reflexivity].
        destruct (Z.abs (timedelta_days (fileupload_notification_ttl * 3600))
                  <=? 999999999)%Z eqn:H4; [|reflexivity].
        destruct (Z.abs (timedelta_days (fileupload_sas_ttl * 3600)) <=? 999999999)%Z
          eqn:H5; [|reflexivity].
        exfalso. apply Hout, Hrange. repeat split; reflexivity.
    + intros e -> Hfailed.
      rewrite (bind_sdk_inl _
                 (fun cl tr => on_rg_get_location cl tr resource_group_name)
                 _ _ _ _ Hfailed).
      reflexivity.
Qed.

Lemma returns_only_ret {A : Type} (P : A -> Prop) (a : A) :
  P a -> returns_only P (mret a).
Proof. intros Ha cl tr a' [= <-]. exact Ha. Qed.

Lemma returns_only_raise {A : Type} (P : A -> Prop) (e : Error) :
  returns_only P (@raise A e).
Proof. intros cl tr a [=]. Qed.

Lemma returns_only_bind {A B : Type} (Q : A -> Prop) (P : B -> Prop)
    (m : M A) (f : A -> M B) :
  returns_only Q m -> (forall a, Q a -> returns_only P (f a)) ->
  returns_only P (m ≫= f).
Proof.
  intros Hm Hf cl tr b. unfold mbind, M_bind.
  specialize (Hm cl tr).
  destruct (m cl tr) as [[e|a] new]; simpl in *; [discriminate|].
  specialize (Hf a (Hm a eq_refl) cl (tr ++ new) b).
  destruct (f a cl (tr ++ new)) as [r new']. simpl in *. exact Hf.
Qed.

Lemma returns_only_getitem_bind {V B : Type} (P : B -> Prop) (d : gmap string V)
    (k : string) (f : V -> M B) :
  (forall v, returns_only P (f v)) -> returns_only P (getitem d k ≫= f).
Proof.
  intros Hf. apply (returns_only_bind (fun _ => True)).
  - intros cl tr a _. exact I.
  - intros v _. apply Hf.
Qed.

Lemma returns_only_timedelta_of_bind {B : Type} (P : B -> Prop) (seconds : Z)
    (f : timedelta -> M B) :
  (forall v, returns_only P (f v)) -> returns_only P (timedelta_of seconds ≫= f).
Proof.
  intros Hf. apply (returns_only_bind (fun _ => True)).
  - intros cl tr a _. exact I.
  - intros v _. apply Hf.
Qed.

Lemma same_identity_refl a : same_identity a a.
Proof. repeat split. Qed.

Lemma same_identity_trans a b c :
  same_identity a b -> same_identity b c -> same_identity a c.
Proof.
  unfold same_identity. intros (H1 & H2 & H3 & H4 & H5 & H6 & H7)
    (G1 & G2 & G3 & G4 & G5 & G6 & G7).
  repeat split; congruence.
Qed.

Lemma returns_only_when_given {X : Type} (x : option X)
    (f : X -> IotHubDescription -> M IotHubDescription) instance0 instance :
  same_identity instance0 instance ->
  (forall x i, returns_only (same_identity i) (f x i)) ->
  returns_only (same_identity instance0) (when_given x f instance).
Proof.
  intros H0 Hf. destruct x as [x|]; simpl.
  - intros cl tr a Ha. eapply same_identity_trans; [exact H0|].
    exact (Hf x instance cl tr a Ha).
  - apply returns_only_ret. exact H0.
Qed.

Lemma update_iot_hub_custom_keeps_identity base instance sku unit retention_day
    c2d_ttl c2d_max_delivery_count feedback_lock_duration feedback_ttl
    feedback_max_delivery_count enable_fileupload_notifications
    fileupload_notification_max_delivery_count fileupload_notification_ttl
    fileupload_storage_connectionstring fileupload_storage_container_name
    fileupload_sas_ttl :
  same_identity base instance ->
  returns_only (same_identity base)
    (update_iot_hub_custom instance sku unit retention_day c2d_ttl
       c2d_max_delivery_count feedback_lock_duration feedback_ttl
       feedback_max_delivery_count enable_fileupload_notifications
       fileupload_notification_max_delivery_count fileupload_notification_ttl
       fileupload_storage_connectionstring fileupload_storage_container_name
       fileupload_sas_ttl).
Proof.
  intros H0.
  assert (Hfile : forall f i,
            returns_only (same_identity i) (set_file_notifications_of f i)).
  { intros f i. unfold set_file_notifications_of.
    apply returns_only_getitem_bind. intros v. apply returns_only_ret.
    repeat split. }
  assert (Hstorage : forall f i,
            returns_only (same_identity i) (set_default_storage_of f i)).
  { intros f i. unfold set_default_storage_of.
    apply returns_only_getitem_bind. intros v. apply returns_only_ret.
    repeat split. }
  unfold update_iot_hub_custom, timedelta_hours, timedelta_seconds.
  repeat (apply (returns_only_bind (same_identity base));
          [ apply returns_only_when_given; [exact H0|];
            intros x i; cbv zeta;
            try (apply returns_only_timedelta_of_bind; intros ttl);
            first [ apply returns_only_ret; repeat split
                  | apply Hfile
                  | apply returns_only_getitem_bind; intros v;
                    apply returns_only_ret; repeat split ]
          | clear instance H0; intros instance H0 ]).
  apply (returns_only_bind (same_identity base)).
  { destruct fileupload_storage_connectionstring,
      fileupload_storage_container_name;
      try apply returns_only_raise.
    - apply (returns_only_bind (same_identity base)).
      + intros cl tr a Ha. eapply same_identity_trans; [exact H0|].
        exact (Hstorage _ _ cl tr a Ha).
      + intros i1 H1 cl tr a Ha. eapply same_identity_trans; [exact H1|].
        exact (Hstorage _ _ cl tr a Ha).
    - apply returns_only_ret. exact H0. }
  clear instance H0. intros instance H0.
  apply returns_only_when_given; [exact H0|]. intros x i.
  apply returns_only_timedelta_of_bind. intros ttl. apply Hstorage.
Qed.

(** X23. Whatever its arguments, when [update_iot_hub_custom] returns,
    the hub it returns has the name, the entity tag, the location, the
    additional properties, the routing, the access policies and the
    host name of the instance it was given; so [iot_hub_update] sends
    it with the entity tag of that instance as IF-MATCH. *)
Theorem hub_update_keeps_the_identity_of_the_hub
    (instance : IotHubDescription) (sku : option string)
    (unit retention_day c2d_ttl c2d_max_delivery_count feedback_lock_duration
     feedback_ttl feedback_max_delivery_count : option Z)
    (enable_fileupload_notifications : option bool)
    (fileupload_notification_max_delivery_count fileupload_notification_ttl :
       option Z)
    (fileupload_storage_connectionstring fileupload_storage_container_name :
       option string)
    (fileupload_sas_ttl : option Z) (cl : Client) (tr : Trace)
    (updated : IotHubDescription) :
  (update_iot_hub_custom instance sku unit retention_day c2d_ttl
     c2d_max_delivery_count feedback_lock_duration feedback_ttl
     feedback_max_delivery_count enable_fileupload_notifications
     fileupload_notification_max_delivery_count fileupload_notification_ttl
     fileupload_storage_connectionstring fileupload_storage_container_name
     fileupload_sas_ttl cl tr).1 = inr updated ->
  same_identity instance updated /\
  forall hub_name resource_group_name cl' tr' c,
    In c (resubmissions (iot_hub_update hub_name updated resource_group_name)
            cl' tr') ->
    carries_etag (h_etag instance) c.
Proof.
  intros Hrun.
  pose proof (update_iot_hub_custom_keeps_identity instance instance _ _ _ _ _ _ _ _
                _ _ _ _ _ _ (same_identity_refl instance) cl tr updated Hrun)
    as Hsame.
  split; [exact Hsame|].
  intros hub_name resource_group_name.
  destruct Hsame as (_ & Hetag & _).
  change (submits_only (carries_etag (h_etag instance))
            (iot_hub_update hub_name updated resource_group_name)).
  unfold iot_hub_update. apply submits_only_bind.
  - apply submits_only_reads. auto with reads.
  - intros rg. apply submits_hub_create_or_update. symmetry. exact Hetag.
Qed.

(** ** Connection strings *)

Lemma _get_hub_connection_string_one cl tr hub_name rg policy_name key_type
    p new1 hub new2 :
  iot_hub_policy_get hub_name policy_name (Some rg) cl tr = (inr p, new1) ->
  _get_iot_hub_by_name hub_name cl (tr ++ new1) = (inr hub, new2) ->
  _get_hub_connection_string hub_name rg policy_name key_type false cl tr =
  (inr ["HostName=" +:+ host_name (h_properties hub) +:+
        ";SharedAccessKeyName=" +:+ rule_key_name p +:+
        ";SharedAccessKey=" +:+
        format_value (if is_KeyType_secondary key_type
                      then rule_secondary_key p else rule_primary_key p)],
   new1 ++ new2).
Proof.
  intros Hget Hhub. unfold _get_hub_connection_string.
  rewrite bind_assoc_run. run_with Hget. rewrite bind_ret_run.
  run_with Hhub. simpl. rewrite app_nil_r. reflexivity.
Qed.

(** X24. The connection string of one policy of one hub is made of the
    host name of the hub found by name in the subscription, the name
    of the policy and one of its keys: the primary key for every key
    type given as a string (the command line gives strings), also the
    string 'secondary', and the secondary key only for the member
    [KeyType.secondary] itself. The command does not end with an
    IndexError. *)
Theorem connection_string_of_one_policy
    (cl : Client) (tr : Trace) (hub_name policy_name : string)
    (resource_group_name : option string) (rg : string) (new1 : Trace)
    (p : SharedAccessSignatureAuthorizationRule) (new2 : Trace)
    (hub : IotHubDescription) (new3 : Trace) :
  _ensure_resource_group_name resource_group_name hub_name cl tr = (inr rg, new1) ->
  iot_hub_policy_get hub_name policy_name (Some rg) cl (tr ++ new1) = (inr p, new2) ->
  _get_iot_hub_by_name hub_name cl (tr ++ new1 ++ new2) = (inr hub, new3) ->
  let with_key key :=
    (inr (inr (connectionString
                 ("HostName=" +:+ host_name (h_properties hub) +:+
                  ";SharedAccessKeyName=" +:+ rule_key_name p +:+
                  ";SharedAccessKey=" +:+ format_value key))),
     new1 ++ new2 ++ new3) in
  (forall s,
     iot_hub_show_connection_string (Some hub_name) resource_group_name policy_name
       (key_string s) false cl tr = with_key (rule_primary_key p)) /\
  iot_hub_show_connection_string (Some hub_name) resource_group_name policy_name
    (key_member primary) false cl tr = with_key (rule_primary_key p) /\
  iot_hub_show_connection_string (Some hub_name) resource_group_name policy_name
    (key_member secondary) false cl tr = with_key (rule_secondary_key p).
Proof.
  intros Hrg Hget Hhub with_key.
  rewrite app_assoc in Hhub.
  assert (Hall : forall key_type,
    iot_hub_show_connection_string (Some hub_name) resource_group_name policy_name
      key_type false cl tr =
    with_key (if is_KeyType_secondary key_type
              then rule_secondary_key p else rule_primary_key p)).
  { intros key_type. unfold iot_hub_show_connection_string.
    run_with Hrg.
    rewrite (bind_inr _ _ _ _ _ _
               (_get_hub_connection_string_one _ _ _ _ _ key_type _ _ _ _ Hget Hhub)).
    subst with_key. simpl. rewrite !app_nil_r. reflexivity. }
  split; [|split].
  - intros s. exact (Hall (key_string s)).
  - exact (Hall (key_member primary)).
  - exact (Hall (key_member secondary)).
Qed.

Lemma for_each_shape {A B : Type} (f : A -> M B) (R : A -> B -> Prop) :
  (forall x cl tr y, (f x cl tr).1 = inr y -> R x y) ->
  forall l cl tr ys, (for_each f l cl tr).1 = inr ys -> Forall2 R l ys.
Proof.
  intros Hf. induction l as [|x l IH]; intros cl tr ys; simpl.
  - intros [= <-]. constructor.
  - unfold mbind, M_bind.
    destruct (f x cl tr) as [[e|y] new] eqn:Hx; simpl; [discriminate|].
    destruct (for_each f l cl (tr ++ new)) as [[e|ys'] new'] eqn:Hl; simpl;
      [discriminate|].
    intros [= <-]. constructor.
    + apply (Hf x cl tr). rewrite Hx. reflexivity.
    + apply (IH cl (tr ++ new)). rewrite Hl. reflexivity.
Qed.

(** X25. Without a hub name, the connection strings are computed for the
    hubs listed: when no list is returned, the command raises "No IoT
    Hub found."; when it returns, it returns one entry per hub listed,
    in the order of the list and under the name of the hub, with one
    connection string each unless all policies are asked for; a hub
    listed without a 'resourcegroup' property makes the command fail. *)
Theorem connection_strings_of_all_hubs
    (cl : Client) (tr : Trace) (resource_group_name : option string)
    (policy_name : string) (key_type : KeyTypeArgument) (show_all : bool) :
  (forall new1,
     iot_hub_list resource_group_name cl tr = (inr None, new1) ->
     iot_hub_show_connection_string None resource_group_name policy_name key_type
       show_all cl tr = (inl (CLIError "No IoT Hub found."), new1)) /\
  (forall hubs new1 result,
     iot_hub_list resource_group_name cl tr = (inr (Some hubs), new1) ->
     (iot_hub_show_connection_string None resource_group_name policy_name key_type
        show_all cl tr).1 = inr result ->
     exists entries,
       result = inl entries /\
       map fst entries = map h_name hubs /\
       (show_all = false -> Forall (fun entry => length entry.2 = 1) entries)) /\
  (forall new1 before h after,
     iot_hub_list resource_group_name cl tr =
       (inr (Some (before ++ h :: after)), new1) ->
     additional_properties h !! "resourcegroup" = None ->
     forall result,
       (iot_hub_show_connection_string None resource_group_name policy_name key_type
          show_all cl tr).1 <> inr result).
Proof.
  split; [|split].
  - intros new1 Hlist. unfold iot_hub_show_connection_string.
    run_with Hlist. simpl. rewrite app_nil_r. reflexivity.
  - intros hubs new1 result Hlist. unfold iot_hub_show_connection_string.
    run_with Hlist. cbn [fst]. unfold fmap at 1, M_fmap at 1.
    destruct (for_each _ hubs cl (tr ++ new1)) as [[e|entries] new2] eqn:Heach;
      simpl; [discriminate|].
    intros [= <-]. exists entries. split; [reflexivity|].
    assert (Hshape :
      Forall2 (fun h (entry : string * list string) =>
                 entry.1 = h_name h /\ (show_all = false -> length entry.2 = 1))
        hubs entries).
    { eapply for_each_shape; [|rewrite Heach; reflexivity].
      intros h cl' tr' entry. unfold mbind at 1, M_bind at 1.
      destruct ((getitem (additional_properties h) "resourcegroup"
                   ≫= (fun rg => _get_hub_connection_string (h_name h) rg
                                   policy_name key_type show_all)) cl' tr')
        as [[e|c] new] eqn:Hc; simpl; [discriminate|].
      intros [= <-]. split; [reflexivity|]. intros ->. simpl.
      revert Hc. unfold getitem.
      destruct (additional_properties h !! "resourcegroup") as [rg|];
        [|rewrite bind_raise_run; discriminate].
      rewrite bind_ret_run. unfold _get_hub_connection_string.
      rewrite bind_assoc_run. unfold mbind, M_bind.
      destruct (iot_hub_policy_get _ _ _ _ _) as [[e|p] n1]; [discriminate|].
      simpl.
      destruct (_get_iot_hub_by_name _ _ _) as [[e|hub] n2]; simpl;
        [discriminate|].
      intros [= <- _]. reflexivity. }
    clear Heach Hlist. split.
    + induction Hshape as [|h entry hubs entries [Hname _] _ IH]; simpl;
        [reflexivity|]. rewrite Hname, IH. reflexivity.
    + intros Hone. induction Hshape as [|h entry hubs entries [_ Hlen] _ IH];
        constructor; auto.
  - intros new1 before h after Hlist Hmissing result.
    unfold iot_hub_show_connection_string.
    run_with Hlist. cbn [fst]. unfold fmap at 1, M_fmap at 1.
    destruct (for_each _ (before ++ h :: after) cl (tr ++ new1))
      as [[e|entries] new2] eqn:Heach; simpl; [discriminate|].
    exfalso.
    assert (Hshape : Forall2 (fun h (_ : string * list string) =>
                                additional_properties h !! "resourcegroup" <> None)
                       (before ++ h :: after) entries).
    { eapply for_each_shape; [|rewrite Heach; reflexivity].
      intros h' cl' tr' entry. unfold getitem.
      destruct (additional_properties h' !! "resourcegroup") as [rg|];
        [intros _; discriminate|].
      unfold mbind, M_bind, raise. simpl. discriminate. }
    apply Forall2_app_inv_l in Hshape.
    destruct Hshape as (e1 & e2 & _ & Hh & _).
    inversion Hh; subst. contradiction.
Qed.

(** ** Linked hubs *)

Lemma linked_hub_get_run cl tr dps_name rg linked_hub dps new1 :
  iot_dps_get dps_name rg cl tr = (inr dps, new1) ->
  iot_dps_linked_hub_get dps_name rg linked_hub cl tr =
  (match List.find (fun hub => String.eqb (linked_name hub) linked_hub)
           (iot_hubs (d_properties dps)) with
   | Some hub => inr hub
   | None =>
       inl (CLIError ("Linked hub '" +:+ linked_hub +:+
         "' does not exist. Use 'iot dps linked-hub show to see all linked hubs."))
   end, new1).
Proof.
  intros Hget. unfold iot_dps_linked_hub_get. run_with Hget.
  destruct (List.find _ _); simpl; rewrite app_nil_r; reflexivity.
Qed.

(** X26. The delete of a linked hub sends back the linked hubs listed, in
    their order, without those of the given name (letter case apart)
    and with all the others. On a service that returns what was sent,
    the get of that name, like a second delete of it, raises its
    CLIError. *)
Theorem linked_hub_delete_removes_the_name
    (cl : Client) (tr : Trace) (dps_name : string) (rg : option string)
    (linked_hub : string) (no_wait : bool)
    (hubs : list IotHubDefinitionDescription) (new1 : Trace)
    (dps : ProvisioningServiceDescription) (new2 : Trace) :
  iot_dps_linked_hub_list dps_name rg cl tr = (inr hubs, new1) ->
  (exists h, In h hubs /\ lower (linked_name h) = lower linked_hub) ->
  iot_dps_get dps_name rg cl (tr ++ new1) = (inr dps, new2) ->
  exists sent,
    resubmissions (iot_dps_linked_hub_delete dps_name rg linked_hub no_wait) cl tr =
      [iot_dps_resource_create_or_update rg dps_name
         (dps_description_of dps
            (mkDpsProperties sent (allocation_policy (d_properties dps))
               (dps_authorization_policies (d_properties dps)))) None] /\
    sent `sublist_of` hubs /\
    (forall h, In h sent <->
               In h hubs /\ lower (linked_name h) <> lower linked_hub) /\
    forall cl' tr' dps' new',
      iot_dps_get dps_name rg cl' tr' = (inr dps', new') ->
      iot_hubs (d_properties dps') = sent ->
      iot_dps_linked_hub_get dps_name rg linked_hub cl' tr' =
        (inl (CLIError ("Linked hub '" +:+ linked_hub +:+
           "' does not exist. Use 'iot dps linked-hub show to see all linked hubs.")),
         new') /\
      forall no_wait',
        iot_dps_linked_hub_delete dps_name rg linked_hub no_wait' cl' tr' =
          (inl (CLIError ("Linked hub " +:+ linked_hub +:+ " doesn't existed.")),
           new').
Proof.
  intros Hlist Hex Hget. apply _is_linked_hub_existed_spec in Hex.
  eexists. split; [|split; [|split]].
  - exact (dps_linked_hub_delete_present _ _ _ _ _ no_wait _ _ _ _ Hlist Hex Hget).
  - apply filter_sublist.
  - intros h. rewrite List.filter_In, negb_true_iff, String.eqb_neq. reflexivity.
  - intros cl' tr' dps' new' Hget' Hsent.
    assert (Hother :
      Forall (fun h => lower (linked_name h) <> lower linked_hub)
        (iot_hubs (d_properties dps'))).
    { rewrite Hsent. apply List.Forall_forall. intros h Hin.
      apply List.filter_In in Hin. destruct Hin as [_ Hh].
      apply negb_true_iff, String.eqb_neq in Hh. exact Hh. }
    split.
    + rewrite (linked_hub_get_run _ _ _ _ _ _ _ Hget').
      rewrite find_none; [reflexivity|].
      eapply Forall_impl; [exact Hother|]. simpl. intros h Hh.
      apply String.eqb_neq. congruence.
    + intros no_wait'.
      assert (Hlist' : iot_dps_linked_hub_list dps_name rg cl' tr' =
                       (inr (iot_hubs (d_properties dps')), new')).
      { unfold iot_dps_linked_hub_list. run_with Hget'. simpl.
        rewrite app_nil_r. reflexivity. }
      apply (dps_linked_hub_delete_missing _ _ _ _ _ no_wait' _ _ Hlist').
      apply _is_linked_hub_existed_false. exact Hother.
Qed.

(** X27. A waited update of a linked hub by a name that some linked hub
    has up to letter case and none has exactly: the DPS is sent with
    its linked hubs as they were listed, the operation is waited for,
    and the command then ends with the CLIError of the get by exact
    name, "Linked hub ... does not exist.", on a service that returns
    what was sent. *)
Theorem waited_linked_hub_update_in_other_letter_case
    (cl : Client) (tr : Trace) (dps_name : string) (rg : option string)
    (linked_hub : string) (apply_allocation_policy : option bool)
    (allocation_weight : option Z)
    (hubs : list IotHubDefinitionDescription) (new1 : Trace)
    (dps : ProvisioningServiceDescription) (new2 : Trace)
    (done dps' : ProvisioningServiceDescription) (new3 : Trace) :
  iot_dps_linked_hub_list dps_name rg cl tr = (inr hubs, new1) ->
  (exists h, In h hubs /\ lower (linked_name h) = lower linked_hub) ->
  Forall (fun h => linked_name h <> linked_hub) hubs ->
  iot_dps_get dps_name rg cl (tr ++ new1) = (inr dps, new2) ->
  let sent :=
    iot_dps_resource_create_or_update rg dps_name
      (dps_description_of dps
         (mkDpsProperties hubs (allocation_policy (d_properties dps))
            (dps_authorization_policies (d_properties dps)))) None in
  on_dps_create_or_update cl (tr ++ new1 ++ new2) rg dps_name
    (dps_description_of dps
       (mkDpsProperties hubs (allocation_policy (d_properties dps))
          (dps_authorization_policies (d_properties dps)))) None = inr (inr done) ->
  iot_dps_get dps_name rg cl (tr ++ new1 ++ new2 ++ [sent]) = (inr dps', new3) ->
  iot_hubs (d_properties dps') = hubs ->
  iot_dps_linked_hub_update dps_name rg linked_hub apply_allocation_policy
    allocation_weight false cl tr =
    (inl (CLIError ("Linked hub '" +:+ linked_hub +:+
       "' does not exist. Use 'iot dps linked-hub show to see all linked hubs.")),
     new1 ++ new2 ++ [sent] ++ new3).
Proof.
  intros Hlist Hex Hno Hget sent Hdone Hget' Hsame.
  apply _is_linked_hub_existed_spec in Hex.
  unfold iot_dps_linked_hub_update.
  run_with Hlist. rewrite Hex. change (negb true) with false. cbv iota zeta.
  run_with Hget. rewrite (update_linked_hub_other _ _ _ _ Hno).
  unfold dps_create_or_update.
  rewrite app_assoc in Hdone.
  rewrite (bind_sdk_inr _
             (fun cl0 tr0 => on_dps_create_or_update cl0 tr0 rg dps_name _ None)
             _ _ _ _ Hdone).
  change (LongRunningOperation (inr done))
    with (mret done : M ProvisioningServiceDescription).
  rewrite bind_ret_run.
  assert (Hback :
    (inr <$> iot_dps_linked_hub_get dps_name rg linked_hub :
       M (LROPoller ProvisioningServiceDescription + IotHubDefinitionDescription))
      cl (((tr ++ new1) ++ new2) ++ [sent]) =
    (inl (CLIError ("Linked hub '" +:+ linked_hub +:+
       "' does not exist. Use 'iot dps linked-hub show to see all linked hubs.")),
     new3)).
  { rewrite <- !app_assoc. unfold fmap, M_fmap.
    rewrite (linked_hub_get_run _ _ _ _ _ _ _ Hget'), Hsame.
    rewrite find_none; [reflexivity|].
    eapply Forall_impl; [exact Hno|]. simpl. intros h Hh.
    apply String.eqb_neq. exact Hh. }
  fold sent. rewrite Hback. reflexivity.
Qed.

(** ** Renewal of one key *)

Lemma generates_no_key_ret {A : Type} (a : A) : generates_no_key (mret a).
Proof. intros cl tr. apply not_elem_of_nil. Qed.

Lemma generates_no_key_raise {A : Type} (e : Error) : generates_no_key (@raise A e).
Proof. intros cl tr. apply not_elem_of_nil. Qed.

Lemma generates_no_key_sdk {A : Type} (c : Call)
    (answer : Client -> Trace -> Error + A) :
  c <> utils_generateKey -> generates_no_key (sdk c answer).
Proof.
  intros Hc cl tr Hin. unfold sdk in Hin. simpl in Hin.
  apply list_elem_of_singleton in Hin. congruence.
Qed.

Lemma generates_no_key_bind {A B : Type} (m : M A) (f : A -> M B) :
  generates_no_key m -> (forall a, generates_no_key (f a)) ->
  generates_no_key (m ≫= f).
Proof.
  intros Hm Hf cl tr. unfold mbind, M_bind. specialize (Hm cl tr).
  destruct (m cl tr) as [[e|a] new]; simpl in *; [exact Hm|].
  specialize (Hf a cl (tr ++ new)).
  destruct (f a cl (tr ++ new)) as [r new']. simpl in *.
  intros Hin. apply elem_of_app in Hin. destruct Hin; contradiction.
Qed.

Ltac generates_no_key_tac :=
  unfold iot_hub_policy_get, iot_hub_policy_list, iot_hub_get,
    _ensure_resource_group_name, _ensure_resource_group_existence,
    _get_iot_hub_by_name, iot_hub_list, hub_list_by_subscription,
    hub_list_by_resource_group, hub_check_name_availability, hub_get,
    hub_list_keys, hub_get_keys_for_key_name, rg_check_existence, getitem;
  repeat first
    [ apply generates_no_key_ret
    | apply generates_no_key_raise
    | apply generates_no_key_sdk; discriminate
    | apply generates_no_key_bind; [|intros ?]
    | match goal with
      | |- generates_no_key (match ?x with _ => _ end) => destruct x
      end ].

Lemma generates_no_key_iot_hub_get hub_name resource_group_name :
  generates_no_key (iot_hub_get hub_name resource_group_name).
Proof. generates_no_key_tac. Qed.

Lemma generates_no_key_iot_hub_policy_list hub_name resource_group_name :
  generates_no_key (iot_hub_policy_list hub_name resource_group_name).
Proof. generates_no_key_tac. Qed.

Lemma generates_no_key_iot_hub_policy_get hub_name policy_name resource_group_name :
  generates_no_key (iot_hub_policy_get hub_name policy_name resource_group_name).
Proof. generates_no_key_tac. Qed.

Lemma hub_submit_calls {B : Type} (readback : M B) (no_wait : bool)
    rg hub_name hub hdrs cl tr :
  reads_only readback -> generates_no_key readback ->
  exists rest,
    ((if no_wait then
        inl <$> hub_create_or_update rg hub_name hub hdrs
      else
        poller ← hub_create_or_update rg hub_name hub hdrs;
        _ ← LongRunningOperation poller;
        inr <$> readback) cl tr).2 =
    iot_hub_resource_create_or_update rg hub_name hub hdrs :: rest /\
    (utils_generateKey ∉ rest) /\
    List.filter is_create_or_update rest = [] /\
    (no_wait = true -> rest = []).
Proof.
  intros Hread Hkey. destruct no_wait.
  - exists []. rewrite fmap_calls. unfold hub_create_or_update, sdk. simpl.
    split; [reflexivity|]. split; [apply not_elem_of_nil|]. split; reflexivity.
  - unfold hub_create_or_update, sdk, LongRunningOperation, mbind, M_bind. simpl.
    destruct (on_hub_create_or_update cl tr rg hub_name hub hdrs) as [e|[e|done]];
      simpl.
    + exists []. split; [reflexivity|]. split; [apply not_elem_of_nil|].
      split; [reflexivity | discriminate].
    + exists []. split; [reflexivity|]. split; [apply not_elem_of_nil|].
      split; [reflexivity | discriminate].
    + specialize (Hread cl
                    ((tr ++ [iot_hub_resource_create_or_update rg hub_name hub hdrs])
                     ++ [])).
      specialize (Hkey cl
                    ((tr ++ [iot_hub_resource_create_or_update rg hub_name hub hdrs])
                     ++ [])).
      unfold fmap, M_fmap.
      destruct (readback cl _) as [[e|b] rest]; simpl in *;
        exists rest; (split; [reflexivity|]); (split; [exact Hkey|]);
        (split; [exact Hread | discriminate]).
Qed.

(** X28. A renewal of the primary key of a hub policy, or of its
    secondary key, waited for or not, generates one key, after the hub
    and its policies are read: the hub is sent back, once, with the
    policies of other names in their order, followed by the policy asked
    for with the generated key in place of the key renewed and its other
    key as it was; neither the reads before nor the calls that follow,
    none when the command does not wait, generate a key, and nothing
    else is sent. (The values of the three members of [RenewKeyType]
    are assumed to differ.) *)
Theorem hub_policy_key_renewal_generates_one_key
    (cl : Client) (tr : Trace) (hub_name policy_name : string) (rg : option string)
    (hub : IotHubDescription) (new1 : Trace) (rgp : string)
    (before after : list SharedAccessSignatureAuthorizationRule)
    (p : SharedAccessSignatureAuthorizationRule) (new2 : Trace) :
  RenewKeyType_value Primary <> RenewKeyType_value Secondary ->
  RenewKeyType_value Primary <> RenewKeyType_value Swap ->
  RenewKeyType_value Secondary <> RenewKeyType_value Swap ->
  iot_hub_get hub_name rg cl tr = (inr hub, new1) ->
  additional_properties hub !! "resourcegroup" = Some rgp ->
  iot_hub_policy_list hub_name (Some rgp) cl (tr ++ new1) =
    (inr (before ++ p :: after), new2) ->
  Forall (fun q => lower (rule_key_name q) <> lower policy_name) before ->
  lower (rule_key_name p) = lower policy_name ->
  let generated := on_generateKey cl (tr ++ new1 ++ new2) in
  let sent renewed :=
    iot_hub_resource_create_or_update rgp hub_name
      (set_hub_authorization_policies
         (before ++
          List.filter
            (fun q => negb (String.eqb (lower (rule_key_name q)) (lower policy_name)))
            after ++ [renewed]) hub)
      (if_match_headers hub) in
  let renewal regenerate_key renewed :=
    forall no_wait,
      resubmissions
        (iot_hub_policy_key_renew hub_name policy_name regenerate_key rg no_wait)
        cl tr = [sent renewed] /\
      exists rest,
        (iot_hub_policy_key_renew hub_name policy_name regenerate_key rg no_wait
           cl tr).2 =
          new1 ++ new2 ++ [utils_generateKey; sent renewed] ++ rest /\
        (utils_generateKey ∉ new1 ++ new2 ++ rest) /\
        (no_wait = true -> rest = []) in
  renewal (RenewKeyType_value Primary)
    (mkRule (rule_key_name p) (Some generated) (rule_secondary_key p)
       (rule_rights p)) /\
  renewal (RenewKeyType_value Secondary)
    (mkRule (rule_key_name p) (rule_primary_key p) (Some generated)
       (rule_rights p)).
Proof.
  intros Hps Hpw Hsw Hget Hrg Hkeys Hbefore Hp generated sent renewal.
  assert (Hex : _is_policy_existed (before ++ p :: after) policy_name = true).
  { apply _is_policy_existed_spec. exists p. split; [|exact Hp].
    apply List.in_or_app. right. left. reflexivity. }
  pose proof (filter_split_at_first
                (fun q => String.eqb (lower (rule_key_name q)) (lower policy_name))
                before after p) as [Hreq Hupd].
  { eapply Forall_impl; [exact Hbefore|]. simpl. intros q Hq.
    apply String.eqb_neq. exact Hq. }
  { apply String.eqb_eq. exact Hp. }
  apply String.eqb_neq in Hps, Hpw, Hsw.
  pose proof Hps as Hsp. rewrite String.eqb_sym in Hsp.
  pose proof (reads_of_policy_fetch _ _ _ _ _ _ _ _ _ Hget Hkeys) as Hreads.
  unfold SharedAccessSignatureAuthorizationRule in *.
  assert (Hfrom : forall (m : M (LROPoller IotHubDescription +
                                 AuthorizationRule AccessRights)) renewed rest,
            (m cl tr).2 = new1 ++ new2 ++ [utils_generateKey; sent renewed] ++ rest ->
            List.filter is_create_or_update rest = [] ->
            resubmissions m cl tr = [sent renewed]).
  { intros m renewed rest Hcalls Hrest. unfold resubmissions. rewrite Hcalls.
    rewrite app_assoc, List.filter_app, Hreads. simpl. rewrite Hrest. reflexivity. }
  assert (Hclean : forall rest : Trace,
            utils_generateKey ∉ rest -> utils_generateKey ∉ new1 ++ new2 ++ rest).
  { intros rest Hrest Hin.
    pose proof (generates_no_key_iot_hub_get hub_name rg cl tr) as Hn1.
    pose proof (generates_no_key_iot_hub_policy_list hub_name (Some rgp) cl
                  (tr ++ new1)) as Hn2.
    rewrite Hget in Hn1. rewrite Hkeys in Hn2. simpl in Hn1, Hn2.
    apply elem_of_app in Hin. destruct Hin as [Hin|Hin]; [contradiction|].
    apply elem_of_app in Hin. destruct Hin; contradiction. }
  split.
  - intros no_wait.
    evar (tail : Trace).
    assert (Htrace :
      (iot_hub_policy_key_renew hub_name policy_name (RenewKeyType_value Primary) rg
         no_wait cl tr).2 = new1 ++ new2 ++ utils_generateKey :: tail).
    { unfold iot_hub_policy_key_renew.
      rewrite (bind_calls_inr _ _ _ _ _ _ Hget). cbv beta.
      rewrite (getitem_Some _ _ _ Hrg), bind_ret_run.
      rewrite (bind_calls_inr _ _ _ _ _ _ Hkeys). cbv beta.
      rewrite Hex. change (negb true) with false.
      cbv beta iota zeta. rewrite Hreq, Hupd, String.eqb_refl, Hps, Hpw.
      rewrite bind_assoc_run.
      rewrite (bind_calls_inr generateKey _ _ _ _ _ eq_refl). cbv beta.
      rewrite !bind_ret_run. cbv beta iota zeta.
      change (additional_properties (set_hub_authorization_policies _ hub))
        with (additional_properties hub).
      rewrite (getitem_Some _ _ _ Hrg), bind_ret_run.
      subst tail. reflexivity. }
    subst tail.
    edestruct (hub_submit_calls (iot_hub_policy_get hub_name policy_name rg) no_wait)
      as (rest & Hcalls & Hnokey & Hrest & Hnil);
      [auto with reads | apply generates_no_key_iot_hub_policy_get |].
    rewrite Hcalls in Htrace.
    split.
    + apply (Hfrom _ _ rest); [|exact Hrest].
      etrans; [exact Htrace|]. subst sent generated. simpl. rewrite <- !app_assoc. reflexivity.
    + exists rest. split; [|split; [apply Hclean|]; assumption].
      etrans; [exact Htrace|]. subst sent generated. simpl. rewrite <- !app_assoc. reflexivity.
  - intros no_wait.
    evar (tail : Trace).
    assert (Htrace :
      (iot_hub_policy_key_renew hub_name policy_name (RenewKeyType_value Secondary) rg
         no_wait cl tr).2 = new1 ++ new2 ++ utils_generateKey :: tail).
    { unfold iot_hub_policy_key_renew.
      rewrite (bind_calls_inr _ _ _ _ _ _ Hget). cbv beta.
      rewrite (getitem_Some _ _ _ Hrg), bind_ret_run.
      rewrite (bind_calls_inr _ _ _ _ _ _ Hkeys). cbv beta.
      rewrite Hex. change (negb true) with false.
      cbv beta iota zeta. rewrite Hreq, Hupd, String.eqb_refl, Hsp, Hsw.
      rewrite bind_ret_run. rewrite bind_assoc_run.
      rewrite (bind_calls_inr generateKey _ _ _ _ _ eq_refl). cbv beta.
      rewrite !bind_ret_run. cbv beta iota zeta.
      change (additional_properties (set_hub_authorization_policies _ hub))
        with (additional_properties hub).
      rewrite (getitem_Some _ _ _ Hrg), bind_ret_run.
      subst tail. reflexivity. }
    subst tail.
    edestruct (hub_submit_calls (iot_hub_policy_get hub_name policy_name rg) no_wait)
      as (rest & Hcalls & Hnokey & Hrest & Hnil);
      [auto with reads | apply generates_no_key_iot_hub_policy_get |].
    rewrite Hcalls in Htrace.
    split.
    + apply (Hfrom _ _ rest); [|exact Hrest].
      etrans; [exact Htrace|]. subst sent generated. simpl. rewrite <- !app_assoc. reflexivity.
    + exists rest. split; [|split; [apply Hclean|]; assumption].
      etrans; [exact Htrace|]. subst sent generated. simpl. rewrite <- !app_assoc. reflexivity.
Qed.

End Properties.

(** * The properties on the test double *)

#[local] Existing Instance example_shared.

Lemma example_names_type (t : EndpointType) :
  names_type (EndpointType_value t) t.
Proof. intros t'. destruct t, t'; split; intros Heq; solve [reflexivity | discriminate]. Qed.

Lemma example_hub_fetched :
  hub_fetched "hub1" None example_client [] "rg1" example_hub example_fetch_calls.
Proof.
  exists [iot_hub_resource_list_by_subscription],
         [resource_groups_check_existence "rg1";
          iot_hub_resource_check_name_availability "hub1";
          iot_hub_resource_get "rg1" "hub1"].
  repeat split; vm_compute; reflexivity.
Qed.

(** C1 fails for routes: a route named Route1 is created on a hub that
    has route1; nothing is raised and both routes are sent back. *)
Lemma route_create_accepts_duplicate_name :
  let new_route := mkRoute "Route1" "DeviceMessages" "true" ["events"] true in
  let hub' := set_hub_routes [example_route; new_route] example_routing example_hub in
  (exists route, In route (routing_routes example_routing) /\
                 lower (rt_name route) = lower "Route1") /\
  iot_hub_route_create "hub1" "Route1" "DeviceMessages" "events" None None None
    example_client [] =
    (inr (inr hub'),
     example_fetch_calls ++
     [iot_hub_resource_create_or_update "rg1" "hub1" hub'
        (if_match_headers example_hub)]).
Proof.
  split.
  - exists example_route. split; [left; reflexivity | reflexivity].
  - vm_compute. reflexivity.
Qed.

Lemma create_looks_up_policies_only_witness :
  iot_dps_access_policy_create "dps1" (Some "rg1") "Policy1" ["EnrollmentRead"]
    None None true example_client [] =
    (inl (CLIError "Access policy Policy1 already existed."),
     [iot_dps_resource_get "dps1" (Some "rg1");
      iot_dps_resource_list_keys "dps1" (Some "rg1")]) /\
  resubmissions
    (iot_dps_access_policy_create "dps1" (Some "rg1") "Policy1" ["EnrollmentRead"]
       None None true) example_client [] = [].
Proof.
  refine (proj1 (proj1 (create_looks_up_policies_only example_client [])
                   "dps1" (Some "rg1") "Policy1" ["EnrollmentRead"] None None true
                   [example_dps_policy]
                   [iot_dps_resource_get "dps1" (Some "rg1");
                    iot_dps_resource_list_keys "dps1" (Some "rg1")] _) _).
  - vm_compute. reflexivity.
  - exists example_dps_policy. split; [left; reflexivity | reflexivity].
Defined.

(** C2 fails for the delete of a route: no route is named route9, yet
    nothing is raised and the hub is sent back. *)
Lemma route_delete_of_missing_name_resubmits :
  Forall (fun route => lower (rt_name route) <> lower "route9")
         (routing_routes example_routing) /\
  iot_hub_route_delete "hub1" (Some "route9") None None example_client [] =
    (inr (inr example_hub),
     example_fetch_calls ++
     [iot_hub_resource_create_or_update "rg1" "hub1" example_hub
        (if_match_headers example_hub)]).
Proof.
  split.
  - repeat constructor. discriminate.
  - vm_compute. reflexivity.
Qed.

Lemma missing_name_on_update_or_delete_witness :
  iot_hub_route_update "hub1" "route9" None None (Some false) None None
    example_client [] =
    (inl (CLIError "No route found."), example_fetch_calls) /\
  resubmissions
    (iot_hub_route_update "hub1" "route9" None None (Some false) None None)
    example_client [] = [].
Proof.
  refine (proj1 (proj2 (proj2 (proj2 (proj2
            (missing_name_on_update_or_delete example_client [])))))
            "hub1" "route9" None None (Some false) None None
            "rg1" example_hub example_fetch_calls example_routing
            example_hub_fetched _ _).
  - reflexivity.
  - repeat constructor. discriminate.
Defined.

(** C3 fails on this input: the policy is stored as policy1, with
    primary key A and secondary key B. The update names it Policy1 and
    gives the secondary key C. The existence check passes, nothing is
    raised, and the policy is sent back with the secondary key B. *)
Lemma policy_update_drops_key_on_case_mismatch :
  _is_policy_existed [example_dps_policy] "Policy1" = true /\
  resubmissions
    (iot_dps_access_policy_update "dps1" (Some "rg1") "Policy1" None (Some "C")
       None true) example_client [] =
  [iot_dps_resource_create_or_update (Some "rg1") "dps1"
     (dps_description_of example_dps
        (mkDpsProperties [example_linked_hub] (Some "Hashed")
           [mkRule "policy1" (Some "A") (Some "B") "EnrollmentRead"]))
     None] /\
  exists poller,
    (iot_dps_access_policy_update "dps1" (Some "rg1") "Policy1" None (Some "C")
       None true example_client []).1 = inr (inl poller).
Proof.
  split; [vm_compute; reflexivity|]. split; [vm_compute; reflexivity|].
  eexists. vm_compute. reflexivity.
Qed.

(** C4 fails on this input: x names a queue and a topic, and the type
    given is that of the queues. Looked up first, x would be found among
    the queues and the topics would be kept; the code empties the queues
    first, finds x among the topics and removes it there. *)
Lemma delete_with_name_and_type_clears_type_first :
  List.find (has_name "x" example_endpoints) scan_order = Some ServiceBusQueue /\
  service_bus_topics (remove_by_name "x" example_endpoints) = [example_topic "x"] /\
  service_bus_topics
    (clear_type ServiceBusQueue (remove_by_name "x" example_endpoints)) =
    [example_topic "x"] /\
  service_bus_topics
    (_delete_routing_endpoints (Some "x") (Some "servicebusqueue") example_endpoints)
    = [].
Proof. repeat split; vm_compute; reflexivity. Qed.

Lemma delete_by_name_and_type_witness :
  _delete_routing_endpoints (Some "x") (Some "ServiceBusQueue") example_endpoints =
  remove_by_name "x" (clear_type ServiceBusQueue example_endpoints).
Proof.
  apply (delete_by_name_and_type "x" "ServiceBusQueue" ServiceBusQueue
           example_endpoints).
  - reflexivity.
  - reflexivity.
  - exact (example_names_type ServiceBusQueue).
Defined.

Lemma lookup_without_resource_group_witness :
  (iot_hub_get "HUB1" None example_client []).1 = inr example_hub.
Proof.
  destruct (proj2 (proj2 (proj1
              (lookup_without_resource_group example_client [] "HUB1")))
              [example_hub] eq_refl)
    as [(before & target & after & Hl & Hname & Hbefore & Hrun)|[Hnone _]].
  - destruct before as [|x [|y before]]; try discriminate.
    injection Hl as <- _. exact Hrun.
  - inversion Hnone as [|x l Hx Hl]. destruct (Hx eq_refl).
Defined.

(** C6 fails for the DPS commands: the DPS is fetched with an entity
    tag, and the policy is created by a call with no IF-MATCH header and
    no entity tag in the description. *)
Lemma dps_resubmission_carries_no_etag :
  d_etag example_dps = Some "AAAAAAAHsv4=" /\
  exists c,
    resubmissions
      (iot_dps_access_policy_create "dps1" (Some "rg1") "policy2" ["EnrollmentRead"]
         None None true) example_client [] = [c] /\
    if_match c = None /\ submitted_etag c = None.
Proof.
  split; [reflexivity|]. eexists. split; [vm_compute; reflexivity|].
  split; reflexivity.
Qed.

Lemma resubmission_entity_tag_witness :
  let hub' :=
    set_hub_routes
      [example_route; mkRoute "route2" "DeviceMessages" "true" ["events"] true]
      example_routing example_hub in
  exists hub news,
    fetch_hub "hub1" None example_client [] = (inr hub, news) /\
    if_match
      (iot_hub_resource_create_or_update "rg1" "hub1" hub'
         (if_match_headers example_hub)) = Some (h_etag hub) /\
    submitted_etag
      (iot_hub_resource_create_or_update "rg1" "hub1" hub'
         (if_match_headers example_hub)) = h_etag hub.
Proof.
  intros hub'.
  apply (proj1 (proj2 (proj2 (proj2 (proj2 (proj2
           (proj1 (resubmission_entity_tag (H := example_shared))))))))
           "hub1" "route2" "DeviceMessages" "events" None None None
           example_client []).
  vm_compute. left. reflexivity.
Defined.

Lemma type_only_delete_clears_that_type_witness :
  let result :=
    _delete_routing_endpoints None (Some "ServiceBusQueue") example_endpoints in
  service_bus_queues result = [] /\
  service_bus_topics result = service_bus_topics example_endpoints /\
  storage_containers result = storage_containers example_endpoints /\
  event_hubs result = event_hubs example_endpoints.
Proof.
  exact (type_only_delete_clears_that_type None "ServiceBusQueue" ServiceBusQueue
           example_endpoints eq_refl eq_refl (example_names_type ServiceBusQueue)).
Defined.



Lemma route_delete_without_arguments_deletes_all_witness :
  let hub' := set_hub_routes [] example_routing example_hub in
  iot_hub_route_delete "hub1" None None None example_client [] =
    (on_hub_create_or_update example_client ([] ++ example_fetch_calls) "rg1" "hub1"
       hub' (if_match_headers example_hub),
     example_fetch_calls ++
     [iot_hub_resource_create_or_update "rg1" "hub1" hub'
        (if_match_headers example_hub)])
  /\ routing_routes <$> routing (h_properties hub') = Some [].
Proof.
  exact (route_delete_without_arguments_deletes_all example_client [] "hub1"
           None None None "rg1" example_hub example_fetch_calls example_routing
           eq_refl eq_refl example_hub_fetched eq_refl).
Defined.

Lemma update_by_name_in_other_letter_case_witness :
  resubmissions
    (iot_dps_access_policy_update "dps1" (Some "rg1") "Policy1" None (Some "C")
       None false) example_client [] =
  [iot_dps_resource_create_or_update (Some "rg1") "dps1"
     (dps_description_of example_dps
        (mkDpsProperties [example_linked_hub] (Some "Hashed") [example_dps_policy]))
     None].
Proof.
  refine (proj1 (proj1 (update_by_name_in_other_letter_case example_client [])
                   "dps1" (Some "rg1") "Policy1" None (Some "C") None
                   [example_dps_policy]
                   [iot_dps_resource_get "dps1" (Some "rg1");
                    iot_dps_resource_list_keys "dps1" (Some "rg1")]
                   example_dps [iot_dps_resource_get "dps1" (Some "rg1")]
                   _ _ _ _) false).
  - vm_compute. reflexivity.
  - exists example_dps_policy. split; [left; reflexivity | reflexivity].
  - repeat constructor. discriminate.
  - vm_compute. reflexivity.
Defined.

(** * The further properties on the test double *)

Lemma example_shared_name_hub_fetched :
  hub_fetched "hub1" None example_shared_name_client [] "rg1" example_shared_name_hub
    example_fetch_calls.
Proof.
  exists [iot_hub_resource_list_by_subscription],
         [resource_groups_check_existence "rg1";
          iot_hub_resource_check_name_availability "hub1";
          iot_hub_resource_get "rg1" "hub1"].
  repeat split; vm_compute; reflexivity.
Qed.

Lemma example_enriched_hub_fetched :
  hub_fetched "hub1" None example_enriched_client [] "rg1" example_enriched_hub
    example_fetch_calls.
Proof.
  exists [iot_hub_resource_list_by_subscription],
         [resource_groups_check_existence "rg1";
          iot_hub_resource_check_name_availability "hub1";
          iot_hub_resource_get "rg1" "hub1"].
  repeat split; vm_compute; reflexivity.
Qed.

Lemma dps_policy_create_is_not_repeatable_witness :
  exists sent,
    resubmissions
      (iot_dps_access_policy_create "dps1" (Some "rg1") "policy2" ["EnrollmentWrite"]
         None None true) example_client [] =
      [dps_sent_with_policies (Some "rg1") "dps1" example_dps sent] /\
    iot_dps_access_policy_create "dps1" (Some "rg1") "Policy2" ["EnrollmentWrite"]
      None None true
      (static_client [example_hub] [example_hub_policy] [example_dps] sent) [] =
      (inl (CLIError "Access policy Policy2 already existed."),
       [iot_dps_resource_get "dps1" (Some "rg1");
        iot_dps_resource_list_keys "dps1" (Some "rg1")]).
Proof.
  destruct (dps_policy_create_is_not_repeatable example_client [] "dps1" (Some "rg1")
              "policy2" ["EnrollmentWrite"] None None true [example_dps_policy]
              [iot_dps_resource_get "dps1" (Some "rg1");
               iot_dps_resource_list_keys "dps1" (Some "rg1")]
              example_dps [iot_dps_resource_get "dps1" (Some "rg1")])
    as (sent & Hsent & Hagain).
  - vm_compute. reflexivity.
  - repeat constructor. vm_compute. discriminate.
  - vm_compute. reflexivity.
  - exists sent. split; [exact Hsent|].
    apply Hagain; [reflexivity|]. vm_compute. reflexivity.
Defined.

Lemma dps_policy_delete_removes_the_name_witness :
  exists sent,
    resubmissions (iot_dps_access_policy_delete "dps1" (Some "rg1") "POLICY1" true)
      example_client [] =
      [dps_sent_with_policies (Some "rg1") "dps1" example_dps sent] /\
    sent `sublist_of` [example_dps_policy] /\
    ~ In example_dps_policy sent.
Proof.
  destruct (dps_policy_delete_removes_the_name example_client [] "dps1" (Some "rg1")
              "POLICY1" true [example_dps_policy]
              [iot_dps_resource_get "dps1" (Some "rg1");
               iot_dps_resource_list_keys "dps1" (Some "rg1")]
              example_dps [iot_dps_resource_get "dps1" (Some "rg1")])
    as (sent & Hsent & Hsub & Hin & _).
  - vm_compute. reflexivity.
  - exists example_dps_policy. split; [left; reflexivity | reflexivity].
  - vm_compute. reflexivity.
  - exists sent. split; [exact Hsent|]. split; [exact Hsub|].
    intros Hp. apply Hin in Hp. destruct Hp as [_ Hp]. apply Hp. reflexivity.
Defined.

Lemma dps_policy_commands_keep_names_unique_witness :
  let well_sent c :=
    exists sent,
      c = dps_sent_with_policies (Some "rg1") "dps1" example_dps sent /\
      unique_names sent in
  (forall rights pk sk no_wait c,
     In c (resubmissions
             (iot_dps_access_policy_create "dps1" (Some "rg1") "policy2" rights pk sk
                no_wait) example_client []) -> well_sent c) /\
  (forall pk sk rights no_wait c,
     In c (resubmissions
             (iot_dps_access_policy_update "dps1" (Some "rg1") "policy2" pk sk rights
                no_wait) example_client []) -> well_sent c) /\
  (forall no_wait c,
     In c (resubmissions
             (iot_dps_access_policy_delete "dps1" (Some "rg1") "policy2" no_wait)
             example_client []) -> well_sent c).
Proof.
  apply (dps_policy_commands_keep_names_unique example_client [] "dps1"
           (Some "rg1") "policy2" [example_dps_policy]
           [iot_dps_resource_get "dps1" (Some "rg1");
            iot_dps_resource_list_keys "dps1" (Some "rg1")]
           example_dps [iot_dps_resource_get "dps1" (Some "rg1")]).
  - vm_compute. reflexivity.
  - vm_compute. reflexivity.
  - repeat constructor. intros Hin. inversion Hin.
Defined.

Lemma dps_policy_update_by_exact_name_witness :
  resubmissions
    (iot_dps_access_policy_update "dps1" (Some "rg1") "policy1" None (Some "C") None
       true) example_client [] =
  [dps_sent_with_policies (Some "rg1") "dps1" example_dps
     [mkRule "policy1" (Some "A") (Some "C") "EnrollmentRead"]].
Proof.
  apply (dps_policy_update_by_exact_name example_client [] "dps1" (Some "rg1")
           None (Some "C") None true [] [] example_dps_policy
           [iot_dps_resource_get "dps1" (Some "rg1");
            iot_dps_resource_list_keys "dps1" (Some "rg1")]
           example_dps [iot_dps_resource_get "dps1" (Some "rg1")]).
  - vm_compute. reflexivity.
  - constructor.
  - vm_compute. reflexivity.
Defined.

Lemma permissions_convert_to_the_rights_they_name_witness :
  exists rights,
    _convert_perms_to_access_rights ["registryread"; "deviceconnect"; "registryread"]
      example_client [] = (inr rights, []) /\
    granted rights =
      permissions_named ["registryread"; "deviceconnect"; "registryread"].
Proof.
  apply (permissions_convert_to_the_rights_they_name example_client []
           ["registryread"; "deviceconnect"; "registryread"]).
  - intros s. reflexivity.
  - discriminate.
  - repeat constructor.
Defined.

Lemma hub_policy_key_swap_witness :
  let sent :=
    iot_hub_resource_create_or_update "rg1" "hub1"
      (set_hub_authorization_policies
         ([] ++
          List.filter
            (fun q => negb (String.eqb (lower (rule_key_name q)) (lower "IotHubOwner")))
            [] ++
          [mkRule (rule_key_name example_hub_policy)
             (rule_secondary_key example_hub_policy)
             (rule_primary_key example_hub_policy)
             (rule_rights example_hub_policy)]) example_hub)
      (if_match_headers example_hub) in
  (forall no_wait,
     resubmissions
       (iot_hub_policy_key_renew "hub1" "IotHubOwner" (RenewKeyType_value Swap) None
          no_wait) example_client [] = [sent]) /\
  (iot_hub_policy_key_renew "hub1" "IotHubOwner" (RenewKeyType_value Swap) None true
     example_client []).2 =
    [iot_hub_resource_list_by_subscription] ++
    [iot_hub_resource_list_keys "rg1" "hub1"] ++ [sent].
Proof.
  refine (hub_policy_key_swap example_client [] "hub1" "IotHubOwner" None example_hub
            [iot_hub_resource_list_by_subscription] "rg1" [] [] example_hub_policy
            [iot_hub_resource_list_keys "rg1" "hub1"] _ _ _ _ _ _ _).
  - intros Heq. vm_compute in Heq. discriminate.
  - intros Heq. vm_compute in Heq. discriminate.
  - vm_compute. reflexivity.
  - reflexivity.
  - vm_compute. reflexivity.
  - constructor.
  - vm_compute. reflexivity.
Defined.

Lemma hub_policy_commands_keep_names_unique_witness :
  let well_sent c :=
    exists sent,
      c = iot_hub_resource_create_or_update "rg1" "hub1"
            (set_hub_authorization_policies sent example_hub)
            (if_match_headers example_hub) /\
      unique_names sent in
  (forall permissions c,
     In c (resubmissions (iot_hub_policy_create "hub1" "device" permissions None)
             example_client []) -> well_sent c) /\
  (forall c,
     In c (resubmissions (iot_hub_policy_delete "hub1" "device" None)
             example_client []) -> well_sent c) /\
  (forall regenerate_key no_wait c,
     In c (resubmissions
             (iot_hub_policy_key_renew "hub1" "device" regenerate_key None no_wait)
             example_client []) -> well_sent c).
Proof.
  refine (hub_policy_commands_keep_names_unique example_client [] "hub1" "device" None
            example_hub [iot_hub_resource_list_by_subscription] "rg1"
            [example_hub_policy] [iot_hub_resource_list_keys "rg1" "hub1"] _ _ _ _).
  - vm_compute. reflexivity.
  - reflexivity.
  - vm_compute. reflexivity.
  - repeat constructor. intros Hin. inversion Hin.
Defined.

Lemma endpoint_delete_without_arguments_deletes_all_witness :
  let hub' :=
    set_hub_routing (set_routing_endpoints (mkEndpoints [] [] [] []) example_routing)
      example_hub in
  iot_hub_routing_endpoint_delete "hub1" None (Some EmptyString) None
    example_client [] =
    (on_hub_create_or_update example_client ([] ++ example_fetch_calls) "rg1" "hub1"
       hub' (if_match_headers example_hub),
     example_fetch_calls ++
     [iot_hub_resource_create_or_update "rg1" "hub1" hub'
        (if_match_headers example_hub)])
  /\
  forall cl' tr' resource_group_name' rg' news' name,
    hub_fetched "hub1" resource_group_name' cl' tr' rg' hub' news' ->
    iot_hub_routing_endpoint_show "hub1" name resource_group_name' cl' tr' =
      (inl (CLIError "No endpoint found."), news').
Proof.
  refine (endpoint_delete_without_arguments_deletes_all example_client [] "hub1"
            None (Some EmptyString) None "rg1" example_hub example_fetch_calls
            example_routing _ _ example_hub_fetched _).
  - reflexivity.
  - reflexivity.
  - reflexivity.
Defined.

Lemma endpoint_show_fails_iff_delete_by_name_changes_nothing_witness :
  (iot_hub_routing_endpoint_show "hub1" "nowhere" None example_client [] =
     (inl (CLIError "No endpoint found."), example_fetch_calls)
   <->
   resubmissions (iot_hub_routing_endpoint_delete "hub1" (Some "nowhere") None None)
     example_client [] =
   [iot_hub_resource_create_or_update "rg1" "hub1" example_hub
      (if_match_headers example_hub)])
  /\
  resubmissions (iot_hub_routing_endpoint_delete "hub1" (Some EmptyString) None None)
    example_client [] =
  [iot_hub_resource_create_or_update "rg1" "hub1"
     (set_hub_routing
        (set_routing_endpoints (mkEndpoints [] [] [] []) example_routing)
        example_hub)
     (if_match_headers example_hub)].
Proof.
  refine (let both :=
            endpoint_show_fails_iff_delete_by_name_changes_nothing example_client []
              "hub1" "nowhere" None "rg1" example_hub example_fetch_calls
              example_routing example_hub_fetched eq_refl in
          conj (proj1 both _) (proj2 both)).
  discriminate.
Defined.

Lemma endpoint_shown_survives_delete_by_name_witness :
  exists shown hub',
    iot_hub_routing_endpoint_show "hub1" "x" None example_shared_name_client [] =
      (inr (an_event_hub shown), example_fetch_calls) /\
    resubmissions (iot_hub_routing_endpoint_delete "hub1" (Some "x") None None)
      example_shared_name_client [] =
      [iot_hub_resource_create_or_update "rg1" "hub1" hub'
         (if_match_headers example_shared_name_hub)] /\
    forall cl' tr' resource_group_name' rg' news',
      hub_fetched "hub1" resource_group_name' cl' tr' rg' hub' news' ->
      iot_hub_routing_endpoint_show "hub1" "x" resource_group_name' cl' tr' =
        (inr (an_event_hub shown), news').
Proof.
  refine (endpoint_shown_survives_delete_by_name example_shared_name_client [] "hub1"
            "x" None "rg1" example_shared_name_hub example_fetch_calls
            example_shared_name_routing ServiceBusQueue _
            example_shared_name_hub_fetched _ _ _ _).
  - reflexivity.
  - reflexivity.
  - vm_compute. reflexivity.
  - discriminate.
  - vm_compute. reflexivity.
Defined.


Lemma storage_endpoint_needs_container_name_witness :
  iot_hub_routing_endpoint_create "hub1" "store" "AzureStorageContainer" "rg1" "sub"
    "DefaultEndpointsProtocol=https" None None None 300 300 "{iothub}/{partition}"
    example_client [] =
    (inl (CLIError "Container name is required."), example_fetch_calls) /\
  resubmissions
    (iot_hub_routing_endpoint_create "hub1" "store" "AzureStorageContainer" "rg1"
       "sub" "DefaultEndpointsProtocol=https" None None None 300 300
       "{iothub}/{partition}") example_client [] = [].
Proof.
  refine (storage_endpoint_needs_container_name example_client [] "hub1" "store"
            "AzureStorageContainer" "rg1" "sub" "DefaultEndpointsProtocol=https"
            None None None 300 300 "{iothub}/{partition}" "rg1" example_hub
            example_fetch_calls _ _ example_hub_fetched).
  - intros t. destruct t; split; intros Heq;
      solve [reflexivity | vm_compute in Heq; discriminate | discriminate].
  - reflexivity.
Defined.

Lemma route_update_changes_the_route_shown_witness :
  iot_hub_route_show "hub1" "ROUTE1" None example_client [] =
    (inr example_route, example_fetch_calls) /\
  resubmissions
    (iot_hub_route_update "hub1" "ROUTE1" None (Some "eh1 x") (Some false) None None)
    example_client [] =
  [iot_hub_resource_create_or_update "rg1" "hub1"
     (set_hub_routes
        ([] ++
         mkRoute (rt_name example_route)
           (default (rt_source example_route) None)
           (default (rt_condition example_route) None)
           (split "eh1 x")
           (default (rt_is_enabled example_route) (Some false)) :: [])
        example_routing example_hub)
     (if_match_headers example_hub)].
Proof.
  refine (route_update_changes_the_route_shown example_client [] "hub1" "ROUTE1" None
            (Some "eh1 x") (Some false) None None "rg1" example_hub
            example_fetch_calls example_routing [] [] example_route
            example_hub_fetched _ _ _ _).
  - reflexivity.
  - reflexivity.
  - constructor.
  - vm_compute. reflexivity.
Defined.

Lemma route_delete_keeps_what_matches_neither_witness :
  exists kept,
    resubmissions
      (iot_hub_route_delete "hub1" (Some "other") (Some "devicemessages") None)
      example_client [] =
    [iot_hub_resource_create_or_update "rg1" "hub1"
       (set_hub_routes kept example_routing example_hub)
       (if_match_headers example_hub)] /\
    kept `sublist_of` routing_routes example_routing /\
    forall route,
      In route kept <->
      In route (routing_routes example_routing) /\
      (truthy (Some "other") = true \/ truthy (Some "devicemessages") = true) /\
      (truthy (Some "other") = true ->
       lower (rt_name route) <> lower (default EmptyString (Some "other"))) /\
      (truthy (Some "devicemessages") = true ->
       lower (rt_source route) <>
       lower (default EmptyString (Some "devicemessages"))).
Proof.
  refine (route_delete_keeps_what_matches_neither example_client [] "hub1"
            (Some "other") (Some "devicemessages") None "rg1" example_hub
            example_fetch_calls example_routing example_hub_fetched _).
  reflexivity.
Defined.

Lemma route_delete_by_source_then_list_witness :
  exists hub',
    resubmissions
      (iot_hub_route_delete "hub1" None (Some "devicemessages") None)
      example_client [] =
    [iot_hub_resource_create_or_update "rg1" "hub1" hub'
       (if_match_headers example_hub)] /\
    forall cl' tr' resource_group_name' rg' news',
      hub_fetched "hub1" resource_group_name' cl' tr' rg' hub' news' ->
      iot_hub_route_list "hub1" (Some "devicemessages") resource_group_name' cl' tr' =
        (inr [], news') /\
      forall other,
        truthy (Some other) = true ->
        lower other <> lower "devicemessages" ->
        iot_hub_route_list "hub1" (Some other) resource_group_name' cl' tr' =
          (inr (List.filter
                  (fun route => String.eqb (lower (rt_source route)) (lower other))
                  (routing_routes example_routing)), news').
Proof.
  refine (route_delete_by_source_then_list example_client [] "hub1" "devicemessages"
            None "rg1" example_hub example_fetch_calls example_routing _
            example_hub_fetched _).
  - reflexivity.
  - reflexivity.
Defined.

Lemma route_created_under_a_taken_name_is_shadowed_witness :
  let created :=
    mkRoute "Route1" "TwinChangeEvents" (default "true" None) (split "eh1")
      (default true None) in
  exists hub',
    resubmissions
      (iot_hub_route_create "hub1" "Route1" "TwinChangeEvents" "eh1" None None None)
      example_client [] =
    [iot_hub_resource_create_or_update "rg1" "hub1" hub'
       (if_match_headers example_hub)] /\
    routing_routes <$> routing (h_properties hub') =
      Some (routing_routes example_routing ++ [created]) /\
    forall cl' tr' resource_group_name' rg' news',
      hub_fetched "hub1" resource_group_name' cl' tr' rg' hub' news' ->
      iot_hub_route_show "hub1" "Route1" resource_group_name' cl' tr' =
        (inr (match (iot_hub_route_show "hub1" "Route1" None example_client []).1 with
              | inr older => older
              | inl _ => created
              end), news').
Proof.
  refine (route_created_under_a_taken_name_is_shadowed example_client [] "hub1"
            "Route1" "TwinChangeEvents" "eh1" None None None "rg1" example_hub
            example_fetch_calls example_routing example_hub_fetched _).
  reflexivity.
Defined.

Lemma hub_without_enrichment_list_witness :
  iot_message_enrichment_list "hub1" None example_client [] =
    (inr None, example_fetch_calls) /\
  (forall key value endpoints,
     resubmissions (iot_message_enrichment_create "hub1" key value endpoints None)
       example_client [] =
     [iot_hub_resource_create_or_update "rg1" "hub1"
        (set_hub_routing
           (set_routing_enrichments (Some [mkEnrichment key value endpoints])
              example_routing) example_hub)
        (if_match_headers example_hub)]) /\
  (forall key value endpoints,
     iot_message_enrichment_update "hub1" key value endpoints None example_client [] =
       (inl TypeError, example_fetch_calls)) /\
  (forall key,
     iot_message_enrichment_delete "hub1" key None example_client [] =
       (inl TypeError, example_fetch_calls)).
Proof.
  refine (hub_without_enrichment_list example_client [] "hub1" None "rg1" example_hub
            example_fetch_calls example_routing example_hub_fetched _ _).
  - reflexivity.
  - reflexivity.
Defined.

Lemma enrichment_update_and_delete_take_the_first_of_the_key_witness :
  (forall value endpoints,
     resubmissions (iot_message_enrichment_update "hub1" "k" value endpoints None)
       example_enriched_client [] =
     [iot_hub_resource_create_or_update "rg1" "hub1"
        (set_hub_routing
           (set_routing_enrichments
              (Some ([] ++ mkEnrichment "k" value endpoints ::
                     [mkEnrichment "k" "v2" ["events"]]))
              example_enriched_routing) example_enriched_hub)
        (if_match_headers example_enriched_hub)]) /\
  resubmissions (iot_message_enrichment_delete "hub1" "k" None)
    example_enriched_client [] =
  [iot_hub_resource_create_or_update "rg1" "hub1"
     (set_hub_routing
        (set_routing_enrichments
           (Some ([] ++ [mkEnrichment "k" "v2" ["events"]]))
           example_enriched_routing) example_enriched_hub)
     (if_match_headers example_enriched_hub)].
Proof.
  refine (enrichment_update_and_delete_take_the_first_of_the_key
            example_enriched_client [] "hub1" "k" None "rg1" example_enriched_hub
            example_fetch_calls example_enriched_routing []
            [mkEnrichment "k" "v2" ["events"]] (mkEnrichment "k" "v1" ["events"])
            example_enriched_hub_fetched _ _ _ _).
  - reflexivity.
  - reflexivity.
  - constructor.
  - reflexivity.
Defined.

Lemma routing_commands_fail_as_the_fetch_fails_witness :
  let e := CLIError "No IoT Hub found with name hub9 in current subscription." in
  let news := [iot_hub_resource_list_by_subscription] in
  (forall endpoint_name endpoint_type endpoint_resource_group
          endpoint_subscription_id connection_string container_name encoding
          batch_frequency chunk_size_window file_name_format,
     iot_hub_routing_endpoint_create "hub9" endpoint_name endpoint_type
       endpoint_resource_group endpoint_subscription_id connection_string
       container_name encoding None batch_frequency chunk_size_window
       file_name_format example_client [] = (inl e, news)) /\
  (forall endpoint_type,
     iot_hub_routing_endpoint_list "hub9" endpoint_type None example_client [] =
       (inl e, news)) /\
  (forall endpoint_name,
     iot_hub_routing_endpoint_show "hub9" endpoint_name None example_client [] =
       (inl e, news)) /\
  (forall endpoint_name endpoint_type,
     iot_hub_routing_endpoint_delete "hub9" endpoint_name endpoint_type None
       example_client [] = (inl e, news)) /\
  (forall route_name source_type endpoint_name enabled condition,
     iot_hub_route_create "hub9" route_name source_type endpoint_name enabled
       condition None example_client [] = (inl e, news)) /\
  (forall source_type,
     iot_hub_route_list "hub9" source_type None example_client [] = (inl e, news)) /\
  (forall route_name,
     iot_hub_route_show "hub9" route_name None example_client [] = (inl e, news)) /\
  (forall route_name source_type,
     iot_hub_route_delete "hub9" route_name source_type None example_client [] =
       (inl e, news)) /\
  (forall route_name source_type endpoint_name enabled condition,
     iot_hub_route_update "hub9" route_name source_type endpoint_name enabled
       condition None example_client [] = (inl e, news)) /\
  (forall key value endpoints,
     iot_message_enrichment_create "hub9" key value endpoints None
       example_client [] = (inl e, news)) /\
  (forall key value endpoints,
     iot_message_enrichment_update "hub9" key value endpoints None
       example_client [] = (inl e, news)) /\
  (forall key,
     iot_message_enrichment_delete "hub9" key None example_client [] =
       (inl e, news)) /\
  iot_message_enrichment_list "hub9" None example_client [] = (inl e, news) /\
  List.filter is_create_or_update news = [].
Proof.
  refine (routing_commands_fail_as_the_fetch_fails example_client [] "hub9" None
            (CLIError "No IoT Hub found with name hub9 in current subscription.")
            [iot_hub_resource_list_by_subscription] _).
  vm_compute. reflexivity.
Defined.

Lemma hub_create_checks_the_name_and_finds_the_location_witness :
  let create :=
    iot_hub_create "hub2" "rg1" None "S1" 1 4 1 1 10 5 1 10 false 10 1 None None 1 in
  let asked_name := iot_hub_resource_check_name_availability "hub2" in
  (exists hub,
     create example_client [] =
       (on_hub_create_or_update example_client
          ([] ++ [asked_name; resource_groups_get "rg1"]) "rg1" "hub2" hub None,
        [asked_name; resource_groups_get "rg1";
         iot_hub_resource_create_or_update "rg1" "hub2" hub None])
     /\ h_location hub = "westus" /\ h_etag hub = None) /\
  iot_hub_create "hub2" "rg1" None "S1" 1 4 1 100000000000 10 5 1 10 false 10 1 None
    None 1 example_client [] =
    (inl OverflowError, [asked_name; resource_groups_get "rg1"]).
Proof.
  split.
  - refine (proj1 (proj1 (proj2 (proj2
              (hub_create_checks_the_name_and_finds_the_location example_client []
                 "hub2" "rg1" None "S1" 1 4 1 1 10 5 1 10 false 10 1 None None 1
                 eq_refl _)
              (Some (mkAvailability true "name taken")) eq_refl _))
              "westus" eq_refl eq_refl) _).
    + discriminate.
    + discriminate.
    + repeat constructor; unfold timedelta_accepts; vm_compute; discriminate.
  - refine (proj2 (proj1 (proj2 (proj2
              (hub_create_checks_the_name_and_finds_the_location example_client []
                 "hub2" "rg1" None "S1" 1 4 1 100000000000 10 5 1 10 false 10 1 None
                 None 1 eq_refl _)
              (Some (mkAvailability true "name taken")) eq_refl _))
              "westus" eq_refl eq_refl) _).
    + discriminate.
    + discriminate.
    + intros Hall. apply Forall_cons_1 in Hall. destruct Hall as [_ Hall].
      apply Forall_cons_1 in Hall. destruct Hall as [_ Hall].
      apply Forall_cons_1 in Hall. destruct Hall as [Hc2d _].
      unfold timedelta_accepts in Hc2d. vm_compute in Hc2d. apply Hc2d. reflexivity.
Defined.

Lemma hub_update_keeps_the_identity_of_the_hub_witness :
  let updated := set_h_sku (mkHubSku "S2" (sku_capacity (h_sku example_hub))) example_hub in
  same_identity example_hub updated /\
  forall hub_name resource_group_name cl' tr' c,
    In c (resubmissions (iot_hub_update hub_name updated resource_group_name)
            cl' tr') ->
    carries_etag (h_etag example_hub) c.
Proof.
  refine (hub_update_keeps_the_identity_of_the_hub example_hub (Some "S2") None None
            None None None None None None None None None None None example_client []
            (set_h_sku (mkHubSku "S2" (sku_capacity (h_sku example_hub))) example_hub)
            _).
  reflexivity.
Defined.

Lemma connection_string_of_one_policy_witness :
  let with_key key :=
    (inr (inr (connectionString
                 ("HostName=" +:+ host_name (h_properties example_hub) +:+
                  ";SharedAccessKeyName=" +:+ rule_key_name example_hub_policy +:+
                  ";SharedAccessKey=" +:+ format_value key))),
     [iot_hub_resource_list_by_subscription] ++
     [iot_hub_resource_get_keys_for_key_name "rg1" "hub1" "iothubowner"] ++
     [iot_hub_resource_list_by_subscription]) in
  (forall s,
     iot_hub_show_connection_string (Some "hub1") None "iothubowner" (key_string s)
       false example_client [] = with_key (rule_primary_key example_hub_policy)) /\
  iot_hub_show_connection_string (Some "hub1") None "iothubowner"
    (key_member primary) false example_client [] =
    with_key (rule_primary_key example_hub_policy) /\
  iot_hub_show_connection_string (Some "hub1") None "iothubowner"
    (key_member secondary) false example_client [] =
    with_key (rule_secondary_key example_hub_policy).
Proof.
  refine (connection_string_of_one_policy example_client [] "hub1" "iothubowner" None
            "rg1" [iot_hub_resource_list_by_subscription] example_hub_policy
            [iot_hub_resource_get_keys_for_key_name "rg1" "hub1" "iothubowner"]
            example_hub [iot_hub_resource_list_by_subscription] _ _ _).
  - vm_compute. reflexivity.
  - vm_compute. reflexivity.
  - vm_compute. reflexivity.
Defined.

Lemma linked_hub_delete_removes_the_name_witness :
  exists sent,
    resubmissions
      (iot_dps_linked_hub_delete "dps1" (Some "rg1") "HUB1.azure-devices.net" true)
      example_client [] =
      [iot_dps_resource_create_or_update (Some "rg1") "dps1"
         (dps_description_of example_dps
            (mkDpsProperties sent (allocation_policy (d_properties example_dps))
               (dps_authorization_policies (d_properties example_dps)))) None] /\
    sent `sublist_of` [example_linked_hub] /\
    ~ In example_linked_hub sent.
Proof.
  destruct (linked_hub_delete_removes_the_name example_client [] "dps1" (Some "rg1")
              "HUB1.azure-devices.net" true [example_linked_hub]
              [iot_dps_resource_get "dps1" (Some "rg1")]
              example_dps [iot_dps_resource_get "dps1" (Some "rg1")])
    as (sent & Hsent & Hsub & Hin & _).
  - vm_compute. reflexivity.
  - exists example_linked_hub. split; [left; reflexivity | vm_compute; reflexivity].
  - vm_compute. reflexivity.
  - exists sent. split; [exact Hsent|]. split; [exact Hsub|].
    intros Hh. apply Hin in Hh. destruct Hh as [_ Hh]. apply Hh.
    vm_compute. reflexivity.
Defined.

Lemma waited_linked_hub_update_in_other_letter_case_witness :
  let sent :=
    iot_dps_resource_create_or_update (Some "rg1") "dps1"
      (dps_description_of example_dps
         (mkDpsProperties [example_linked_hub]
            (allocation_policy (d_properties example_dps))
            (dps_authorization_policies (d_properties example_dps)))) None in
  iot_dps_linked_hub_update "dps1" (Some "rg1") "HUB1.azure-devices.net" (Some false)
    None false example_client [] =
    (inl (CLIError ("Linked hub '" +:+ "HUB1.azure-devices.net" +:+
       "' does not exist. Use 'iot dps linked-hub show to see all linked hubs.")),
     [iot_dps_resource_get "dps1" (Some "rg1")] ++
     [iot_dps_resource_get "dps1" (Some "rg1")] ++ [sent] ++
     [iot_dps_resource_get "dps1" (Some "rg1")]).
Proof.
  refine (waited_linked_hub_update_in_other_letter_case example_client [] "dps1"
            (Some "rg1") "HUB1.azure-devices.net" (Some false) None
            [example_linked_hub] [iot_dps_resource_get "dps1" (Some "rg1")]
            example_dps [iot_dps_resource_get "dps1" (Some "rg1")]
            (dps_description_of example_dps
               (mkDpsProperties [example_linked_hub]
                  (allocation_policy (d_properties example_dps))
                  (dps_authorization_policies (d_properties example_dps))))
            example_dps [iot_dps_resource_get "dps1" (Some "rg1")]
            _ _ _ _ _ _ _).
  - vm_compute. reflexivity.
  - exists example_linked_hub. split; [left; reflexivity | vm_compute; reflexivity].
  - repeat constructor. discriminate.
  - vm_compute. reflexivity.
  - reflexivity.
  - vm_compute. reflexivity.
  - reflexivity.
Defined.

Lemma hub_policy_key_renewal_generates_one_key_witness :
  let generated :=
    on_generateKey example_client
      ([] ++ [iot_hub_resource_list_by_subscription] ++
       [iot_hub_resource_list_keys "rg1" "hub1"]) in
  let sent renewed :=
    iot_hub_resource_create_or_update "rg1" "hub1"
      (set_hub_authorization_policies
         ([] ++
          List.filter
            (fun q => negb (String.eqb (lower (rule_key_name q)) (lower "iothubowner")))
            [] ++ [renewed]) example_hub)
      (if_match_headers example_hub) in
  let renewal regenerate_key renewed :=
    forall no_wait,
      resubmissions
        (iot_hub_policy_key_renew "hub1" "iothubowner" regenerate_key None no_wait)
        example_client [] = [sent renewed] /\
      exists rest,
        (iot_hub_policy_key_renew "hub1" "iothubowner" regenerate_key None no_wait
           example_client []).2 =
          [iot_hub_resource_list_by_subscription] ++
          [iot_hub_resource_list_keys "rg1" "hub1"] ++
          [utils_generateKey; sent renewed] ++ rest /\
        (utils_generateKey ∉
           [iot_hub_resource_list_by_subscription] ++
           [iot_hub_resource_list_keys "rg1" "hub1"] ++ rest) /\
        (no_wait = true -> rest = []) in
  renewal (RenewKeyType_value Primary)
    (mkRule (rule_key_name example_hub_policy) (Some generated)
       (rule_secondary_key example_hub_policy) (rule_rights example_hub_policy)) /\
  renewal (RenewKeyType_value Secondary)
    (mkRule (rule_key_name example_hub_policy)
       (rule_primary_key example_hub_policy) (Some generated)
       (rule_rights example_hub_policy)).
Proof.
  refine (hub_policy_key_renewal_generates_one_key example_client [] "hub1"
            "iothubowner" None example_hub [iot_hub_resource_list_by_subscription]
            "rg1" [] [] example_hub_policy [iot_hub_resource_list_keys "rg1" "hub1"]
            _ _ _ _ _ _ _ _).
  - intros Heq. vm_compute in Heq. discriminate.
  - intros Heq. vm_compute in Heq. discriminate.
  - intros Heq. vm_compute in Heq. discriminate.
  - vm_compute. reflexivity.
  - reflexivity.
  - vm_compute. reflexivity.
  - constructor.
  - reflexivity.
Defined.
